(** * Java Project Assistant: the line-oriented Java analyzer and its reports

    A shallow embedding of the five analysis tools of the MCP server
    (DependencyAnalyzer, TestGenerator, CodeQualityChecker,
    DocumentationGenerator, ProjectStructureAnalyzer) and the properties
    their specification states about them.

    Conventions of the embedding.

    - A JavaScript string is a [string]: a sequence of code units.  The
      model covers code units 0..255; fixed report fragments that contain
      characters beyond that range are kept as their UTF-8 bytes, as they
      stand in the source files, and are never inspected by the modelled
      operations.
    - A JavaScript number is an IEEE 754 binary64 value, [spec_float] at
      precision 53 and maximal exponent 1024.  Counters and array lengths
      are kept as [nat] and converted when they enter a division.
    - A plain object used as a dictionary is an association list of its own
      entries in enumeration order.  Reading [d[k]] where [d] has no entry
      of its own finds the member of that name that every object inherits
      from [Object.prototype], if there is one.
    - Code that can throw or read files is an [Effect]: the paths it read
      and its [Completion].  The arguments of an entry point are an object
      with the members its parameter type declares, or [undefined] when the
      request has none; their members are read before the [try] statement.
    - Paths are joined as [path.join] does on a POSIX system. *)

From Stdlib Require Import List String Ascii Bool Arith ZArith Lia Sorted Permutation.
From Stdlib Require Import Floats.SpecFloat Numbers.DecimalString.
Import ListNotations.
Set Warnings "-register-all,-abstract-large-number".
Open Scope string_scope.
Open Scope nat_scope.

(** ** JavaScript strings *)

Module JS.

Definition nl : string := String "010"%char EmptyString.
Definition dquote : string := String (ascii_of_nat 34) EmptyString.

(** [WhiteSpace] and [LineTerminator] code units below 256: TAB, LF, VT,
    FF, CR, SP and NBSP.  Both [String.prototype.trim] and the regular
    expression class [\s] use this set. *)
Definition isWhiteSpace (c : ascii) : bool :=
  let n := nat_of_ascii c in
  ((9 <=? n) && (n <=? 13)) || (n =? 32) || (n =? 160).

Definition isDigit (c : ascii) : bool :=
  let n := nat_of_ascii c in (48 <=? n) && (n <=? 57).

(** The class [\w]: ASCII letters, digits and the underscore. *)
Definition isWordChar (c : ascii) : bool :=
  let n := nat_of_ascii c in
  ((97 <=? n) && (n <=? 122)) || ((65 <=? n) && (n <=? 90))
  || isDigit c || (n =? 95).

Fixpoint trimStart (s : string) : string :=
  match s with
  | EmptyString => EmptyString
  | String c s' => if isWhiteSpace c then trimStart s' else s
  end.

Fixpoint trimEnd (s : string) : string :=
  match s with
  | EmptyString => EmptyString
  | String c s' =>
      match trimEnd s' with
      | EmptyString => if isWhiteSpace c then EmptyString else String c EmptyString
      | t => String c t
      end
  end.

Definition trim (s : string) : string := trimEnd (trimStart s).

Fixpoint startsWith (s p : string) {struct p} : bool :=
  match p, s with
  | EmptyString, _ => true
  | String a p', String b s' => Ascii.eqb a b && startsWith s' p'
  | String _ _, EmptyString => false
  end.

Fixpoint includes (s p : string) : bool :=
  startsWith s p ||
  match s with
  | EmptyString => false
  | String _ s' => includes s' p
  end.

Fixpoint drop (n : nat) (s : string) : string :=
  match n, s with
  | O, _ => s
  | S n', String _ s' => drop n' s'
  | S _, EmptyString => EmptyString
  end.

Definition endsWith (s p : string) : bool :=
  (String.length p <=? String.length s)
  && String.eqb (drop (String.length s - String.length p) s) p.

(** The replacement text of [replace] for a string pattern, which has no
    captures: [$$] is a dollar sign, [$&] the matched text, [$`] the text
    before the match and [$'] the text after it; any other [$] stands for
    itself. *)
Fixpoint substitution (rep matched before after : string) : string :=
  match rep with
  | EmptyString => EmptyString
  | String c tl =>
      if Ascii.eqb c "$" then
        match tl with
        | String d rest =>
            if Ascii.eqb d "$" then String c (substitution rest matched before after)
            else if Ascii.eqb d "&" then matched ++ substitution rest matched before after
            else if Ascii.eqb d "`" then before ++ substitution rest matched before after
            else if Ascii.eqb d "'" then after ++ substitution rest matched before after
            else String c (substitution tl matched before after)
        | EmptyString => String c EmptyString
        end
      else String c (substitution tl matched before after)
  end.

(** [s.replace(pat, rep)] with a string pattern: the first occurrence only;
    [before] is the text already passed. *)
Fixpoint replaceFrom (before s pat rep : string) : string :=
  if startsWith s pat then
    substitution rep pat before (drop (String.length pat) s)
    ++ drop (String.length pat) s
  else match s with
       | EmptyString => EmptyString
       | String c s' =>
           String c (replaceFrom (before ++ String c EmptyString) s' pat rep)
       end.

Definition replace (s pat rep : string) : string := replaceFrom EmptyString s pat rep.

(** [content.split('\n')] *)
Fixpoint split_lines (s : string) : list string :=
  match s with
  | EmptyString => [EmptyString]
  | String c s' =>
      let r := split_lines s' in
      if Ascii.eqb c "010"%char then EmptyString :: r
      else match r with
           | h :: t => String c h :: t
           | [] => [String c EmptyString]
           end
  end.

Definition lowerChar (c : ascii) : ascii :=
  let n := nat_of_ascii c in
  if ((65 <=? n) && (n <=? 90))
     || ((192 <=? n) && (n <=? 222) && negb (n =? 215))
  then ascii_of_nat (n + 32) else c.

Fixpoint toLowerCase (s : string) : string :=
  match s with
  | EmptyString => EmptyString
  | String c s' => String (lowerChar c) (toLowerCase s')
  end.

(** The code units [toUpperCase] puts for one: the Latin-1 letters have
    their capitals 32 below, sharp s becomes [SS], and the capitals of the
    micro sign (U+039C) and of y with diaeresis (U+0178), which lie beyond
    the range of the model, are written as their UTF-8 bytes. *)
Definition upperChar (c : ascii) : string :=
  let n := nat_of_ascii c in
  if ((97 <=? n) && (n <=? 122))
     || ((224 <=? n) && (n <=? 254) && negb (n =? 247))
  then String (ascii_of_nat (n - 32)) EmptyString
  else if n =? 223 then "SS"
  else if n =? 181 then String (ascii_of_nat 206) (String (ascii_of_nat 156) EmptyString)
  else if n =? 255 then String (ascii_of_nat 197) (String (ascii_of_nat 184) EmptyString)
  else String c EmptyString.

Fixpoint toUpperCase (s : string) : string :=
  match s with
  | EmptyString => EmptyString
  | String c s' => upperChar c ++ toUpperCase s'
  end.

(** Truthiness of a string: non-empty. *)
Definition truthy (s : string) : bool := negb (String.eqb s EmptyString).

Fixpoint join (sep : string) (l : list string) : string :=
  match l with
  | [] => EmptyString
  | [x] => x
  | x :: t => x ++ sep ++ join sep t
  end.

(** ** Regular expressions

    The fragment of ECMAScript regular expressions the tools use, with the
    backtracking semantics of the language: alternatives are tried left to
    right, quantifiers are greedy, an iteration of a quantifier that
    consumes nothing is rejected, and a search tries every start position
    from the left. *)

Inductive regex : Type :=
| Chr (c : ascii)
| Cls (p : ascii -> bool)
| Eps
| Seq (a b : regex)
| Alt (a b : regex)
| Star (a : regex)
| Grp (i : nat) (a : regex)
| WordBoundary.

Definition Plus (a : regex) : regex := Seq a (Star a).

Fixpoint Str (s : string) : regex :=
  match s with
  | EmptyString => Eps
  | String c s' => Seq (Chr c) (Str s')
  end.

Definition captures := list (nat * string).

Fixpoint capture (i : nat) (cs : captures) : option string :=
  match cs with
  | [] => None
  | (j, v) :: t => if i =? j then Some v else capture i t
  end.

Definition charAt (s : string) (i : nat) : option ascii := String.get i s.

Definition isWordAt (o : option ascii) : bool :=
  match o with Some c => isWordChar c | None => false end.

Section Matcher.
Variable input : string.

(** [run r pos k]: match [r] at offset [pos] of [input], then continue
    with [k] at the offset reached. *)
Fixpoint run (r : regex) (pos : nat) (cs : captures)
    (k : nat -> captures -> option (nat * captures)) {struct r}
    : option (nat * captures) :=
  match r with
  | Chr c =>
      match charAt input pos with
      | Some d => if Ascii.eqb c d then k (S pos) cs else None
      | None => None
      end
  | Cls p =>
      match charAt input pos with
      | Some d => if p d then k (S pos) cs else None
      | None => None
      end
  | Eps => k pos cs
  | Seq a b => run a pos cs (fun pos' cs' => run b pos' cs' k)
  | Alt a b =>
      match run a pos cs k with
      | Some res => Some res
      | None => run b pos cs k
      end
  | Star a =>
      (fix loop (fuel : nat) (pos : nat) (cs : captures) {struct fuel} :=
         match fuel with
         | O => k pos cs
         | S fuel' =>
             match run a pos cs
                     (fun pos' cs' =>
                        if pos <? pos' then loop fuel' pos' cs' else None) with
             | Some res => Some res
             | None => k pos cs
             end
         end) (S (String.length input - pos)) pos cs
  | Grp i a =>
      run a pos cs
        (fun pos' cs' => k pos' ((i, String.substring pos (pos' - pos) input) :: cs'))
  | WordBoundary =>
      let before := match pos with O => false | S p => isWordAt (charAt input p) end in
      let after := isWordAt (charAt input pos) in
      if xorb before after then k pos cs else None
  end.

Fixpoint search (r : regex) (fuel pos : nat) : option (nat * captures) :=
  match run r pos [] (fun e cs => Some (e, cs)) with
  | Some res => Some res
  | None =>
      match fuel with
      | O => None
      | S fuel' => search r fuel' (S pos)
      end
  end.
End Matcher.

(** [s.match(r)] for a non-global [r]: the captures of the leftmost match. *)
Definition exec (r : regex) (s : string) : option captures :=
  match search s r (String.length s) 0 with
  | Some (_, cs) => Some cs
  | None => None
  end.

Definition test (r : regex) (s : string) : bool :=
  match exec r s with Some _ => true | None => false end.

(** The loop [while ((match = r.exec(s)) !== null)] for a global [r]: every
    match, each search resuming where the previous match ended (one further
    when that match was empty). *)
Fixpoint execAll (r : regex) (s : string) (fuel pos : nat) : list captures :=
  match fuel with
  | O => []
  | S fuel' =>
      if String.length s <? pos then []
      else
        match search s r (String.length s - pos) pos with
        | Some (e, cs) => cs :: execAll r s fuel' (if e =? pos then S e else e)
        | None => []
        end
  end.

Definition matchAll (r : regex) (s : string) : list captures :=
  execAll r s (S (String.length s)) 0.

Definition group (i : nat) (cs : captures) : string :=
  match capture i cs with Some v => v | None => EmptyString end.

End JS.

(** ** JavaScript numbers *)

Module Number.

Definition prec : Z := 53.
Definition emax : Z := 1024.

Definition number := spec_float.

Definition NaN : number := S754_nan.
Definition Infinity : number := S754_infinity false.

(** The number value of a length or of a counter. *)
Definition ofNat (n : nat) : number :=
  binary_normalize prec emax (Z.of_nat n) 0 false.

Definition div (x y : number) : number := SFdiv prec emax x y.
Definition mul (x y : number) : number := SFmul prec emax x y.

Definition isNaN (x : number) : bool :=
  match x with S754_nan => true | _ => false end.

Definition isFinite (x : number) : bool :=
  match x with
  | S754_zero _ | S754_finite _ _ _ => true
  | S754_infinity _ | S754_nan => false
  end.

Definition digits (n : Z) : string :=
  DecimalString.NilZero.string_of_uint (N.to_uint (Z.to_N n)).

(** The integer [n] for which [n / 10 - m * 2^e] is closest to zero, the
    larger one when two are as close. *)
Definition nearestTenth (m : positive) (e : Z) : Z :=
  match e with
  | Zneg k => (20 * Zpos m + 2 ^ Zpos k) / 2 ^ (Zpos k + 1)
  | _ => 10 * Zpos m * 2 ^ e
  end%Z.

Definition atLeast1e21 (m : positive) (e : Z) : bool :=
  match e with
  | Zneg k => (10 ^ 21 * 2 ^ Zpos k <=? Zpos m)
  | _ => (10 ^ 21 <=? Zpos m * 2 ^ e)
  end%Z.

Definition fixed1 (n : Z) : string :=
  let d := digits n in
  let d := if String.length d <=? 1 then "0" ++ d else d in
  String.substring 0 (String.length d - 1) d ++ "."
  ++ String.substring (String.length d - 1) 1 d.

(** [x.toFixed(1)].  A finite [x] of magnitude [10^21] or more is printed by
    [Number::toString], which is outside the model: the result is [None]. *)
Definition toFixed1 (x : number) : option string :=
  match x with
  | S754_nan => Some "NaN"
  | S754_infinity false => Some "Infinity"
  | S754_infinity true => Some "-Infinity"
  | S754_zero _ => Some "0.0"
  | S754_finite s m e =>
      if atLeast1e21 m e then None
      else Some ((if s then "-" else "") ++ fixed1 (nearestTenth m e))
  end.

(** A template literal prints a length or counter in decimal. *)
Definition showNat (n : nat) : string := digits (Z.of_nat n).

End Number.


(** ** Abrupt completion and the file system *)

(** A computation either returns or throws; a thrown value is kept as the
    text [error instanceof Error ? error.message : String(error)] reads
    from it. *)
Inductive Completion (A : Type) : Type :=
| Normal (a : A)
| Throw (message : string).
Arguments Normal {A} a.
Arguments Throw {A} message.

(** An effectful computation yields the paths whose contents it read with
    [readFileSync], in order, and how it completed. *)
Definition Effect (A : Type) : Type := list string * Completion A.

Definition reads {A : Type} (m : Effect A) : list string := fst m.
Definition outcome {A : Type} (m : Effect A) : Completion A := snd m.

Definition ret {A : Type} (a : A) : Effect A := ([], Normal a).
Definition throw {A : Type} (e : string) : Effect A := ([], Throw e).

Definition bind {A B : Type} (m : Effect A) (f : A -> Effect B) : Effect B :=
  match m with
  | (t, Normal a) => let (t', r) := f a in ((t ++ t')%list, r)
  | (t, Throw e) => (t, Throw e)
  end.

Notation "x <- c ;; k" := (bind c (fun x => k))
  (at level 61, c at next level, right associativity).

(** [try { body } catch (error) { handler }] *)
Definition tryCatch {A : Type} (body : Effect A) (handler : string -> Effect A)
  : Effect A :=
  match body with
  | (t, Normal a) => (t, Normal a)
  | (t, Throw e) => let (t', r) := handler e in ((t ++ t')%list, r)
  end.

(** [const { projectPath, ... } = args], the first statement of every entry
    point, ahead of its [try].  The server hands over
    [request.params.arguments] unchecked: an object, or [undefined] when the
    request has none, and reading a member of [undefined] throws. *)
Definition noArguments : string :=
  "Cannot destructure property 'projectPath' of 'args' as it is undefined.".

Definition destructure {A B : Type} (args : option A) (rest : A -> Effect B)
  : Effect B :=
  match args with
  | Some members => rest members
  | None => throw noArguments
  end.

(** A directory entry as [readdirSync(dir, { withFileTypes: true })] returns
    it, together with what listing it would return in turn; a listing of
    [None] is a directory that cannot be read. *)
Inductive Dirent : Type :=
| FileEnt (name : string)
| DirEnt (name : string) (listing : option (list Dirent))
| OtherEnt (name : string).

Record World : Type := {
  readdirSync : string -> option (list Dirent);
  readFileSync : string -> Completion string;
  existsSync : string -> bool
}.

(** [readFileSync(path, 'utf-8')] *)
Definition readFile (w : World) (path : string) : Effect string :=
  ([path], readFileSync w path).

(** ** Paths

    [path.join] of Node on a POSIX system: the non-empty arguments are
    joined with a slash and the result is normalized. *)
Module Path.

(** [path.split('/')] *)
Fixpoint segments (path : string) : list string :=
  match path with
  | EmptyString => [EmptyString]
  | String c rest =>
      if Ascii.eqb c "/" then EmptyString :: segments rest
      else match segments rest with
           | h :: t => String c h :: t
           | [] => [String c EmptyString]
           end
  end.

(** One more segment on the segments kept so far, the last one first.  An
    empty segment and [.] are dropped; [..] removes the segment before it,
    and where there is none, or only [..] itself, it is kept in a relative
    path and dropped in an absolute one. *)
Definition pushSegment (allowAboveRoot : bool) (kept : list string)
    (segment : string) : list string :=
  if String.eqb segment "" || String.eqb segment "." then kept
  else if String.eqb segment ".." then
    match kept with
    | top :: below =>
        if negb (String.eqb top "..") then below
        else if allowAboveRoot then segment :: kept else kept
    | [] => if allowAboveRoot then [segment] else []
    end
  else segment :: kept.

Definition normalizeString (path : string) (allowAboveRoot : bool) : string :=
  JS.join "/" (rev (fold_left (pushSegment allowAboveRoot) (segments path) [])).

Definition normalize (path : string) : string :=
  if String.eqb path "" then "."
  else
    let isAbsolute := JS.startsWith path "/" in
    let trailingSeparator := JS.endsWith path "/" in
    let normalized := normalizeString path (negb isAbsolute) in
    if String.eqb normalized "" then
      if isAbsolute then "/" else if trailingSeparator then "./" else "."
    else
      (if isAbsolute then "/" else "") ++ normalized
      ++ (if trailingSeparator then "/" else "").

Definition join (parts : list string) : string :=
  match filter JS.truthy parts with
  | [] => "."
  | kept => normalize (JS.join "/" kept)
  end.

End Path.

(** [path.join(dir, name)] *)
Definition pathJoin (dir name : string) : string := Path.join [dir; name].

(** The recursive walk every tool repeats, over its own exclusion list. *)
Section Walk.
Variable shouldSkipDirectory : string -> bool.

Fixpoint scanEntry (dir : string) (entry : Dirent) : list string :=
  match entry with
  | DirEnt name listing =>
      if negb (shouldSkipDirectory name) then
        match listing with
        | Some entries =>
            (fix scanEntries (es : list Dirent) : list string :=
               match es with
               | [] => []
               | e :: es' => (scanEntry (pathJoin dir name) e ++ scanEntries es')%list
               end) entries
        | None => []
        end
      else []
  | FileEnt name =>
      if JS.endsWith name ".java" then [pathJoin dir name] else []
  | OtherEnt _ => []
  end.

Definition scanEntries (dir : string) (es : list Dirent) : list string :=
  flat_map (scanEntry dir) es.

Definition scanDirectory (w : World) (dir : string) : list string :=
  match readdirSync w dir with
  | Some entries => scanEntries dir entries
  | None => []
  end.

Definition findJavaFiles (w : World) (projectPath : string) : list string :=
  scanDirectory w projectPath.
End Walk.

(** Regular expression pieces shared by the parsers. *)
Definition re_s : JS.regex := JS.Cls JS.isWhiteSpace.
Definition re_w : JS.regex := JS.Cls JS.isWordChar.
Definition re_d : JS.regex := JS.Cls JS.isDigit.

(** [[\w<>\[\]]] *)
Definition isTypeChar (c : ascii) : bool :=
  JS.isWordChar c || Ascii.eqb c "<" || Ascii.eqb c ">"
  || Ascii.eqb c "[" || Ascii.eqb c "]".

(** [/interface\s+(\w+)/], [/enum\s+(\w+)/], [/class\s+(\w+)/] *)
Definition re_decl (keyword : string) : JS.regex :=
  JS.Seq (JS.Str keyword) (JS.Seq (JS.Plus re_s) (JS.Grp 1 (JS.Plus re_w))).

Definition re_visibility : JS.regex :=
  JS.Grp 1 (JS.Alt (JS.Str "public") (JS.Alt (JS.Str "private") (JS.Str "protected"))).

(** [/(public|private|protected)\s+([\w<>\[\]]+)\s+(\w+)\s*\(/] *)
Definition re_method : JS.regex :=
  JS.Seq re_visibility
    (JS.Seq (JS.Plus re_s)
       (JS.Seq (JS.Grp 2 (JS.Plus (JS.Cls isTypeChar)))
          (JS.Seq (JS.Plus re_s)
             (JS.Seq (JS.Grp 3 (JS.Plus re_w))
                (JS.Seq (JS.Star re_s) (JS.Chr "("))))))%char.

(** [/(public|private|protected)\s+([\w<>\[\]]+)\s+(\w+)\s*[=;]/] *)
Definition re_field : JS.regex :=
  JS.Seq re_visibility
    (JS.Seq (JS.Plus re_s)
       (JS.Seq (JS.Grp 2 (JS.Plus (JS.Cls isTypeChar)))
          (JS.Seq (JS.Plus re_s)
             (JS.Seq (JS.Grp 3 (JS.Plus re_w))
                (JS.Seq (JS.Star re_s)
                   (JS.Cls (fun c => Ascii.eqb c "=" || Ascii.eqb c ";")))))))%char.

Inductive TypeKind : Type := class | interface | enum.

Definition TypeKind_eqb (a b : TypeKind) : bool :=
  match a, b with
  | class, class | interface, interface | enum, enum => true
  | _, _ => false
  end.

Definition showKind (k : TypeKind) : string :=
  match k with class => "class" | interface => "interface" | enum => "enum" end.

Definition hasVisibility (line : string) : bool :=
  JS.includes line "public " || JS.includes line "private "
  || JS.includes line "protected ".


(** Line tests and extractions the parsers share (each file repeats them). *)

Definition stripKeyword (line keyword : string) : string :=
  JS.trim (JS.replace (JS.replace line keyword "") ";" "").

Definition isTypeLine (line : string) : bool :=
  JS.includes line "class " || JS.includes line "interface "
  || JS.includes line "enum ".

Definition isMethodLine (line : string) : bool :=
  JS.includes line "(" && JS.includes line ")" && hasVisibility line.

Definition isFieldLine (line : string) : bool :=
  JS.includes line ";" && negb (JS.includes line "(") && hasVisibility line.

(** The keyword a type line resolves to: interface before enum before class. *)
Definition declKind (line : string) : TypeKind :=
  if JS.includes line "interface " then interface
  else if JS.includes line "enum " then enum
  else class.

Definition declName (line : string) : option string :=
  option_map (JS.group 1) (JS.exec (re_decl (showKind (declKind line))) line).

(** ** Objects used as dictionaries *)

(** The members a plain object inherits from [Object.prototype]. *)
Definition objectPrototype : list string :=
  ["constructor"; "__defineGetter__"; "__defineSetter__"; "hasOwnProperty";
   "__lookupGetter__"; "__lookupSetter__"; "isPrototypeOf";
   "propertyIsEnumerable"; "toString"; "valueOf"; "__proto__";
   "toLocaleString"].

Definition inherits (k : string) : bool := existsb (String.eqb k) objectPrototype.

(** Reading a member of [undefined]: [packages[pkg].classes.push(...)] where
    [packages[pkg]] is an inherited member, which has no [classes]. *)
Definition pushOfUndefined : string :=
  "Cannot read properties of undefined (reading 'push')".

(** An array index: the canonical decimal numeral of an integer from 0 to
    [2^32 - 2].  An object enumerates its own entries named by array
    indices first, in ascending order, and the others after them in the
    order of their creation. *)
Fixpoint numeral (s : string) (value : N) : option N :=
  match s with
  | EmptyString => Some value
  | String c rest =>
      if JS.isDigit c
      then numeral rest (value * 10 + N.of_nat (nat_of_ascii c - 48))%N
      else None
  end.

Definition arrayIndex (k : string) : option N :=
  match k with
  | EmptyString => None
  | String c rest =>
      if Ascii.eqb c "0" then
        match rest with EmptyString => Some 0%N | String _ _ => None end
      else
        match numeral k 0 with
        | Some n => if (n <=? 4294967294)%N then Some n else None
        | None => None
        end
  end.

Section Dict.
Context {V : Type}.

Definition dict := list (string * V).

Fixpoint lookup (k : string) (d : dict) : option V :=
  match d with
  | [] => None
  | (k', v) :: d' => if String.eqb k k' then Some v else lookup k d'
  end.

(** [d[k] = f(d[k])] for a key that is present. *)
Fixpoint update (k : string) (f : V -> V) (d : dict) : dict :=
  match d with
  | [] => []
  | (k', v) :: d' =>
      if String.eqb k k' then (k', f v) :: d' else (k', v) :: update k f d'
  end.

(** A new entry named by the array index [i]: after the entries named by
    smaller array indices, before all others. *)
Fixpoint place (k : string) (i : N) (v : V) (d : dict) : dict :=
  match d with
  | [] => [(k, v)]
  | (k', v') :: d' =>
      match arrayIndex k' with
      | Some j => if (j <? i)%N then (k', v') :: place k i v d' else (k, v) :: d
      | None => (k, v) :: d
      end
  end.

(** [if (!d[k]) d[k] = v] where [d[k]] is not an inherited member: a new
    entry goes to its place in enumeration order, the last one unless its
    name is an array index. *)
Definition ensure (k : string) (v : V) (d : dict) : dict :=
  match lookup k d with
  | Some _ => d
  | None =>
      match arrayIndex k with
      | Some i => place k i v d
      | None => (d ++ [(k, v)])%list
      end
  end.

Definition keys (d : dict) : list string := map fst d.
Definition values (d : dict) : list V := map snd d.

(** Whether [d[k]] is a member inherited from [Object.prototype]: the
    dictionary has no entry of its own under a name every object
    inherits.  Such a member is a function or an object, so it is truthy
    and [if (!d[k])] does not create an entry. *)
Definition inherited (k : string) (d : dict) : bool :=
  match lookup k d with
  | Some _ => false
  | None => inherits k
  end.
End Dict.
Arguments dict V : clear implicits.

Definition sum (l : list nat) : nat := fold_left Nat.add l 0.

Definition opt_bind {A B : Type} (o : option A) (f : A -> option B) : option B :=
  match o with Some a => f a | None => None end.

(** ** DocumentationGenerator (generate_documentation) *)

Module DocumentationGenerator.

Record MethodSignature : Type := {
  visibility : string;
  returnType : string;
  name : string;
  mjavadoc : string
}.

Record FieldSignature : Type := {
  fvisibility : string;
  ftype : string;
  fname : string;
  fjavadoc : string
}.

(** The object [analyzeJavaFile] returns. *)
Record SourceRecord : Type := {
  package : string;
  className : string;
  type : TypeKind;
  imports : list string;
  methods : list MethodSignature;
  fields : list FieldSignature;
  javadoc : string;
  filePath : string
}.

Definition extractMethod (line javadoc : string) : option MethodSignature :=
  match JS.exec re_method line with
  | Some m => Some {| visibility := JS.group 1 m;
                      returnType := JS.group 2 m;
                      name := JS.group 3 m;
                      mjavadoc := JS.trim javadoc |}
  | None => None
  end.

Definition extractField (line javadoc : string) : option FieldSignature :=
  match JS.exec re_field line with
  | Some m => Some {| fvisibility := JS.group 1 m;
                      ftype := JS.group 2 m;
                      fname := JS.group 3 m;
                      fjavadoc := JS.trim javadoc |}
  | None => None
  end.

(** The local variables of [analyzeJavaFile]. *)
Record Locals : Type := {
  l_packageName : string;
  l_className : string;
  l_type : TypeKind;
  l_imports : list string;
  l_methods : list MethodSignature;
  l_fields : list FieldSignature;
  l_javadoc : string;
  l_currentJavadoc : string
}.

Definition initial : Locals :=
  {| l_packageName := ""; l_className := ""; l_type := class;
     l_imports := []; l_methods := []; l_fields := [];
     l_javadoc := ""; l_currentJavadoc := "" |}.

Definition collectsJavadoc (line : string) : bool :=
  JS.startsWith line "/**" || JS.startsWith line "*" || JS.includes line "*/".


Definition onPackage (line : string) (st : Locals) : Locals :=
  if JS.startsWith line "package " then
    {| l_packageName := stripKeyword line "package ";
       l_className := l_className st; l_type := l_type st;
       l_imports := l_imports st; l_methods := l_methods st;
       l_fields := l_fields st; l_javadoc := l_javadoc st;
       l_currentJavadoc := l_currentJavadoc st |}
  else st.

Definition onImport (line : string) (st : Locals) : Locals :=
  if JS.startsWith line "import " then
    {| l_packageName := l_packageName st;
       l_className := l_className st; l_type := l_type st;
       l_imports := (l_imports st ++ [stripKeyword line "import "])%list;
       l_methods := l_methods st;
       l_fields := l_fields st; l_javadoc := l_javadoc st;
       l_currentJavadoc := l_currentJavadoc st |}
  else st.

Definition onType (line : string) (st : Locals) : Locals :=
  if isTypeLine line then
    {| l_packageName := l_packageName st;
       l_className := match declName line with
                      | Some n => n
                      | None => l_className st
                      end;
       l_type := declKind line;
       l_imports := l_imports st; l_methods := l_methods st;
       l_fields := l_fields st;
       l_javadoc := l_currentJavadoc st;
       l_currentJavadoc := "" |}
  else st.

Definition onMethod (line : string) (st : Locals) : Locals :=
  if isMethodLine line then
    match extractMethod line (l_currentJavadoc st) with
    | Some method =>
        {| l_packageName := l_packageName st;
           l_className := l_className st; l_type := l_type st;
           l_imports := l_imports st;
           l_methods := (l_methods st ++ [method])%list;
           l_fields := l_fields st; l_javadoc := l_javadoc st;
           l_currentJavadoc := "" |}
    | None => st
    end
  else st.

Definition onField (line : string) (st : Locals) : Locals :=
  if isFieldLine line then
    match extractField line (l_currentJavadoc st) with
    | Some field =>
        {| l_packageName := l_packageName st;
           l_className := l_className st; l_type := l_type st;
           l_imports := l_imports st; l_methods := l_methods st;
           l_fields := (l_fields st ++ [field])%list;
           l_javadoc := l_javadoc st;
           l_currentJavadoc := "" |}
    | None => st
    end
  else st.

Definition setCurrentJavadoc (v : string) (st : Locals) : Locals :=
  {| l_packageName := l_packageName st;
     l_className := l_className st; l_type := l_type st;
     l_imports := l_imports st; l_methods := l_methods st;
     l_fields := l_fields st; l_javadoc := l_javadoc st;
     l_currentJavadoc := v |}.

Definition onJavadoc (line : string) (st : Locals) : Locals :=
  if collectsJavadoc line then
    setCurrentJavadoc (l_currentJavadoc st ++ line ++ JS.nl) st
  else if negb (JS.startsWith line "//") && negb (String.eqb line "") then
    setCurrentJavadoc "" st
  else st.

(** One iteration of the loop over the lines. *)
Definition step (st : Locals) (raw : string) : Locals :=
  let line := JS.trim raw in
  onJavadoc line
    (onField line (onMethod line (onType line (onImport line (onPackage line st))))).

Definition scan (lines : list string) : Locals := fold_left step lines initial.

Definition finish (st : Locals) (path : string) : SourceRecord :=
  {| package := l_packageName st; className := l_className st;
     type := l_type st; imports := l_imports st;
     methods := l_methods st; fields := l_fields st;
     javadoc := l_javadoc st; filePath := path |}.

Definition analyzeJavaFile (content path : string) : SourceRecord :=
  finish (scan (JS.split_lines content)) path.

(** *** Aggregation *)

Record PackageAggregate : Type := {
  p_name : string;
  p_classes : list SourceRecord;
  p_interfaces : list SourceRecord;
  p_enums : list SourceRecord;
  p_methods : nat
}.

Record Analysis : Type := {
  packages : dict PackageAggregate;
  classes : list SourceRecord;
  interfaces : list SourceRecord;
  enums : list SourceRecord;
  totalFiles : nat
}.

Definition emptyPackage (name : string) : PackageAggregate :=
  {| p_name := name; p_classes := []; p_interfaces := []; p_enums := [];
     p_methods := 0 |}.

(** [packages[pkg].classes.push(analysis); packages[pkg].methods += ...] *)
Definition addToPackage (r : SourceRecord) (p : PackageAggregate)
  : PackageAggregate :=
  {| p_name := p_name p;
     p_classes := (p_classes p ++ [r])%list;
     p_interfaces := p_interfaces p;
     p_enums := p_enums p;
     p_methods := p_methods p + List.length (methods r) |}.

Definition emptyAnalysis : Analysis :=
  {| packages := []; classes := []; interfaces := []; enums := [];
     totalFiles := 0 |}.

(** What one iteration of the loop of [analyzeProject] does to the
    dictionary and the lists, after the file is parsed, when it completes. *)
Definition store (a : Analysis) (r : SourceRecord) : Analysis :=
  {| packages :=
       if JS.truthy (package r) then
         update (package r) (addToPackage r)
           (ensure (package r) (emptyPackage (package r)) (packages a))
       else packages a;
     classes :=
       match type r with class => (classes a ++ [r])%list | _ => classes a end;
     interfaces :=
       match type r with interface => (interfaces a ++ [r])%list | _ => interfaces a end;
     enums :=
       match type r with enum => (enums a ++ [r])%list | _ => enums a end;
     totalFiles := totalFiles a |}.

Definition setTotalFiles (n : nat) (a : Analysis) : Analysis :=
  {| packages := packages a; classes := classes a;
     interfaces := interfaces a; enums := enums a; totalFiles := n |}.

(** The body of the loop of [analyzeProject], after the file is parsed.
    Where [packages[analysis.package]] is an inherited member, no entry is
    created and [packages[analysis.package].classes.push] throws, before
    the record reaches a flat list. *)
Definition addRecord (a : Analysis) (r : SourceRecord) : Completion Analysis :=
  if JS.truthy (package r) && inherited (package r) (packages a)
  then Throw pushOfUndefined
  else Normal (store a r).

Fixpoint addRecords (a : Analysis) (records : list SourceRecord)
  : Completion Analysis :=
  match records with
  | [] => Normal a
  | r :: rest =>
      match addRecord a r with
      | Normal a' => addRecords a' rest
      | Throw e => Throw e
      end
  end.

(** The loop and the result of [analyzeProject] over records already
    parsed. *)
Definition aggregate (records : list SourceRecord) : Completion Analysis :=
  match addRecords emptyAnalysis records with
  | Normal a => Normal (setTotalFiles (List.length records) a)
  | Throw e => Throw e
  end.

(** The analysis of records none of which stops the loop. *)
Definition stored (records : list SourceRecord) : Analysis :=
  setTotalFiles (List.length records) (fold_left store records emptyAnalysis).

Fixpoint analyzeFiles (w : World) (javaFiles : list string) (a : Analysis)
  : Effect Analysis :=
  match javaFiles with
  | [] => ret a
  | filePath :: rest =>
      content <- readFile w filePath ;;
      a' <- ([], addRecord a (analyzeJavaFile content filePath)) ;;
      analyzeFiles w rest a'
  end.

Definition analyzeProject (w : World) (javaFiles : list string)
  : Effect Analysis :=
  a <- analyzeFiles w javaFiles emptyAnalysis ;;
  ret (setTotalFiles (List.length javaFiles) a).

(** *** The overview renderer *)

Definition totalMethods (a : Analysis) : nat :=
  sum (map p_methods (values (packages a))).

(** [totalMethods / analysis.classes.length] *)
Definition avgMethodsPerClass (a : Analysis) : Number.number :=
  Number.div (Number.ofNat (totalMethods a))
             (Number.ofNat (List.length (classes a))).

(** [analysis.interfaces.length / analysis.classes.length * 100] *)
Definition interfaceUsage (a : Analysis) : Number.number :=
  Number.mul (Number.div (Number.ofNat (List.length (interfaces a)))
                         (Number.ofNat (List.length (classes a))))
             (Number.ofNat 100).

Definition renderPackage (entry : string * PackageAggregate) : string :=
  let (packageName, pkg) := entry in
  "### " ++ packageName ++ JS.nl
  ++ "- **Classes:** " ++ Number.showNat (List.length (p_classes pkg)) ++ JS.nl
  ++ "- **Methods:** " ++ Number.showNat (p_methods pkg) ++ JS.nl ++ JS.nl
  ++ String.concat ""
       (map (fun cls => "- **" ++ className cls ++ "** ("
                        ++ showKind (type cls) ++ ")" ++ JS.nl)
            (p_classes pkg))
  ++ JS.nl.

Definition averageLine (a : Analysis) : option string :=
  opt_bind (Number.toFixed1 (avgMethodsPerClass a)) (fun avg =>
  Some ("- **Average methods per class:** " ++ avg ++ JS.nl)).

Definition interfaceLine (a : Analysis) : option string :=
  if 0 <? List.length (interfaces a) then
    opt_bind (Number.toFixed1 (interfaceUsage a)) (fun pct =>
    Some ("- **Interface usage:** " ++ pct ++ "% of classes are interfaces" ++ JS.nl))
  else Some "".

Definition generateProjectOverview (a : Analysis) : option string :=
  opt_bind (averageLine a) (fun average =>
  opt_bind (interfaceLine a) (fun usage =>
  Some ("# Project Overview" ++ JS.nl ++ JS.nl
    ++ "**Total Files:** " ++ Number.showNat (totalFiles a) ++ JS.nl
    ++ "**Classes:** " ++ Number.showNat (List.length (classes a)) ++ JS.nl
    ++ "**Interfaces:** " ++ Number.showNat (List.length (interfaces a)) ++ JS.nl
    ++ "**Enums:** " ++ Number.showNat (List.length (enums a)) ++ JS.nl ++ JS.nl
    ++ "## Package Structure" ++ JS.nl ++ JS.nl
    ++ String.concat "" (map renderPackage (packages a))
    ++ "## Architecture Overview" ++ JS.nl ++ JS.nl
    ++ "This section provides a high-level view of the project structure:"
    ++ JS.nl ++ JS.nl
    ++ average
    ++ "- **Package distribution:** "
    ++ Number.showNat (List.length (keys (packages a))) ++ " packages" ++ JS.nl
    ++ usage))).

Definition shouldSkipDirectory (dirName : string) : bool :=
  existsb (String.eqb dirName)
    ["target"; "build"; "node_modules"; ".git"; ".idea"; "out"; "test"].

Record Args : Type := {
  projectPath : string;
  outputPath : option string;
  documentationType : option string;
  includePrivate : option bool
}.

Definition noJavaFiles : string := "❌ No Java files found in the project.".

Section Execute.
Variable w : World.

(** The rest of the [try] block once the project is analyzed: the three
    steps that render a document and save it under the output directory,
    and the assembly of the summary.  It writes files and can throw. *)
Variable writeDocuments : Args -> list string -> Analysis -> Effect string.

Definition tryBlock (args : Args) : Effect string :=
  let javaFiles := findJavaFiles shouldSkipDirectory w (projectPath args) in
  if List.length javaFiles =? 0 then ret noJavaFiles
  else
    analysis <- analyzeProject w javaFiles ;;
    writeDocuments args javaFiles analysis.

Definition execute (args : option Args) : Effect string :=
  destructure args (fun members =>
    tryCatch (tryBlock members)
      (fun error => ret ("Error generating documentation: " ++ error))).
End Execute.

End DocumentationGenerator.

(** ** ProjectStructureAnalyzer (analyze_project_structure) *)

Module ProjectStructureAnalyzer.

Record MethodSignature : Type := {
  visibility : string;
  returnType : string;
  name : string
}.

Record FieldSignature : Type := {
  fvisibility : string;
  ftype : string;
  fname : string
}.

Record SourceRecord : Type := {
  package : string;
  className : string;
  type : TypeKind;
  methods : list MethodSignature;
  fields : list FieldSignature;
  filePath : string
}.

Record Locals : Type := {
  l_packageName : string;
  l_className : string;
  l_type : TypeKind;
  l_methods : list MethodSignature;
  l_fields : list FieldSignature
}.

Definition initial : Locals :=
  {| l_packageName := ""; l_className := ""; l_type := class;
     l_methods := []; l_fields := [] |}.

Definition onPackage (trimmed : string) (st : Locals) : Locals :=
  if JS.startsWith trimmed "package " then
    {| l_packageName := stripKeyword trimmed "package ";
       l_className := l_className st; l_type := l_type st;
       l_methods := l_methods st; l_fields := l_fields st |}
  else st.

Definition onType (trimmed : string) (st : Locals) : Locals :=
  if isTypeLine trimmed then
    {| l_packageName := l_packageName st;
       l_className := match declName trimmed with
                      | Some n => n
                      | None => l_className st
                      end;
       l_type := declKind trimmed;
       l_methods := l_methods st; l_fields := l_fields st |}
  else st.

Definition onMethod (trimmed : string) (st : Locals) : Locals :=
  if isMethodLine trimmed then
    match JS.exec re_method trimmed with
    | Some m =>
        {| l_packageName := l_packageName st;
           l_className := l_className st; l_type := l_type st;
           l_methods := (l_methods st
                         ++ [{| visibility := JS.group 1 m;
                                returnType := JS.group 2 m;
                                name := JS.group 3 m |}])%list;
           l_fields := l_fields st |}
    | None => st
    end
  else st.

Definition onField (trimmed : string) (st : Locals) : Locals :=
  if isFieldLine trimmed then
    match JS.exec re_field trimmed with
    | Some m =>
        {| l_packageName := l_packageName st;
           l_className := l_className st; l_type := l_type st;
           l_methods := l_methods st;
           l_fields := (l_fields st
                        ++ [{| fvisibility := JS.group 1 m;
                               ftype := JS.group 2 m;
                               fname := JS.group 3 m |}])%list |}
    | None => st
    end
  else st.

Definition step (st : Locals) (line : string) : Locals :=
  let trimmed := JS.trim line in
  onField trimmed (onMethod trimmed (onType trimmed (onPackage trimmed st))).

Definition scan (lines : list string) : Locals := fold_left step lines initial.

Definition analyzeJavaFile (content path : string) : SourceRecord :=
  let st := scan (JS.split_lines content) in
  {| package := l_packageName st; className := l_className st;
     type := l_type st; methods := l_methods st; fields := l_fields st;
     filePath := path |}.

(** *** Aggregation *)

Record PackageAggregate : Type := {
  p_name : string;
  p_classes : list SourceRecord;
  p_interfaces : list SourceRecord;
  p_enums : list SourceRecord;
  p_totalMethods : nat;
  p_totalFields : nat;
  p_fileCount : nat
}.

(** The [directoryStructure] member of the result is filled by a separate
    walk and read by no renderer; it is left out. *)
Record Analysis : Type := {
  packages : dict PackageAggregate;
  classes : list SourceRecord;
  interfaces : list SourceRecord;
  enums : list SourceRecord;
  totalFiles : nat
}.

Definition emptyPackage (name : string) : PackageAggregate :=
  {| p_name := name; p_classes := []; p_interfaces := []; p_enums := [];
     p_totalMethods := 0; p_totalFields := 0; p_fileCount := 0 |}.

Definition addToPackage (r : SourceRecord) (p : PackageAggregate)
  : PackageAggregate :=
  {| p_name := p_name p;
     p_classes := match type r with class => (p_classes p ++ [r])%list | _ => p_classes p end;
     p_interfaces := match type r with interface => (p_interfaces p ++ [r])%list | _ => p_interfaces p end;
     p_enums := match type r with enum => (p_enums p ++ [r])%list | _ => p_enums p end;
     p_totalMethods := p_totalMethods p + List.length (methods r);
     p_totalFields := p_totalFields p + List.length (fields r);
     p_fileCount := p_fileCount p + 1 |}.

Definition emptyAnalysis : Analysis :=
  {| packages := []; classes := []; interfaces := []; enums := [];
     totalFiles := 0 |}.

(** What one iteration of the loop of [analyzeProjectStructure] does to the
    dictionary and the lists when it completes: everything happens under
    [if (analysis.package)]. *)
Definition store (a : Analysis) (r : SourceRecord) : Analysis :=
  if JS.truthy (package r) then
    {| packages :=
         update (package r) (addToPackage r)
           (ensure (package r) (emptyPackage (package r)) (packages a));
       classes :=
         match type r with class => (classes a ++ [r])%list | _ => classes a end;
       interfaces :=
         match type r with interface => (interfaces a ++ [r])%list | _ => interfaces a end;
       enums :=
         match type r with enum => (enums a ++ [r])%list | _ => enums a end;
       totalFiles := totalFiles a |}
  else a.

Definition setTotalFiles (n : nat) (a : Analysis) : Analysis :=
  {| packages := packages a; classes := classes a;
     interfaces := interfaces a; enums := enums a; totalFiles := n |}.

(** The body of the loop of [analyzeProjectStructure].  Where
    [packages[analysis.package]] is an inherited member, no entry is
    created, the three counters are written onto the inherited object,
    where nothing reads them, and the [push] onto its missing list throws,
    whatever the kind of the record. *)
Definition addRecord (a : Analysis) (r : SourceRecord) : Completion Analysis :=
  if JS.truthy (package r) && inherited (package r) (packages a)
  then Throw pushOfUndefined
  else Normal (store a r).

Fixpoint addRecords (a : Analysis) (records : list SourceRecord)
  : Completion Analysis :=
  match records with
  | [] => Normal a
  | r :: rest =>
      match addRecord a r with
      | Normal a' => addRecords a' rest
      | Throw e => Throw e
      end
  end.

(** The loop and the result of [analyzeProjectStructure] over records
    already parsed. *)
Definition aggregate (records : list SourceRecord) : Completion Analysis :=
  match addRecords emptyAnalysis records with
  | Normal a => Normal (setTotalFiles (List.length records) a)
  | Throw e => Throw e
  end.

(** The analysis of records none of which stops the loop. *)
Definition stored (records : list SourceRecord) : Analysis :=
  setTotalFiles (List.length records) (fold_left store records emptyAnalysis).

Fixpoint analyzeFiles (w : World) (javaFiles : list string) (a : Analysis)
  : Effect Analysis :=
  match javaFiles with
  | [] => ret a
  | filePath :: rest =>
      content <- readFile w filePath ;;
      a' <- ([], addRecord a (analyzeJavaFile content filePath)) ;;
      analyzeFiles w rest a'
  end.

Definition analyzeProjectStructure (w : World) (javaFiles : list string)
  : Effect Analysis :=
  a <- analyzeFiles w javaFiles emptyAnalysis ;;
  ret (setTotalFiles (List.length javaFiles) a).

(** *** Architecture analysis *)

Definition someClassNamed (a : Analysis) (word : string) : bool :=
  existsb (fun cls => JS.includes (JS.toLowerCase (className cls)) word) (classes a).

Definition detectArchitecturalPatterns (a : Analysis) : list (string * string) :=
  ((if someClassNamed a "controller" && someClassNamed a "service"
       && someClassNamed a "repository"
    then [("MVC/Service Layer Pattern", "Detected Controller-Service-Repository pattern")]
    else [])
   ++ (if someClassNamed a "factory"
       then [("Factory Pattern", "Factory classes detected")] else [])
   ++ (if someClassNamed a "builder"
       then [("Builder Pattern", "Builder classes detected")] else []))%list.

(** [totalClasses / Math.max(totalInterfaces, 1)] *)
Definition classInterfaceRatio (a : Analysis) : Number.number :=
  Number.div (Number.ofNat (List.length (classes a)))
             (Number.ofNat (Nat.max (List.length (interfaces a)) 1)).

(** [totalInterfaces / Math.max(totalClasses + totalInterfaces, 1) * 100] *)
Definition abstractionLevel (a : Analysis) : Number.number :=
  Number.mul
    (Number.div (Number.ofNat (List.length (interfaces a)))
       (Number.ofNat (Nat.max (List.length (classes a) + List.length (interfaces a)) 1)))
    (Number.ofNat 100).

(** [analyzeInheritancePatterns]: every class counts with depth 1. *)
Definition inheritanceAvgDepth (cls : list SourceRecord) : Number.number :=
  Number.div (Number.ofNat (sum (map (fun _ => 1) cls)))
             (Number.ofNat (List.length cls)).

Definition inheritanceDeep (cls : list SourceRecord) : nat :=
  List.length (filter (fun _ => 3 <? 1) cls).

(** [analyzePackageCoupling] *)
Definition highCoupling (a : Analysis) : nat :=
  List.length (filter (fun pkg => 15 <? p_fileCount pkg) (values (packages a))).

Definition abstractionLine (a : Analysis) : option string :=
  opt_bind (Number.toFixed1 (abstractionLevel a)) (fun pct =>
  Some ("- **Abstraction Level:** " ++ pct ++ "%" ++ JS.nl)).

Definition generateArchitectureAnalysis (a : Analysis) : option string :=
  opt_bind (Number.toFixed1 (classInterfaceRatio a)) (fun ratio =>
  opt_bind (abstractionLine a) (fun abstraction =>
  opt_bind (Number.toFixed1 (inheritanceAvgDepth (classes a))) (fun depth =>
  Some ("### Detected Patterns" ++ JS.nl
    ++ String.concat ""
         (map (fun p => "- **" ++ fst p ++ ":** " ++ snd p ++ JS.nl)
              (detectArchitecturalPatterns a))
    ++ JS.nl ++ "### Architecture Metrics" ++ JS.nl
    ++ "- **Class/Interface Ratio:** " ++ ratio ++ ":1" ++ JS.nl
    ++ abstraction
    ++ "- **Average inheritance depth:** " ++ depth ++ JS.nl
    ++ "- **Classes with deep inheritance:** "
    ++ Number.showNat (inheritanceDeep (classes a)) ++ JS.nl
    ++ "- **High coupling packages:** " ++ Number.showNat (highCoupling a) ++ JS.nl)))).

(** *** Project metrics *)

Definition totalMethods (a : Analysis) : nat :=
  sum (map p_totalMethods (values (packages a))).

Definition totalFields (a : Analysis) : nat :=
  sum (map p_totalFields (values (packages a))).

(** [totalMethods / Math.max(totalClasses, 1)] *)
Definition avgMethodsPerClass (a : Analysis) : Number.number :=
  Number.div (Number.ofNat (totalMethods a))
             (Number.ofNat (Nat.max (List.length (classes a)) 1)).

Definition avgFieldsPerClass (a : Analysis) : Number.number :=
  Number.div (Number.ofNat (totalFields a))
             (Number.ofNat (Nat.max (List.length (classes a)) 1)).

(** [calculateComplexityMetrics] *)
Definition complexities (a : Analysis) : list nat :=
  flat_map (fun pkg =>
              map (fun cls => List.length (methods cls) + List.length (fields cls))
                  (p_classes pkg))
           (values (packages a)).

Definition avgComplexity (a : Analysis) : Number.number :=
  Number.div (Number.ofNat (sum (complexities a)))
             (Number.ofNat (List.length (complexities a))).

Definition complexClasses (a : Analysis) : list string :=
  firstn 5
    (flat_map (fun pkg =>
                 map className
                   (filter (fun cls => 20 <? List.length (methods cls) + List.length (fields cls))
                           (p_classes pkg)))
              (values (packages a))).

Definition averageLine (a : Analysis) : option string :=
  opt_bind (Number.toFixed1 (avgMethodsPerClass a)) (fun avg =>
  Some ("- **Average methods per class:** " ++ avg ++ JS.nl)).

Definition generateProjectMetrics (a : Analysis) : option string :=
  opt_bind (averageLine a) (fun average =>
  opt_bind (Number.toFixed1 (avgFieldsPerClass a)) (fun avgFields =>
  opt_bind (Number.toFixed1 (avgComplexity a)) (fun complexity =>
  Some ("- **Total Classes:** " ++ Number.showNat (List.length (classes a)) ++ JS.nl
    ++ "- **Total Interfaces:** " ++ Number.showNat (List.length (interfaces a)) ++ JS.nl
    ++ "- **Total Enums:** " ++ Number.showNat (List.length (enums a)) ++ JS.nl
    ++ "- **Total Methods:** " ++ Number.showNat (totalMethods a) ++ JS.nl
    ++ "- **Total Fields:** " ++ Number.showNat (totalFields a) ++ JS.nl
    ++ average
    ++ "- **Average fields per class:** " ++ avgFields ++ JS.nl
    ++ "- **Average class complexity:** " ++ complexity ++ JS.nl
    ++ "- **Most complex classes:** " ++ JS.join ", " (complexClasses a) ++ JS.nl)))).

Definition shouldSkipDirectory (dirName : string) : bool :=
  existsb (String.eqb dirName)
    ["target"; "build"; "node_modules"; ".git"; ".idea"; "out"; "test"].

Record Args : Type := {
  projectPath : string;
  includeArchitecture : option bool;
  includeMetrics : option bool
}.

Definition noJavaFiles : string := "❌ No Java files found in the project.".

Definition pathMissing (projectPath : string) : string :=
  "❌ Project path does not exist: " ++ projectPath.

Section Execute.
Variable w : World.

(** The rest of the [try] block once the project is analyzed: the
    directory tree and the sections of the report.  It stats files and
    can throw. *)
Variable renderReport : Args -> list string -> Analysis -> Effect string.

Definition tryBlock (args : Args) : Effect string :=
  if negb (existsSync w (projectPath args)) then ret (pathMissing (projectPath args))
  else
    let javaFiles := findJavaFiles shouldSkipDirectory w (projectPath args) in
    if List.length javaFiles =? 0 then ret noJavaFiles
    else
      analysis <- analyzeProjectStructure w javaFiles ;;
      renderReport args javaFiles analysis.

Definition execute (args : option Args) : Effect string :=
  destructure args (fun members =>
    tryCatch (tryBlock members)
      (fun error => ret ("Error analyzing project structure: " ++ error))).
End Execute.

End ProjectStructureAnalyzer.

(** ** CodeQualityChecker (check_code_quality) *)

Module CodeQualityChecker.

Record CodeSmell : Type := {
  type : string;
  description : string;
  line : nat;
  file : string
}.

(** [/\b\d{3,}\b/] *)
Definition magicNumberRegex : JS.regex :=
  JS.Seq JS.WordBoundary
    (JS.Seq re_d (JS.Seq re_d (JS.Seq re_d (JS.Seq (JS.Star re_d) JS.WordBoundary)))).

Definition longLine (line : string) (lineNumber : nat) (filePath : string)
  : list CodeSmell :=
  if 120 <? String.length line then
    [{| type := "Long Line";
        description := "Line too long (" ++ Number.showNat (String.length line)
                       ++ " characters)";
        line := lineNumber; file := filePath |}]
  else [].

Definition deepNesting (raw : string) (lineNumber : nat) (filePath : string)
  : list CodeSmell :=
  let indentLevel := String.length raw - String.length (JS.trimStart raw) in
  if 24 <? indentLevel then
    [{| type := "Deep Nesting"; description := "Too many levels of nesting";
        line := lineNumber; file := filePath |}]
  else [].

Definition magicNumber (line : string) (lineNumber : nat) (filePath : string)
  : list CodeSmell :=
  if JS.test magicNumberRegex line && negb (JS.includes line "//")
     && negb (JS.includes line "import") then
    [{| type := "Magic Number";
        description := "Magic number detected, consider using constants";
        line := lineNumber; file := filePath |}]
  else [].

(** [lines.slice(i + 1, i + 3)] *)
Definition nextLines (lines : list string) (i : nat) : list string :=
  firstn 2 (skipn (i + 1) lines).

Definition emptyCatch (lines : list string) (i : nat) (line : string)
    (lineNumber : nat) (filePath : string) : list CodeSmell :=
  if JS.includes line "catch" && (i + 2 <? List.length lines) then
    if forallb (fun l => String.eqb (JS.trim l) "" || String.eqb (JS.trim l) "}")
               (nextLines lines i) then
      [{| type := "Empty Catch Block"; description := "Empty catch block detected";
          line := lineNumber; file := filePath |}]
    else []
  else [].

Definition technicalDebt (line : string) (lineNumber : nat) (filePath : string)
  : list CodeSmell :=
  if JS.includes line "TODO" || JS.includes line "FIXME" then
    [{| type := "Technical Debt"; description := "TODO/FIXME comment found";
        line := lineNumber; file := filePath |}]
  else [].

(** One iteration of the loop of [detectCodeSmells], at index [i]. *)
Definition smellsAt (lines : list string) (filePath : string) (i : nat)
    (raw : string) : list CodeSmell :=
  let line := JS.trim raw in
  let lineNumber := i + 1 in
  (longLine line lineNumber filePath
   ++ deepNesting raw lineNumber filePath
   ++ magicNumber line lineNumber filePath
   ++ emptyCatch lines i line lineNumber filePath
   ++ technicalDebt line lineNumber filePath)%list.

Definition detectCodeSmells (lines : list string) (filePath : string)
  : list CodeSmell :=
  flat_map (fun ir => smellsAt lines filePath (fst ir) (snd ir))
           (combine (seq 0 (List.length lines)) lines).

Definition isLongLine (s : CodeSmell) : bool := String.eqb (type s) "Long Line".

Definition shouldSkipDirectory (dirName : string) : bool :=
  existsb (String.eqb dirName)
    ["target"; "build"; "node_modules"; ".git"; ".idea"; "out"; "test"].

(** *** Metrics *)

Record Metrics : Type := {
  linesOfCode : nat;
  commentLines : nat;
  commentRatio : Number.number;
  methodCount : nat;
  classCount : nat;
  avgMethodLength : Number.number
}.

(** The counters of the loop of [calculateMetrics]. *)
Record Counters : Type := {
  c_linesOfCode : nat;
  c_commentLines : nat;
  c_methodCount : nat;
  c_classCount : nat;
  c_totalMethodLength : nat;
  c_currentMethodLines : nat;
  c_inMethod : bool;
  c_braceCount : Z
}.

Definition zeroCounters : Counters :=
  {| c_linesOfCode := 0; c_commentLines := 0; c_methodCount := 0;
     c_classCount := 0; c_totalMethodLength := 0; c_currentMethodLines := 0;
     c_inMethod := false; c_braceCount := 0%Z |}.

(** [(line.match(/c/g) || []).length] for a single character [c]. *)
Fixpoint occurrences (c : ascii) (s : string) : nat :=
  match s with
  | EmptyString => 0
  | String d s' => (if Ascii.eqb c d then 1 else 0) + occurrences c s'
  end.

Definition isCommentLine (line : string) : bool :=
  JS.startsWith line "//" || JS.startsWith line "/*" || JS.startsWith line "*".

(** The part of an iteration that follows [linesOfCode++]. *)
Definition countCode (line : string) (c : Counters) : Counters :=
  let classes :=
    if JS.includes line "class " && negb (JS.includes line "interface")
    then c_classCount c + 1 else c_classCount c in
  if JS.includes line "(" && JS.includes line ")" && hasVisibility line then
    {| c_linesOfCode := c_linesOfCode c + 1;
       c_commentLines := c_commentLines c;
       c_methodCount := c_methodCount c + 1;
       c_classCount := classes;
       c_totalMethodLength :=
         if c_inMethod c && (0 <? c_currentMethodLines c)
         then c_totalMethodLength c + c_currentMethodLines c
         else c_totalMethodLength c;
       c_currentMethodLines := 1;
       c_inMethod := true;
       c_braceCount := 0%Z |}
  else if c_inMethod c then
    let braces := (c_braceCount c + Z.of_nat (occurrences "{" line)
                   - Z.of_nat (occurrences "}" line))%Z in
    {| c_linesOfCode := c_linesOfCode c + 1;
       c_commentLines := c_commentLines c;
       c_methodCount := c_methodCount c;
       c_classCount := classes;
       c_totalMethodLength := c_totalMethodLength c;
       c_currentMethodLines := c_currentMethodLines c + 1;
       c_inMethod := negb ((braces <=? 0)%Z && JS.includes line "}");
       c_braceCount := braces |}
  else
    {| c_linesOfCode := c_linesOfCode c + 1;
       c_commentLines := c_commentLines c;
       c_methodCount := c_methodCount c;
       c_classCount := classes;
       c_totalMethodLength := c_totalMethodLength c;
       c_currentMethodLines := c_currentMethodLines c;
       c_inMethod := c_inMethod c;
       c_braceCount := c_braceCount c |}.

Definition countLine (c : Counters) (raw : string) : Counters :=
  let line := JS.trim raw in
  if String.eqb line "" then c
  else if isCommentLine line then
    {| c_linesOfCode := c_linesOfCode c;
       c_commentLines := c_commentLines c + 1;
       c_methodCount := c_methodCount c;
       c_classCount := c_classCount c;
       c_totalMethodLength := c_totalMethodLength c;
       c_currentMethodLines := c_currentMethodLines c;
       c_inMethod := c_inMethod c;
       c_braceCount := c_braceCount c |}
  else countCode line c.

Definition finalMethodLength (c : Counters) : nat :=
  if c_inMethod c && (0 <? c_currentMethodLines c)
  then c_totalMethodLength c + c_currentMethodLines c
  else c_totalMethodLength c.

Definition calculateMetrics (lines : list string) : Metrics :=
  let c := fold_left countLine lines zeroCounters in
  {| linesOfCode := c_linesOfCode c;
     commentLines := c_commentLines c;
     commentRatio :=
       if 0 <? c_linesOfCode c then
         Number.mul
           (Number.div (Number.ofNat (c_commentLines c))
                       (Number.ofNat (c_linesOfCode c + c_commentLines c)))
           (Number.ofNat 100)
       else Number.ofNat 0;
     methodCount := c_methodCount c;
     classCount := c_classCount c;
     avgMethodLength :=
       if 0 <? c_methodCount c then
         Number.div (Number.ofNat (finalMethodLength c))
                    (Number.ofNat (c_methodCount c))
       else Number.ofNat 0 |}.

(** *** Suggestions *)

Definition hasSmell (codeSmells : list CodeSmell) (kind : string) : bool :=
  existsb (fun s => String.eqb (type s) kind) codeSmells.

Definition generateSuggestions (metrics : Metrics) (codeSmells : list CodeSmell)
  : list string :=
  ((if SFltb (commentRatio metrics) (Number.ofNat 10)
    then ["Consider adding more comments to improve code documentation"] else [])
   ++ (if SFltb (Number.ofNat 20) (avgMethodLength metrics)
       then ["Some methods are quite long, consider breaking them into smaller functions"]
       else [])
   ++ (if hasSmell codeSmells "Long Line"
       then ["Break long lines to improve readability"] else [])
   ++ (if hasSmell codeSmells "Deep Nesting"
       then ["Reduce nesting levels using early returns or guard clauses"] else [])
   ++ (if hasSmell codeSmells "Magic Number"
       then ["Replace magic numbers with named constants"] else [])
   ++ (if hasSmell codeSmells "Empty Catch Block"
       then ["Add proper error handling in catch blocks"] else [])
   ++ (if hasSmell codeSmells "Technical Debt"
       then ["Address TODO/FIXME comments to reduce technical debt"] else [])
   ++ (if 500 <? linesOfCode metrics
       then ["Consider splitting large files into smaller, focused classes"] else [])
   ++ (if 20 <? methodCount metrics
       then ["Large number of methods detected, consider applying Single Responsibility Principle"]
       else []))%list.

Record CodeAnalysis : Type := {
  metrics : Metrics;
  codeSmells : list CodeSmell;
  suggestions : list string
}.

Definition performCodeAnalysis (content filePath : string) : CodeAnalysis :=
  let lines := JS.split_lines content in
  let m := calculateMetrics lines in
  let smells := detectCodeSmells lines filePath in
  {| metrics := m; codeSmells := smells;
     suggestions := generateSuggestions m smells |}.

Record Args : Type := {
  projectPath : string;
  filePath : option string;
  includeMetrics : option bool
}.

Definition noJavaFiles : string := "âŒ No Java files found in the project.".

Definition fileNotFound (filePath : string) : string :=
  "âŒ File not found: " ++ filePath.

Section Execute.
Variable w : World.

(** The report on one file from its path and text (it stats the file and
    can throw), and the report on a project from the paths and texts of
    its files. *)
Variable renderFile : string -> string -> bool -> Effect string.
Variable renderProject : list (string * string) -> Effect string.

Definition analyzeSingleFile (filePath : string) (includeMetrics : bool)
  : Effect string :=
  if negb (existsSync w filePath) then ret (fileNotFound filePath)
  else
    content <- readFile w filePath ;;
    renderFile filePath content includeMetrics.

Fixpoint readAll (javaFiles : list string) : Effect (list (string * string)) :=
  match javaFiles with
  | [] => ret []
  | filePath :: rest =>
      content <- readFile w filePath ;;
      others <- readAll rest ;;
      ret ((filePath, content) :: others)
  end.

Definition analyzeProject (projectPath : string) : Effect string :=
  let javaFiles := findJavaFiles shouldSkipDirectory w projectPath in
  if List.length javaFiles =? 0 then ret noJavaFiles
  else
    sources <- readAll javaFiles ;;
    renderProject sources.

Definition tryBlock (args : Args) : Effect string :=
  let metrics := match includeMetrics args with Some b => b | None => true end in
  match filePath args with
  | Some path =>
      if JS.truthy path then analyzeSingleFile path metrics
      else analyzeProject (projectPath args)
  | None => analyzeProject (projectPath args)
  end.

Definition execute (args : option Args) : Effect string :=
  destructure args (fun members =>
    tryCatch (tryBlock members)
      (fun error => ret ("Error checking code quality: " ++ error))).
End Execute.

End CodeQualityChecker.

(** ** DependencyAnalyzer (analyze_dependencies) *)

Module DependencyAnalyzer.

Definition propertyReference : string := "uses property reference".
Definition dynamicVersion : string := "uses dynamic version".
Definition snapshotVersion : string := "uses snapshot version".

Definition checkDependencyIssues (groupId artifactId version : string)
    (properties : dict string) : list string :=
  ((if JS.startsWith version "${" then [propertyReference] else [])
   ++ (if String.eqb version "LATEST" || String.eqb version "RELEASE"
       then [dynamicVersion] else [])
   ++ (if String.eqb groupId "org.springframework" && JS.includes version "SNAPSHOT"
       then [snapshotVersion] else []))%list.

(** One [<dependency>] element as xml2js delivers it: a member is [None]
    when the child element is absent. *)
Record Dependency : Type := {
  groupId : option string;
  artifactId : option string;
  version : option string;
  scope : option string
}.

Record Pom : Type := {
  dependencies : list Dependency;
  properties : dict string
}.

(** [dep.scope?.[0] || dflt] *)
Definition orDefault (o : option string) (dflt : string) : string :=
  match o with
  | Some v => if JS.truthy v then v else dflt
  | None => dflt
  end.

(** [dep.groupId[0]] *)
Definition first (o : option string) : Effect string :=
  match o with
  | Some v => ret v
  | None => throw "Cannot read properties of undefined (reading '0')"
  end.

(** [scopes[scope].push(dep)] where [scopes[scope]] is an inherited member,
    which has no [push]. *)
Definition pushNotFunction : string := "scopes[scope].push is not a function".

(** What one call of the grouping callback does to the dictionary when it
    completes. *)
Definition addToScope (scopes : dict (list Dependency)) (dep : Dependency)
  : dict (list Dependency) :=
  let sc := orDefault (scope dep) "compile" in
  update sc (fun l => (l ++ [dep])%list) (ensure sc [] scopes).

(** The grouping callback: [if (!scopes[scope]) scopes[scope] = [];
    scopes[scope].push(dep)]. *)
Definition groupDependency (scopes : dict (list Dependency)) (dep : Dependency)
  : Completion (dict (list Dependency)) :=
  if inherited (orDefault (scope dep) "compile") scopes
  then Throw pushNotFunction
  else Normal (addToScope scopes dep).

Fixpoint groupFrom (scopes : dict (list Dependency)) (deps : list Dependency)
  : Completion (dict (list Dependency)) :=
  match deps with
  | [] => Normal scopes
  | dep :: rest =>
      match groupDependency scopes dep with
      | Normal scopes' => groupFrom scopes' rest
      | Throw e => Throw e
      end
  end.

Definition groupByScope (deps : list Dependency)
  : Completion (dict (list Dependency)) :=
  groupFrom [] deps.

(** The groups of dependencies none of which stops the grouping. *)
Definition grouped (deps : list Dependency) : dict (list Dependency) :=
  fold_left addToScope deps [].

Definition renderDependency (props : dict string) (dep : Dependency)
  : Effect string :=
  g <- first (groupId dep) ;;
  a <- first (artifactId dep) ;;
  let v := orDefault (version dep) "version not specified" in
  let issues := checkDependencyIssues g a v props in
  ret ("- **" ++ g ++ ":" ++ a ++ "** (" ++ v ++ ")"
       ++ (if 0 <? List.length issues then " ⚠️ " ++ JS.join ", " issues else "")
       ++ JS.nl).

Fixpoint renderAll {A : Type} (f : A -> Effect string) (l : list A)
  : Effect string :=
  match l with
  | [] => ret ""
  | x :: rest => a <- f x ;; b <- renderAll f rest ;; ret (a ++ b)
  end.

Definition renderScope (props : dict string)
    (entry : string * list Dependency) : Effect string :=
  let (sc, deps) := entry in
  body <- renderAll (renderDependency props) deps ;;
  ret ("### " ++ JS.toUpperCase sc ++ " Scope ("
       ++ Number.showNat (List.length deps) ++ " dependencies)" ++ JS.nl
       ++ body ++ JS.nl).

Definition generateMavenAnalysis (deps : list Dependency) (props : dict string)
  : Effect string :=
  if List.length deps =? 0 then
    ret ("## 📦 Maven Dependencies Analysis" ++ JS.nl ++ JS.nl
         ++ "✅ No dependencies found in pom.xml" ++ JS.nl)
  else
    groups <- ([], groupByScope deps) ;;
    scopes <- renderAll (renderScope props) groups ;;
    ret ("## 📦 Maven Dependencies Analysis" ++ JS.nl ++ JS.nl
         ++ "**Total Dependencies:** " ++ Number.showNat (List.length deps)
         ++ JS.nl ++ JS.nl
         ++ scopes
         ++ "### 🔒 Security Recommendations" ++ JS.nl
         ++ "- Consider using `mvn dependency:check` to scan for known vulnerabilities" ++ JS.nl
         ++ "- Update dependencies to latest stable versions" ++ JS.nl
         ++ "- Use `mvn versions:display-dependency-updates` to check for updates"
         ++ JS.nl ++ JS.nl).

Definition isQuote (c : ascii) : bool :=
  Ascii.eqb c "'" || Ascii.eqb c (ascii_of_nat 34).

(** [/implementation\s+Q([^Q]+)Q/g] and its two siblings, where [Q] stands
    for the class of the single and the double quote. *)
Definition re_gradle (configuration : string) : JS.regex :=
  JS.Seq (JS.Str configuration)
    (JS.Seq (JS.Plus re_s)
       (JS.Seq (JS.Cls isQuote)
          (JS.Seq (JS.Grp 1 (JS.Plus (JS.Cls (fun c => negb (isQuote c)))))
             (JS.Cls isQuote)))).

Definition gradleMatches (configuration gradleContent : string) : list string :=
  map (fun m => configuration ++ ": " ++ JS.group 1 m)
      (JS.matchAll (re_gradle configuration) gradleContent).

Definition renderGradle (gradleContent : string) : string :=
  let deps := (gradleMatches "implementation" gradleContent
               ++ gradleMatches "testImplementation" gradleContent
               ++ gradleMatches "compileOnly" gradleContent)%list in
  if List.length deps =? 0 then
    "## 📦 Gradle Dependencies Analysis" ++ JS.nl ++ JS.nl
    ++ "✅ No dependencies found in build.gradle" ++ JS.nl
  else
    "## 📦 Gradle Dependencies Analysis" ++ JS.nl ++ JS.nl
    ++ "**Total Dependencies:** " ++ Number.showNat (List.length deps)
    ++ JS.nl ++ JS.nl
    ++ String.concat "" (map (fun dep => "- " ++ dep ++ JS.nl) deps)
    ++ JS.nl ++ "### 🔒 Security Recommendations" ++ JS.nl
    ++ "- Run `./gradlew dependencyCheckAnalyze` if using OWASP dependency check plugin" ++ JS.nl
    ++ "- Use `./gradlew dependencies` to see full dependency tree" ++ JS.nl
    ++ "- Consider using Gradle dependency verification" ++ JS.nl ++ JS.nl.

Record Args : Type := {
  projectPath : string
}.

Section Execute.
Variable w : World.

(** [parseString] of xml2js followed by the reads of
    [result.project.dependencies?.[0]?.dependency || []] and of
    [result.project.properties?.[0] || {}]; it throws on malformed XML
    and on a document without a [project] root. *)
Variable parsePom : string -> Completion Pom.

Definition analyzeMavenDependencies (pomPath : string) : Effect string :=
  pomContent <- readFile w pomPath ;;
  pom <- ([], parsePom pomContent) ;;
  generateMavenAnalysis (dependencies pom) (properties pom).

Definition analyzeGradleDependencies (buildGradlePath : string) : Effect string :=
  gradleContent <- readFile w buildGradlePath ;;
  ret (renderGradle gradleContent).

Definition noBuildFiles : string :=
  "❌ No Maven (pom.xml) or Gradle (build.gradle) files found in the project.".

Definition tryBlock (projectPath : string) : Effect string :=
  let pomPath := pathJoin projectPath "pom.xml" in
  let buildGradlePath := pathJoin projectPath "build.gradle" in
  maven <- (if existsSync w pomPath
            then r <- analyzeMavenDependencies pomPath ;; ret [r]
            else ret []) ;;
  gradle <- (if existsSync w buildGradlePath
             then r <- analyzeGradleDependencies buildGradlePath ;; ret [r]
             else ret []) ;;
  let results := (maven ++ gradle)%list in
  if List.length results =? 0 then ret noBuildFiles
  else ret (JS.join (JS.nl ++ JS.nl) results).

Definition execute (args : option Args) : Effect string :=
  destructure args (fun members =>
    tryCatch (tryBlock (projectPath members))
      (fun error => ret ("Error analyzing dependencies: " ++ error))).
End Execute.

End DependencyAnalyzer.

(** ** TestGenerator (generate_tests) *)

Module TestGenerator.

Record ClassAnalysis : Type := {
  packageName : string;
  className : string;
  publicMethods : list string;
  dependencies : list string
}.

(** [/public\s+[\w<>\[\]]+\s+(\w+)\s*\(/] *)
Definition re_publicMethod : JS.regex :=
  JS.Seq (JS.Str "public")
    (JS.Seq (JS.Plus re_s)
       (JS.Seq (JS.Plus (JS.Cls isTypeChar))
          (JS.Seq (JS.Plus re_s)
             (JS.Seq (JS.Grp 1 (JS.Plus re_w))
                (JS.Seq (JS.Star re_s) (JS.Chr "("))))))%char.

(** [/import\s+([^;]+)/] *)
Definition re_import : JS.regex :=
  JS.Seq (JS.Str "import")
    (JS.Seq (JS.Plus re_s)
       (JS.Grp 1 (JS.Plus (JS.Cls (fun c => negb (Ascii.eqb c ";")))))).

Definition initial : ClassAnalysis :=
  {| packageName := ""; className := ""; publicMethods := []; dependencies := [] |}.

Definition onPackage (trimmed : string) (st : ClassAnalysis) : ClassAnalysis :=
  if JS.startsWith trimmed "package " then
    {| packageName := stripKeyword trimmed "package ";
       className := className st; publicMethods := publicMethods st;
       dependencies := dependencies st |}
  else st.

(** [if (trimmed.includes('class ') && !className)] *)
Definition onClass (trimmed : string) (st : ClassAnalysis) : ClassAnalysis :=
  if JS.includes trimmed "class " && negb (JS.truthy (className st)) then
    match JS.exec (re_decl "class") trimmed with
    | Some m =>
        {| packageName := packageName st; className := JS.group 1 m;
           publicMethods := publicMethods st; dependencies := dependencies st |}
    | None => st
    end
  else st.

Definition onPublicMethod (trimmed : string) (st : ClassAnalysis) : ClassAnalysis :=
  if JS.includes trimmed "public " && JS.includes trimmed "("
     && negb (JS.includes trimmed "class") then
    match JS.exec re_publicMethod trimmed with
    | Some m =>
        {| packageName := packageName st; className := className st;
           publicMethods := (publicMethods st ++ [JS.group 1 m])%list;
           dependencies := dependencies st |}
    | None => st
    end
  else st.

Definition onImport (trimmed : string) (st : ClassAnalysis) : ClassAnalysis :=
  if JS.startsWith trimmed "import " then
    match JS.exec re_import trimmed with
    | Some m =>
        {| packageName := packageName st; className := className st;
           publicMethods := publicMethods st;
           dependencies := (dependencies st ++ [JS.group 1 m])%list |}
    | None => st
    end
  else st.

Definition step (st : ClassAnalysis) (line : string) : ClassAnalysis :=
  let trimmed := JS.trim line in
  onImport trimmed (onPublicMethod trimmed (onClass trimmed (onPackage trimmed st))).

Definition analyzeJavaClass (content : string) : ClassAnalysis :=
  fold_left step (JS.split_lines content) initial.

Definition capitalize (str : string) : string :=
  JS.toUpperCase (String.substring 0 1 str) ++ JS.drop 1 str.

Definition frameworkImports (testFramework : string) : string :=
  if String.eqb testFramework "junit5" then
    "import org.junit.jupiter.api.Test;" ++ JS.nl
    ++ "import org.junit.jupiter.api.BeforeEach;" ++ JS.nl
    ++ "import org.junit.jupiter.api.DisplayName;" ++ JS.nl
    ++ "import static org.junit.jupiter.api.Assertions.*;" ++ JS.nl ++ JS.nl
  else if String.eqb testFramework "junit4" then
    "import org.junit.Test;" ++ JS.nl
    ++ "import org.junit.Before;" ++ JS.nl
    ++ "import static org.junit.Assert.*;" ++ JS.nl ++ JS.nl
  else if String.eqb testFramework "testng" then
    "import org.testng.annotations.Test;" ++ JS.nl
    ++ "import org.testng.annotations.BeforeMethod;" ++ JS.nl
    ++ "import static org.testng.Assert.*;" ++ JS.nl ++ JS.nl
  else "".

Definition frameworkSetUp (testFramework : string) : string :=
  if String.eqb testFramework "junit5" then
    "    @BeforeEach" ++ JS.nl ++ "    void setUp() {" ++ JS.nl
    ++ "        // Setup code here" ++ JS.nl ++ "    }" ++ JS.nl ++ JS.nl
  else if String.eqb testFramework "junit4" then
    "    @Before" ++ JS.nl ++ "    public void setUp() {" ++ JS.nl
    ++ "        // Setup code here" ++ JS.nl ++ "    }" ++ JS.nl ++ JS.nl
  else if String.eqb testFramework "testng" then
    "    @BeforeMethod" ++ JS.nl ++ "    public void setUp() {" ++ JS.nl
    ++ "        // Setup code here" ++ JS.nl ++ "    }" ++ JS.nl ++ JS.nl
  else "".

Definition testMethod (testFramework method : string) : string :=
  if String.eqb testFramework "junit5" then
    "    @Test" ++ JS.nl
    ++ "    @DisplayName(" ++ JS.dquote ++ "Should test " ++ method ++ " method"
    ++ JS.dquote ++ ")" ++ JS.nl
    ++ "    void test" ++ capitalize method ++ "() {" ++ JS.nl
    ++ "        // Given" ++ JS.nl ++ "        // When" ++ JS.nl
    ++ "        // Then" ++ JS.nl
    ++ "        // TODO: Implement test logic" ++ JS.nl
    ++ "        assertTrue(true, " ++ JS.dquote ++ "Test not implemented yet"
    ++ JS.dquote ++ ");" ++ JS.nl
    ++ "    }" ++ JS.nl ++ JS.nl
  else
    "    @Test" ++ JS.nl
    ++ "    public void test" ++ capitalize method ++ "() {" ++ JS.nl
    ++ "        // Given" ++ JS.nl ++ "        // When" ++ JS.nl
    ++ "        // Then" ++ JS.nl
    ++ "        // TODO: Implement test logic" ++ JS.nl
    ++ "        assertTrue(true);" ++ JS.nl
    ++ "    }" ++ JS.nl ++ JS.nl.

Definition generateTestCode (analysis : ClassAnalysis) (testFramework : string)
  : string :=
  (if JS.truthy (packageName analysis)
   then "package " ++ packageName analysis ++ ";" ++ JS.nl ++ JS.nl else "")
  ++ frameworkImports testFramework
  ++ "public class " ++ className analysis ++ "Test {" ++ JS.nl ++ JS.nl
  ++ frameworkSetUp testFramework
  ++ String.concat "" (map (testMethod testFramework) (publicMethods analysis))
  ++ "}".

Definition generateTestRecommendations (analysis : ClassAnalysis) : string :=
  "- **" ++ Number.showNat (List.length (publicMethods analysis))
  ++ " public methods** need test coverage" ++ JS.nl
  ++ (if 5 <? List.length (dependencies analysis)
      then "- Consider using **mocking frameworks** (Mockito, EasyMock) for complex dependencies"
           ++ JS.nl
      else "")
  ++ "- Add **edge case testing** for boundary conditions" ++ JS.nl
  ++ "- Include **exception testing** for error scenarios" ++ JS.nl
  ++ "- Consider **parameterized tests** for methods with multiple inputs" ++ JS.nl.

(** The report for one file.  The analysis object has no [package] member,
    so [analysis.package || 'default'] prints [default]. *)
Definition renderTestForClass (filePath testFramework : string)
    (analysis : ClassAnalysis) : string :=
  "## 🧪 Test Generation for " ++ className analysis ++ JS.nl ++ JS.nl
  ++ "**File:** `" ++ filePath ++ "`" ++ JS.nl
  ++ "**Framework:** " ++ JS.toUpperCase testFramework ++ JS.nl ++ JS.nl
  ++ "### 📋 Class Analysis" ++ JS.nl
  ++ "- **Package:** " ++ "default" ++ JS.nl
  ++ "- **Public Methods:** " ++ Number.showNat (List.length (publicMethods analysis)) ++ JS.nl
  ++ "- **Dependencies:** " ++ Number.showNat (List.length (dependencies analysis)) ++ JS.nl ++ JS.nl
  ++ "### 🧪 Generated Test Template" ++ JS.nl ++ JS.nl
  ++ "```java" ++ JS.nl
  ++ generateTestCode analysis testFramework
  ++ JS.nl ++ "```" ++ JS.nl ++ JS.nl
  ++ "### 📝 Test Recommendations" ++ JS.nl
  ++ generateTestRecommendations analysis.

Definition generateTestForClass (w : World) (filePath testFramework : string)
  : Effect string :=
  content <- readFile w filePath ;;
  ret (renderTestForClass filePath testFramework (analyzeJavaClass content)).

(** [originalPath.split('/')] and its last element. *)
Fixpoint lastSegment (path : string) : string :=
  match path with
  | EmptyString => EmptyString
  | String c rest =>
      if JS.includes rest "/" then lastSegment rest
      else if Ascii.eqb c "/" then rest else path
  end.

Definition getTestFilePath (originalPath : string) : string :=
  let fileName := lastSegment originalPath in
  let testFileName := JS.replace fileName ".java" "Test.java" in
  JS.replace (JS.replace originalPath "/src/main/java/" "/src/test/java/")
             fileName testFileName.

Fixpoint sortByTests (w : World) (javaFiles : list string)
    (withTests withoutTests : list string) : Effect (list string * list string) :=
  match javaFiles with
  | [] => ret (withTests, withoutTests)
  | filePath :: rest =>
      content <- readFile w filePath ;;
      let analysis := analyzeJavaClass content in
      if existsSync w (getTestFilePath filePath)
      then sortByTests w rest (withTests ++ [className analysis])%list withoutTests
      else sortByTests w rest withTests (withoutTests ++ [className analysis])%list
  end.

(** The report [generateTestsForAllClasses] builds from the two lists. *)
Definition coverageReport (testFramework : string) (found : nat)
    (classesWithTests classesWithoutTests : list string) : string :=
  "## 🧪 Test Generation Analysis" ++ JS.nl ++ JS.nl
    ++ "**Framework:** " ++ JS.toUpperCase testFramework ++ JS.nl
    ++ "**Classes Found:** " ++ Number.showNat found ++ JS.nl ++ JS.nl
    ++ "### 📊 Test Coverage Summary" ++ JS.nl
    ++ "- **Classes with tests:** " ++ Number.showNat (List.length classesWithTests) ++ JS.nl
    ++ "- **Classes without tests:** " ++ Number.showNat (List.length classesWithoutTests)
    ++ JS.nl ++ JS.nl
    ++ (if 0 <? List.length classesWithoutTests then
          "### 🚨 Classes Missing Tests" ++ JS.nl
          ++ String.concat "" (map (fun c => "- " ++ c ++ JS.nl) classesWithoutTests)
          ++ JS.nl
        else "")
    ++ "### 🛠️ Next Steps" ++ JS.nl
    ++ "1. Use the `generate_tests` tool with a specific class name to generate detailed test templates" ++ JS.nl
    ++ "2. Consider adding tests for the classes listed above" ++ JS.nl
    ++ "3. Run existing tests to ensure they pass" ++ JS.nl ++ JS.nl.

Definition generateTestsForAllClasses (w : World) (javaFiles : list string)
    (testFramework : string) : Effect string :=
  sorted <- sortByTests w javaFiles [] [] ;;
  let (classesWithTests, classesWithoutTests) := sorted in
  ret (coverageReport testFramework (List.length javaFiles)
         classesWithTests classesWithoutTests).

Definition shouldSkipDirectory (dirName : string) : bool :=
  existsb (String.eqb dirName)
    ["target"; "build"; "node_modules"; ".git"; ".idea"; "out"].

Record Args : Type := {
  projectPath : string;
  a_className : option string;
  testFramework : option string
}.

Definition noJavaFiles : string := "❌ No Java files found in the project.".

Definition classNotFound (className : string) : string :=
  "❌ Class " ++ JS.dquote ++ className ++ JS.dquote ++ " not found in the project.".

(** [file => file.toLowerCase().includes(className.toLowerCase())] *)
Definition matchesClassName (className file : string) : bool :=
  JS.includes (JS.toLowerCase file) (JS.toLowerCase className).

(** The statements of the [try] block of [execute]. *)
Definition tryBlock (w : World) (args : Args) : Effect string :=
  let framework := match testFramework args with Some f => f | None => "junit5" end in
  let javaFiles := findJavaFiles shouldSkipDirectory w (projectPath args) in
  if List.length javaFiles =? 0 then ret noJavaFiles
  else
    match a_className args with
    | Some className =>
        if JS.truthy className then
          match find (matchesClassName className) javaFiles with
          | Some targetFile => generateTestForClass w targetFile framework
          | None => ret (classNotFound className)
          end
        else generateTestsForAllClasses w javaFiles framework
    | None => generateTestsForAllClasses w javaFiles framework
    end.

Definition execute (w : World) (args : option Args) : Effect string :=
  destructure args (fun members =>
    tryCatch (tryBlock w members)
      (fun error => ret ("Error generating tests: " ++ error))).

End TestGenerator.

(** * Definitions the statements use *)

(** The lines of a file with their 0-based indices. *)
Definition indexed (lines : list string) : list (nat * string) :=
  combine (seq 0 (List.length lines)) lines.

(** The smell the long-line check emits for line [i] of text [raw]. *)
Definition longLineSmell (raw : string) (i : nat) (path : string)
  : CodeQualityChecker.CodeSmell :=
  {| CodeQualityChecker.type := "Long Line";
     CodeQualityChecker.description :=
       "Line too long (" ++ Number.showNat (String.length (JS.trim raw))
       ++ " characters)";
     CodeQualityChecker.line := i + 1;
     CodeQualityChecker.file := path |}.

Definition longLineAt (n : nat) (s : CodeQualityChecker.CodeSmell) : bool :=
  CodeQualityChecker.isLongLine s && (CodeQualityChecker.line s =? n).

Definition doc_ofKind (k : TypeKind) (r : DocumentationGenerator.SourceRecord) : bool :=
  TypeKind_eqb (DocumentationGenerator.type r) k.

(** The records the documentation generator files under package [k]. *)
Definition doc_members (k : string)
    (d : dict DocumentationGenerator.PackageAggregate)
  : list DocumentationGenerator.SourceRecord :=
  match lookup k d with
  | Some p => DocumentationGenerator.p_classes p
  | None => []
  end.

Definition doc_inPackage (k : string) (r : DocumentationGenerator.SourceRecord) : bool :=
  JS.truthy (DocumentationGenerator.package r)
  && String.eqb (DocumentationGenerator.package r) k.

Definition psa_ofKind (k : TypeKind) (r : ProjectStructureAnalyzer.SourceRecord) : bool :=
  JS.truthy (ProjectStructureAnalyzer.package r)
  && TypeKind_eqb (ProjectStructureAnalyzer.type r) k.

(** The updates of an iteration of the documentation parser that precede
    the Javadoc collection. *)
Definition beforeJavadoc (line : string) (st : DocumentationGenerator.Locals)
  : DocumentationGenerator.Locals :=
  DocumentationGenerator.onField line
    (DocumentationGenerator.onMethod line
       (DocumentationGenerator.onType line
          (DocumentationGenerator.onImport line
             (DocumentationGenerator.onPackage line st)))).

(** The single dependency of the scenario and the report it produces. *)
Definition springSnapshot : DependencyAnalyzer.Dependency :=
  {| DependencyAnalyzer.groupId := Some "org.springframework";
     DependencyAnalyzer.artifactId := Some "core";
     DependencyAnalyzer.version := Some "5.0.0-SNAPSHOT";
     DependencyAnalyzer.scope := None |}.

(** A line of 130 code units that starts with 20 spaces, and one without
    surrounding white space. *)
Fixpoint repeatChar (c : ascii) (n : nat) : string :=
  match n with
  | O => EmptyString
  | S n' => String c (repeatChar c n')
  end.

Definition indentedLine : string := repeatChar " " 20 ++ repeatChar "x" 110.
Definition solidLine : string := repeatChar "x" 130.

(** The five tools the server registers, in registration order. *)
Inductive Tool : Type :=
| analyze_dependencies
| generate_tests
| check_code_quality
| generate_documentation
| analyze_project_structure.

Definition tools : list Tool :=
  [analyze_dependencies; generate_tests; check_code_quality;
   generate_documentation; analyze_project_structure].

(** The exclusion test of the walk of each tool; the dependency analyzer
    looks at two fixed paths and walks no directory. *)
Definition walkExclusion (t : Tool) : option (string -> bool) :=
  match t with
  | analyze_dependencies => None
  | generate_tests => Some TestGenerator.shouldSkipDirectory
  | check_code_quality => Some CodeQualityChecker.shouldSkipDirectory
  | generate_documentation => Some DocumentationGenerator.shouldSkipDirectory
  | analyze_project_structure => Some ProjectStructureAnalyzer.shouldSkipDirectory
  end.

Definition skips (t : Tool) (dirName : string) : bool :=
  match walkExclusion t with
  | Some shouldSkip => shouldSkip dirName
  | None => false
  end.

Definition baseExclusions : list string :=
  ["target"; "build"; "node_modules"; ".git"; ".idea"; "out"].

(** A project with a [src] and a [test] directory, walked by the test
    generator and by the documentation generator. *)
Definition sampleTree : list Dirent :=
  [DirEnt "src" (Some [FileEnt "App.java"; FileEnt "notes.txt"]);
   DirEnt "test" (Some [FileEnt "AppTest.java"]);
   DirEnt "target" (Some [FileEnt "Gen.java"])].

(** A source file in the default package. *)
Definition defaultPackageSource : string :=
  "public class Foo {" ++ JS.nl ++ "}" ++ JS.nl.

Fixpoint lastSome {A : Type} (l : list (option A)) : option A :=
  match l with
  | [] => None
  | x :: rest =>
      match lastSome rest with
      | Some y => Some y
      | None => x
      end
  end.

Fixpoint firstTruthy (l : list (option string)) : option string :=
  match l with
  | [] => None
  | Some n :: rest => if JS.truthy n then Some n else firstTruthy rest
  | None :: rest => firstTruthy rest
  end.

Definition orEmpty (o : option string) : string :=
  match o with Some s => s | None => "" end.

(** The identifier a line declares for the two full parsers: the line
    mentions one of the three keywords and the pattern of the keyword it
    resolves to matches. *)
Definition declared (raw : string) : option string :=
  let line := JS.trim raw in
  if isTypeLine line then declName line else None.

(** The identifier a line declares for the parser of the test generator. *)
Definition declaredClass (raw : string) : option string :=
  let trimmed := JS.trim raw in
  if JS.includes trimmed "class " then
    option_map (JS.group 1) (JS.exec (re_decl "class") trimmed)
  else None.

(** A file that declares two types. *)
Definition twoTypes : string :=
  "package demo;" ++ JS.nl
  ++ "public class First {" ++ JS.nl ++ "}" ++ JS.nl
  ++ "class Second {" ++ JS.nl ++ "}" ++ JS.nl.


(** A project whose only file declares an interface. *)
Definition shapeSource : string :=
  "package demo;" ++ JS.nl
  ++ "public interface Shape {" ++ JS.nl
  ++ "    double area();" ++ JS.nl
  ++ "}" ++ JS.nl.

Definition shapeProject : World :=
  {| readdirSync := fun dir =>
       if String.eqb dir "/p" then Some [FileEnt "Shape.java"] else None;
     readFileSync := fun path =>
       if String.eqb path "/p/Shape.java" then Normal shapeSource
       else Throw "ENOENT: no such file or directory";
     existsSync := fun path =>
       String.eqb path "/p" || String.eqb path "/p/Shape.java" |}.

Definition overviewOf (w : World) (projectPath : string) : option string :=
  match outcome (DocumentationGenerator.analyzeProject w
                   (findJavaFiles DocumentationGenerator.shouldSkipDirectory w projectPath)) with
  | Normal a => DocumentationGenerator.generateProjectOverview a
  | Throw _ => None
  end.

Definition metricsOf (w : World) (projectPath : string) : option string :=
  match outcome (ProjectStructureAnalyzer.analyzeProjectStructure w
                   (findJavaFiles ProjectStructureAnalyzer.shouldSkipDirectory w projectPath)) with
  | Normal a => ProjectStructureAnalyzer.generateProjectMetrics a
  | Throw _ => None
  end.

Definition includesText (report : option string) (text : string) : bool :=
  match report with
  | Some r => JS.includes r text
  | None => false
  end.

(** The share of interfaces among classes and interfaces, as a percentage:
    the quantity the specification names. *)
Definition interfaceShare (classes interfaces : nat) : Number.number :=
  Number.mul (Number.div (Number.ofNat interfaces)
                         (Number.ofNat (classes + interfaces)))
             (Number.ofNat 100).

(** A project with one class and one interface. *)
Definition circleSource : string :=
  "package demo;" ++ JS.nl
  ++ "public class Circle implements Shape {" ++ JS.nl
  ++ "    private double radius;" ++ JS.nl
  ++ "    public double area() {" ++ JS.nl
  ++ "        return 3.14 * radius * radius;" ++ JS.nl
  ++ "    }" ++ JS.nl
  ++ "}" ++ JS.nl.

Definition shapesProject : World :=
  {| readdirSync := fun dir =>
       if String.eqb dir "/p"
       then Some [FileEnt "Shape.java"; FileEnt "Circle.java"] else None;
     readFileSync := fun path =>
       if String.eqb path "/p/Shape.java" then Normal shapeSource
       else if String.eqb path "/p/Circle.java" then Normal circleSource
       else Throw "ENOENT: no such file or directory";
     existsSync := fun path =>
       String.eqb path "/p" || String.eqb path "/p/Shape.java"
       || String.eqb path "/p/Circle.java" |}.

Definition architectureOf (w : World) (projectPath : string) : option string :=
  match outcome (ProjectStructureAnalyzer.analyzeProjectStructure w
                   (findJavaFiles ProjectStructureAnalyzer.shouldSkipDirectory w projectPath)) with
  | Normal a => ProjectStructureAnalyzer.generateArchitectureAnalysis a
  | Throw _ => None
  end.

Definition emptyProject : World :=
  {| readdirSync := fun _ => Some [];
     readFileSync := fun _ => Throw "ENOENT: no such file or directory";
     existsSync := fun _ => true |}.

Definition askFor (projectPath className : string) : TestGenerator.Args :=
  {| TestGenerator.projectPath := projectPath;
     TestGenerator.a_className := Some className;
     TestGenerator.testFramework := None |}.

Definition handler (error : string) : Effect string :=
  ret ("Error generating tests: " ++ error).

Definition frameworkOf (args : TestGenerator.Args) : string :=
  match TestGenerator.testFramework args with Some f => f | None => "junit5" end.

(** A class name that is part of a directory name selects the file found
    first under that directory. *)
Definition usersProject : World :=
  {| readdirSync := fun dir =>
       if String.eqb dir "/p" then
         Some [DirEnt "src"
                 (Some [DirEnt "users" (Some [FileEnt "Admin.java"]);
                        DirEnt "model" (Some [FileEnt "User.java"])])]
       else None;
     readFileSync := fun path =>
       if String.eqb path "/p/src/users/Admin.java"
       then Normal ("public class Admin {" ++ JS.nl ++ "}")
       else Normal ("public class User {" ++ JS.nl ++ "}");
     existsSync := fun _ => true |}.

(** What the [try] statement of an entry point guarantees: the entry point
    returns; it returns what the block returns; and when the block throws,
    it returns the marker of the tool followed by the message. *)
Definition reported (marker : string) (block entry : Effect string) : Prop :=
  exists text,
    outcome entry = Normal text
    /\ (forall v, outcome block = Normal v -> text = v)
    /\ (forall e, outcome block = Throw e ->
          text = marker ++ e /\ JS.startsWith text "Error " = true).

(** A project whose only Java file cannot be read, and a manifest with a
    dependency that has no group. *)
Definition lockedProject : World :=
  {| readdirSync := fun dir =>
       if String.eqb dir "/p" then Some [FileEnt "Locked.java"] else None;
     readFileSync := fun path =>
       if String.eqb path "/p/pom.xml" then Normal "<project/>"
       else Throw "EACCES: permission denied";
     existsSync := fun path => String.eqb path "/p/pom.xml" |}.

Definition brokenPom (content : string) : Completion DependencyAnalyzer.Pom :=
  Normal {| DependencyAnalyzer.dependencies :=
              [{| DependencyAnalyzer.groupId := None;
                  DependencyAnalyzer.artifactId := Some "core";
                  DependencyAnalyzer.version := None;
                  DependencyAnalyzer.scope := None |}];
            DependencyAnalyzer.properties := [] |}.

(** A method or field signature of the documentation parser without its
    Javadoc, as the parser of the structure analyzer records it. *)
Definition dropMethodJavadoc (m : DocumentationGenerator.MethodSignature)
  : ProjectStructureAnalyzer.MethodSignature :=
  {| ProjectStructureAnalyzer.visibility := DocumentationGenerator.visibility m;
     ProjectStructureAnalyzer.returnType := DocumentationGenerator.returnType m;
     ProjectStructureAnalyzer.name := DocumentationGenerator.name m |}.

Definition dropFieldJavadoc (f : DocumentationGenerator.FieldSignature)
  : ProjectStructureAnalyzer.FieldSignature :=
  {| ProjectStructureAnalyzer.fvisibility := DocumentationGenerator.fvisibility f;
     ProjectStructureAnalyzer.ftype := DocumentationGenerator.ftype f;
     ProjectStructureAnalyzer.fname := DocumentationGenerator.fname f |}.

(** The kind a line sets, and the package a line sets. *)
Definition declaredKind (raw : string) : option TypeKind :=
  let line := JS.trim raw in
  if isTypeLine line then Some (declKind line) else None.

Definition declaredPackage (raw : string) : option string :=
  let line := JS.trim raw in
  if JS.startsWith line "package " then Some (stripKeyword line "package ") else None.

(** A line that is collected as Javadoc and is nothing else to the parser:
    it mentions no type keyword and no visibility keyword. *)
Definition plainJavadoc (raw : string) : bool :=
  let line := JS.trim raw in
  DocumentationGenerator.collectsJavadoc line
  && negb (isTypeLine line) && negb (hasVisibility line).

Definition javadocText (block : list string) : string :=
  String.concat "" (map (fun raw => JS.trim raw ++ JS.nl) block).

(** What holds of every entry of the package dictionary of the
    documentation generator. *)
Definition doc_packageInvariant
    (entry : string * DocumentationGenerator.PackageAggregate) : Prop :=
  let (k, p) := entry in
  k <> ""
  /\ DocumentationGenerator.p_name p = k
  /\ DocumentationGenerator.p_classes p <> []
  /\ Forall (fun r => DocumentationGenerator.package r = k)
            (DocumentationGenerator.p_classes p)
  /\ DocumentationGenerator.p_methods p
     = sum (map (fun r => List.length (DocumentationGenerator.methods r))
                (DocumentationGenerator.p_classes p))
  /\ DocumentationGenerator.p_interfaces p = []
  /\ DocumentationGenerator.p_enums p = [].

(** The records of a package aggregate of the structure analyzer. *)
Definition psa_members (p : ProjectStructureAnalyzer.PackageAggregate)
  : list ProjectStructureAnalyzer.SourceRecord :=
  (ProjectStructureAnalyzer.p_classes p ++ ProjectStructureAnalyzer.p_interfaces p
   ++ ProjectStructureAnalyzer.p_enums p)%list.

(** What holds of every entry of the package dictionary of the structure
    analyzer. *)
Definition psa_packageInvariant
    (entry : string * ProjectStructureAnalyzer.PackageAggregate) : Prop :=
  let (k, p) := entry in
  k <> ""
  /\ ProjectStructureAnalyzer.p_name p = k
  /\ Forall (fun r => ProjectStructureAnalyzer.package r = k) (psa_members p)
  /\ Forall (fun r => ProjectStructureAnalyzer.type r = class)
            (ProjectStructureAnalyzer.p_classes p)
  /\ Forall (fun r => ProjectStructureAnalyzer.type r = interface)
            (ProjectStructureAnalyzer.p_interfaces p)
  /\ Forall (fun r => ProjectStructureAnalyzer.type r = enum)
            (ProjectStructureAnalyzer.p_enums p)
  /\ ProjectStructureAnalyzer.p_fileCount p = List.length (psa_members p)
  /\ 0 < ProjectStructureAnalyzer.p_fileCount p
  /\ ProjectStructureAnalyzer.p_totalMethods p
     = sum (map (fun r => List.length (ProjectStructureAnalyzer.methods r)) (psa_members p))
  /\ ProjectStructureAnalyzer.p_totalFields p
     = sum (map (fun r => List.length (ProjectStructureAnalyzer.fields r)) (psa_members p)).

(** The locals of the two full parsers hold the same structure. *)
Definition sameStructure (d : DocumentationGenerator.Locals)
    (p : ProjectStructureAnalyzer.Locals) : Prop :=
  DocumentationGenerator.l_packageName d = ProjectStructureAnalyzer.l_packageName p
  /\ DocumentationGenerator.l_className d = ProjectStructureAnalyzer.l_className p
  /\ DocumentationGenerator.l_type d = ProjectStructureAnalyzer.l_type p
  /\ map dropMethodJavadoc (DocumentationGenerator.l_methods d)
     = ProjectStructureAnalyzer.l_methods p
  /\ map dropFieldJavadoc (DocumentationGenerator.l_fields d)
     = ProjectStructureAnalyzer.l_fields p.

(** The five kinds of smell the detector emits. *)
Definition smellKinds : list string :=
  ["Long Line"; "Deep Nesting"; "Magic Number"; "Empty Catch Block"; "Technical Debt"].

(** A line that counts for the metrics: not blank once trimmed. *)
Definition nonBlank (raw : string) : bool := negb (String.eqb (JS.trim raw) "").

Definition isCodeLine (raw : string) : bool :=
  nonBlank raw && negb (CodeQualityChecker.isCommentLine (JS.trim raw)).

(** The scope a dependency is grouped under. *)
Definition scopeOf (dep : DependencyAnalyzer.Dependency) : string :=
  DependencyAnalyzer.orDefault (DependencyAnalyzer.scope dep) "compile".

(** The dependencies grouped under scope [sc]. *)
Definition groupOf (sc : string) (d : dict (list DependencyAnalyzer.Dependency))
  : list DependencyAnalyzer.Dependency :=
  match lookup sc d with
  | Some l => l
  | None => []
  end.

(** A dependency with both coordinates. *)
Definition hasCoordinates (dep : DependencyAnalyzer.Dependency) : bool :=
  match DependencyAnalyzer.groupId dep, DependencyAnalyzer.artifactId dep with
  | Some _, Some _ => true
  | _, _ => false
  end.

Definition missingMember : string :=
  "Cannot read properties of undefined (reading '0')".

(** A file whose text can be read in world [w]. *)
Definition readable (w : World) (path : string) : Prop :=
  exists content, readFileSync w path = Normal content.

(** The arguments of generate_tests without a class name. *)
Definition allClasses (projectPath : string) : TestGenerator.Args :=
  {| TestGenerator.projectPath := projectPath;
     TestGenerator.a_className := None;
     TestGenerator.testFramework := None |}.

(** One for a line that counts, zero otherwise. *)
Definition bump (b : bool) : nat := if b then 1 else 0.

(** A shifted mantissa that is not negative. *)
Definition nonneg (mrs : shr_record) : Prop := (0 <= shr_m mrs)%Z.

(** *** The server's request handler *)

Definition getName (t : Tool) : string :=
  match t with
  | analyze_dependencies => "analyze_dependencies"
  | generate_tests => "generate_tests"
  | check_code_quality => "check_code_quality"
  | generate_documentation => "generate_documentation"
  | analyze_project_structure => "analyze_project_structure"
  end.

(** The answer to a tool call: its text, and whether [isError] is set. *)
Record CallToolResult : Type := {
  text : string;
  isError : bool
}.

(** The handler of [CallToolRequestSchema]; [execute tool] is
    [tool.execute(args)] at the arguments of the request. *)
Definition callTool (execute : Tool -> Effect string) (name : string)
  : Effect CallToolResult :=
  match find (fun t => String.eqb (getName t) name) tools with
  | None => throw ("Unknown tool: " ++ name)
  | Some tool =>
      tryCatch
        (result <- execute tool ;;
         ret {| text := result; isError := false |})
        (fun error =>
           ret {| text := "Error executing tool " ++ name ++ ": " ++ error;
                  isError := true |})
  end.

(** Whether the test file [getTestFilePath] names for a source file exists. *)
Definition hasTestFile (w : World) (filePath : string) : bool :=
  existsSync w (TestGenerator.getTestFilePath filePath).

(** The class name the test generator finds in a file that can be read. *)
Definition classNameOf (w : World) (filePath : string) : string :=
  match readFileSync w filePath with
  | Normal content => TestGenerator.className (TestGenerator.analyzeJavaClass content)
  | Throw _ => ""
  end.


(** A file the loop of the documentation generator takes in and passes:
    it can be read, and the package it declares is not named like a member
    every object inherits. *)
Definition doc_passes (w : World) (path : string) : Prop :=
  exists content,
    readFileSync w path = Normal content
    /\ inherits (DocumentationGenerator.package
                   (DocumentationGenerator.analyzeJavaFile content path)) = false.

(** A file at which that loop stops with message [e]: the read throws [e],
    or the file declares a package named like an inherited member and the
    [push] throws. *)
Definition doc_stops (w : World) (path e : string) : Prop :=
  readFileSync w path = Throw e
  \/ exists content,
       readFileSync w path = Normal content
       /\ inherits (DocumentationGenerator.package
                      (DocumentationGenerator.analyzeJavaFile content path)) = true
       /\ e = pushOfUndefined.

(** Three files, the second of which declares the package [constructor]. *)
Definition shadowedProject : World :=
  {| readdirSync := fun dir =>
       if String.eqb dir "/p"
       then Some [FileEnt "A.java"; FileEnt "B.java"; FileEnt "C.java"] else None;
     readFileSync := fun path =>
       if String.eqb path "/p/B.java"
       then Normal ("package constructor;" ++ JS.nl ++ "public class B {" ++ JS.nl ++ "}")
       else Normal ("package demo;" ++ JS.nl ++ "public class A {" ++ JS.nl ++ "}");
     existsSync := fun _ => true |}.

(** Whether some record declares a package named like a member every object
    inherits, for the records of each of the two parsers. *)
Definition doc_shadowed (rs : list DocumentationGenerator.SourceRecord) : bool :=
  existsb (fun r => inherits (DocumentationGenerator.package r)) rs.

Definition psa_shadowed (rs : list ProjectStructureAnalyzer.SourceRecord) : bool :=
  existsb (fun r => inherits (ProjectStructureAnalyzer.package r)) rs.

(** What each tool does with a request that carries no arguments. *)
Definition withoutArguments (w : World)
    (parsePom : string -> Completion DependencyAnalyzer.Pom)
    (renderFile : string -> string -> bool -> Effect string)
    (renderProject : list (string * string) -> Effect string)
    (writeDocuments : DocumentationGenerator.Args -> list string ->
                      DocumentationGenerator.Analysis -> Effect string)
    (renderReport : ProjectStructureAnalyzer.Args -> list string ->
                    ProjectStructureAnalyzer.Analysis -> Effect string)
    (tool : Tool) : Effect string :=
  match tool with
  | analyze_dependencies => DependencyAnalyzer.execute w parsePom None
  | generate_tests => TestGenerator.execute w None
  | check_code_quality => CodeQualityChecker.execute w renderFile renderProject None
  | generate_documentation => DocumentationGenerator.execute w writeDocuments None
  | analyze_project_structure => ProjectStructureAnalyzer.execute w renderReport None
  end.

(** * Properties *)

(** ** Number formatting *)

Example toFixed_ex1 :
  Number.toFixed1 (Number.div (Number.ofNat 1) (Number.ofNat 3)) = Some "0.3".
Proof. reflexivity. Qed.
Example toFixed_ex2 :
  Number.toFixed1 (Number.mul (Number.div (Number.ofNat 1) (Number.ofNat 3)) (Number.ofNat 100)) = Some "33.3".
Proof. reflexivity. Qed.
Example toFixed_ex3 :
  Number.toFixed1 (Number.div (Number.ofNat 7) (Number.ofNat 20)) = Some "0.3".
Proof. reflexivity. Qed.
Example toFixed_ex4 :
  Number.toFixed1 (Number.div (Number.ofNat 1) (Number.ofNat 4)) = Some "0.3".
Proof. reflexivity. Qed.
Example toFixed_ex5 :
  Number.toFixed1 (Number.div (Number.ofNat 0) (Number.ofNat 0)) = Some "NaN".
Proof. reflexivity. Qed.
Example toFixed_ex6 :
  Number.toFixed1 (Number.div (Number.ofNat 123456) (Number.ofNat 1)) = Some "123456.0".
Proof. reflexivity. Qed.
Example toFixed_ex7 :
  Number.toFixed1 (Number.div (Number.ofNat 1) (Number.ofNat 20)) = Some "0.1".
Proof. reflexivity. Qed.

(** ** Dependency issue flags *)

Lemma eqb_either (v a b : string) :
  String.eqb v a || String.eqb v b = true <-> v = a \/ v = b.
Proof.
  rewrite orb_true_iff, !String.eqb_eq. reflexivity.
Qed.

(** C7.  The flags of a Maven dependency: the property-reference flag is
    raised exactly when the version starts with the two characters of a
    property reference, the dynamic-version flag exactly when the version
    is LATEST or RELEASE, the snapshot flag exactly when the group is
    org.springframework and the version contains SNAPSHOT; nothing else is
    ever raised; two flags can be raised together; and the dependency
    org.springframework:core:5.0.0-SNAPSHOT gets the snapshot flag, also in
    the rendered report. *)
Theorem checkDependencyIssues_flags :
  (forall groupId artifactId version properties,
     let issues :=
       DependencyAnalyzer.checkDependencyIssues groupId artifactId version properties in
     (In DependencyAnalyzer.propertyReference issues
        <-> JS.startsWith version "${" = true)
     /\ (In DependencyAnalyzer.dynamicVersion issues
        <-> version = "LATEST" \/ version = "RELEASE")
     /\ (In DependencyAnalyzer.snapshotVersion issues
        <-> groupId = "org.springframework" /\ JS.includes version "SNAPSHOT" = true)
     /\ (forall issue, In issue issues ->
           issue = DependencyAnalyzer.propertyReference
           \/ issue = DependencyAnalyzer.dynamicVersion
           \/ issue = DependencyAnalyzer.snapshotVersion))
  /\ DependencyAnalyzer.checkDependencyIssues
       "org.springframework" "core" "5.0.0-SNAPSHOT" []
     = [DependencyAnalyzer.snapshotVersion]
  /\ DependencyAnalyzer.checkDependencyIssues
       "org.springframework" "core" "${spring.SNAPSHOT}" []
     = [DependencyAnalyzer.propertyReference; DependencyAnalyzer.snapshotVersion]
  /\ (exists report,
        outcome (DependencyAnalyzer.generateMavenAnalysis [springSnapshot] [])
        = Normal report
        /\ JS.includes report
             "- **org.springframework:core** (5.0.0-SNAPSHOT) ⚠️ uses snapshot version"
           = true).
Proof.
  split; [| split; [reflexivity | split; [reflexivity |]]].
  - intros g a v props issues. subst issues.
    unfold DependencyAnalyzer.checkDependencyIssues.
    rewrite <- (eqb_either v "LATEST" "RELEASE").
    assert (Hs : String.eqb g "org.springframework" && JS.includes v "SNAPSHOT" = true
                 <-> g = "org.springframework" /\ JS.includes v "SNAPSHOT" = true)
      by (rewrite andb_true_iff, String.eqb_eq; reflexivity).
    rewrite <- Hs. clear Hs.
    destruct (JS.startsWith v "${");
      destruct (String.eqb v "LATEST" || String.eqb v "RELEASE");
      destruct (String.eqb g "org.springframework" && JS.includes v "SNAPSHOT");
      unfold DependencyAnalyzer.propertyReference, DependencyAnalyzer.dynamicVersion,
        DependencyAnalyzer.snapshotVersion; simpl;
      intuition (try discriminate; try congruence).
  - eexists. split; [vm_compute; reflexivity | vm_compute; reflexivity].
Qed.

(** ** Long lines *)

Section LongLines.
Import CodeQualityChecker.

Lemma in_combine_seq (l : list string) : forall k i raw,
  In (i, raw) (combine (seq k (List.length l)) l)
  <-> k <= i /\ nth_error l (i - k) = Some raw.
Proof.
  induction l as [| x l IH]; intros k i raw; simpl.
  - split; [tauto |]. intros [_ H]. destruct (i - k); discriminate.
  - rewrite IH. split.
    + intros [H | [Hle H]].
      * inversion H; subst. rewrite Nat.sub_diag. split; [lia | reflexivity].
      * split; [lia |]. replace (i - k) with (S (i - S k)) by lia. exact H.
    + intros [Hle H]. destruct (i - k) as [| d] eqn:Hd.
      * left. inversion H; subst. f_equal. lia.
      * right. split; [lia |]. replace (i - S k) with d by lia. exact H.
Qed.

(** A flat map over the indexed lines in which a single index contributes. *)
Lemma flat_map_only_index {B : Type} (f : nat * string -> list B) (i : nat)
    (l : list string) : forall k,
  (forall j r, j <> i -> f (j, r) = []) ->
  flat_map f (combine (seq k (List.length l)) l)
  = match nth_error l (i - k) with
    | Some r => if k <=? i then f (i, r) else []
    | None => []
    end.
Proof.
  induction l as [| x l IH]; intros k Hf; simpl.
  - destruct (i - k); reflexivity.
  - rewrite (IH (S k) Hf). destruct (Nat.eq_dec k i) as [-> | Hne].
    + assert (E : (S i <=? i) = false) by (apply Nat.leb_gt; lia).
      rewrite E, Nat.sub_diag, Nat.leb_refl.
      destruct (nth_error l (i - S i)); cbn [nth_error]; apply app_nil_r.
    + rewrite (Hf k x Hne). cbn [app].
      destruct (Nat.le_gt_cases k i) as [Hle | Hgt].
      * assert (E1 : (S k <=? i) = true) by (apply Nat.leb_le; lia).
        assert (E2 : (k <=? i) = true) by (apply Nat.leb_le; lia).
        rewrite E1, E2.
        replace (i - k) with (S (i - S k)) by lia. reflexivity.
      * assert (E1 : (S k <=? i) = false) by (apply Nat.leb_gt; lia).
        assert (E2 : (k <=? i) = false) by (apply Nat.leb_gt; lia).
        rewrite E1, E2.
        destruct (nth_error l (i - S k)), (nth_error (x :: l) (i - k)); reflexivity.
Qed.

Lemma filter_flat_map {A B : Type} (p : B -> bool) (f : A -> list B)
    (l : list A) :
  filter p (flat_map f l) = flat_map (fun a => filter p (f a)) l.
Proof.
  induction l as [| a l IH]; simpl; [reflexivity |].
  rewrite filter_app, IH. reflexivity.
Qed.

(** Of the five checks of an iteration only the first one emits a smell
    of type Long Line. *)
Lemma long_lines_of_iteration (lines : list string) (path : string)
    (i : nat) (raw : string) :
  filter isLongLine (smellsAt lines path i raw)
  = longLine (JS.trim raw) (i + 1) path.
Proof.
  unfold smellsAt. rewrite !filter_app.
  assert (H1 : filter isLongLine (longLine (JS.trim raw) (i + 1) path)
               = longLine (JS.trim raw) (i + 1) path)
    by (unfold longLine; destruct (120 <? _); reflexivity).
  assert (H2 : filter isLongLine (deepNesting raw (i + 1) path) = [])
    by (unfold deepNesting; destruct (24 <? _); reflexivity).
  assert (H3 : filter isLongLine (magicNumber (JS.trim raw) (i + 1) path) = [])
    by (unfold magicNumber; destruct (_ && _); reflexivity).
  assert (H4 : filter isLongLine (emptyCatch lines i (JS.trim raw) (i + 1) path) = [])
    by (unfold emptyCatch; destruct (_ && _); [destruct (forallb _ _) |]; reflexivity).
  assert (H5 : filter isLongLine (technicalDebt (JS.trim raw) (i + 1) path) = [])
    by (unfold technicalDebt; destruct (_ || _); reflexivity).
  rewrite H1, H2, H3, H4, H5. simpl. apply app_nil_r.
Qed.

(** The Long Line smells of a file, in order: one per line whose trimmed
    text is longer than 120 code units. *)
Lemma long_lines_of_file (lines : list string) (path : string) :
  filter isLongLine (detectCodeSmells lines path)
  = flat_map (fun ir => longLine (JS.trim (snd ir)) (fst ir + 1) path)
             (indexed lines).
Proof.
  unfold detectCodeSmells, indexed. rewrite filter_flat_map.
  apply flat_map_ext. intros [i raw]. apply long_lines_of_iteration.
Qed.

End LongLines.

(** C9, as stated, fails: a line of more than 120 code units whose trimmed
    text is not longer than 120 raises no Long Line smell. *)
Lemma long_line_raw_length_refuted :
  ~ (forall lines path i raw,
       nth_error lines i = Some raw ->
       120 < String.length raw ->
       exists s, In s (CodeQualityChecker.detectCodeSmells lines path)
                 /\ CodeQualityChecker.type s = "Long Line"
                 /\ CodeQualityChecker.line s = i + 1).
Proof.
  intros H.
  destruct (H [indentedLine] "A.java" 0 indentedLine eq_refl) as [s [Hin _]].
  - vm_compute. repeat constructor.
  - vm_compute in Hin. exact Hin.
Qed.

(** C9, amended.  A line whose text, once trimmed, is longer than 120 code
    units raises a Long Line smell at its 1-based line number, and exactly
    one. *)
Theorem detectCodeSmells_long_line (lines : list string) (path : string)
    (i : nat) (raw : string) :
  nth_error lines i = Some raw ->
  120 < String.length (JS.trim raw) ->
  In (longLineSmell raw i path) (CodeQualityChecker.detectCodeSmells lines path)
  /\ filter (longLineAt (i + 1)) (CodeQualityChecker.detectCodeSmells lines path)
     = [longLineSmell raw i path].
Proof.
  intros Hnth Hlen.
  assert (Hlong : CodeQualityChecker.longLine (JS.trim raw) (i + 1) path
                  = [longLineSmell raw i path]).
  { unfold CodeQualityChecker.longLine.
    apply Nat.ltb_lt in Hlen. rewrite Hlen. reflexivity. }
  split.
  - unfold CodeQualityChecker.detectCodeSmells. apply in_flat_map.
    exists (i, raw). split.
    + apply in_combine_seq. rewrite Nat.sub_0_r. split; [lia | exact Hnth].
    + unfold CodeQualityChecker.smellsAt. simpl fst. simpl snd.
      apply in_or_app. left. rewrite Hlong. left. reflexivity.
  - assert (Heq : forall l,
              filter (longLineAt (i + 1)) l
              = filter (fun s => CodeQualityChecker.line s =? i + 1)
                       (filter CodeQualityChecker.isLongLine l)).
    { induction l as [| s l IH]; simpl; [reflexivity |].
      unfold longLineAt at 1. destruct (CodeQualityChecker.isLongLine s); simpl.
      - rewrite IH. reflexivity.
      - exact IH. }
    rewrite Heq, long_lines_of_file, filter_flat_map. unfold indexed.
    rewrite (flat_map_only_index _ i).
    + rewrite Nat.sub_0_r, Hnth. simpl. rewrite Hlong. simpl.
      rewrite Nat.eqb_refl. reflexivity.
    + intros j r Hj. simpl. unfold CodeQualityChecker.longLine.
      destruct (120 <? _); [| reflexivity]. simpl.
      replace (j + 1 =? i + 1) with false; [reflexivity |].
      symmetry. apply Nat.eqb_neq. lia.
Qed.

(** The scenario of the specification: one line of 130 characters. *)
Lemma detectCodeSmells_long_line_witness :
  nth_error [solidLine] 0 = Some solidLine
  /\ 120 < String.length (JS.trim solidLine)
  /\ In (longLineSmell solidLine 0 "A.java")
        (CodeQualityChecker.detectCodeSmells [solidLine] "A.java")
  /\ filter (longLineAt 1) (CodeQualityChecker.detectCodeSmells [solidLine] "A.java")
     = [longLineSmell solidLine 0 "A.java"].
Proof.
  assert (H1 : nth_error [solidLine] 0 = Some solidLine) by reflexivity.
  assert (H2 : 120 < String.length (JS.trim solidLine)).
  { vm_compute. repeat constructor. }
  split; [exact H1 | split; [exact H2 |]].
  exact (detectCodeSmells_long_line [solidLine] "A.java" 0 solidLine H1 H2).
Defined.

(** ** The file walk and its exclusions *)

Lemma existsb_eqb_In (x : string) (l : list string) :
  existsb (String.eqb x) l = true <-> In x l.
Proof.
  rewrite existsb_exists. split.
  - intros [y [Hin Heq]]. apply String.eqb_eq in Heq. subst. exact Hin.
  - intros Hin. exists x. split; [exact Hin | apply String.eqb_refl].
Qed.

Lemma scanEntry_directory (shouldSkip : string -> bool) (dir name : string)
    (listing : option (list Dirent)) :
  scanEntry shouldSkip dir (DirEnt name listing)
  = if shouldSkip name then []
    else match listing with
         | Some entries => scanEntries shouldSkip (pathJoin dir name) entries
         | None => []
         end.
Proof.
  cbn [scanEntry]. destruct (shouldSkip name); cbn [negb]; [reflexivity |].
  destruct listing as [entries |]; [| reflexivity].
  unfold scanEntries. induction entries as [| e es IH]; [reflexivity |].
  cbn [flat_map]. rewrite <- IH. reflexivity.
Qed.

(** C5, as stated, fails: the directory name test is excluded by three of
    the five tools, not two. *)
Lemma test_directory_skipped_by_two_refuted :
  List.length (filter (fun t => skips t "test") tools) <> 2.
Proof. vm_compute. discriminate. Qed.

(** C5, amended.  The walk of the test generator excludes exactly target,
    build, node_modules, .git, .idea and out; the walks of the quality
    checker, the documentation generator and the structure analyzer exclude
    exactly these and test; the dependency analyzer has no walk; so test is
    excluded by three of the five tools.  A walk descends into every
    directory it does not exclude and into no directory it excludes. *)
Theorem walk_exclusions :
  (forall name, TestGenerator.shouldSkipDirectory name = true
                <-> In name baseExclusions)
  /\ (forall name, CodeQualityChecker.shouldSkipDirectory name = true
                   <-> In name (baseExclusions ++ ["test"])%list)
  /\ (forall name, DocumentationGenerator.shouldSkipDirectory name = true
                   <-> In name (baseExclusions ++ ["test"])%list)
  /\ (forall name, ProjectStructureAnalyzer.shouldSkipDirectory name = true
                   <-> In name (baseExclusions ++ ["test"])%list)
  /\ walkExclusion analyze_dependencies = None
  /\ filter (fun t => skips t "test") tools
     = [check_code_quality; generate_documentation; analyze_project_structure]
  /\ (forall t shouldSkip dir name listing,
        walkExclusion t = Some shouldSkip ->
        scanEntry shouldSkip dir (DirEnt name listing)
        = if skips t name then []
          else match listing with
               | Some entries => scanEntries shouldSkip (pathJoin dir name) entries
               | None => []
               end).
Proof.
  repeat split; try (apply existsb_eqb_In); try (intros H; apply existsb_eqb_In; exact H).
  intros t shouldSkip dir name listing Ht.
  rewrite scanEntry_directory. unfold skips. rewrite Ht. reflexivity.
Qed.

Lemma walk_exclusions_witness :
  scanEntries TestGenerator.shouldSkipDirectory "/p" sampleTree
  = ["/p/src/App.java"; "/p/test/AppTest.java"]
  /\ scanEntries DocumentationGenerator.shouldSkipDirectory "/p" sampleTree
     = ["/p/src/App.java"]
  /\ scanEntry DocumentationGenerator.shouldSkipDirectory "/p"
       (DirEnt "test" (Some [FileEnt "AppTest.java"]))
     = [].
Proof.
  split; [reflexivity | split; [reflexivity |]].
  destruct walk_exclusions as [_ [_ [_ [_ [_ [_ H]]]]]].
  rewrite (H generate_documentation DocumentationGenerator.shouldSkipDirectory
             "/p" "test" (Some [FileEnt "AppTest.java"]) eq_refl).
  reflexivity.
Defined.

(** ** Aggregation of the parsed records *)

Example arrayIndex_ex1 : arrayIndex "10" = Some 10%N.
Proof. reflexivity. Qed.
Example arrayIndex_ex2 : arrayIndex "007" = None.
Proof. reflexivity. Qed.
Example arrayIndex_ex3 : arrayIndex "4294967295" = None.
Proof. reflexivity. Qed.
Example enumeration_ex1 :
  keys (ensure "1" 0 (ensure "b" 0 (ensure "10" 0 (ensure "a" 0 (ensure "2" 0 [])))))
  = ["1"; "2"; "10"; "a"; "b"].
Proof. reflexivity. Qed.
Example inherited_ex1 :
  inherited "constructor" (ensure "demo" 0 []) = true
  /\ inherited "demo" (ensure "demo" 0 []) = false
  /\ inherited "util" (ensure "demo" 0 []) = false.
Proof. repeat split; reflexivity. Qed.

Section DictFacts.
Context {V : Type}.
Implicit Types (d : dict V) (k : string).

Lemma lookup_app k d d' :
  lookup k (d ++ d')%list
  = match lookup k d with
    | Some x => Some x
    | None => lookup k d'
    end.
Proof.
  induction d as [| [k0 v0] d IH]; simpl; [reflexivity |].
  destruct (String.eqb k k0); [reflexivity | exact IH].
Qed.

(** A new entry is put somewhere between the entries there are. *)
Lemma ensure_split k (v : V) d :
  lookup k d = None ->
  exists d1 d2, d = (d1 ++ d2)%list /\ ensure k v d = (d1 ++ (k, v) :: d2)%list.
Proof.
  intros Hk. unfold ensure. rewrite Hk. destruct (arrayIndex k) as [i |].
  - clear Hk. induction d as [| [k0 v0] d [d1 [d2 [E1 E2]]]].
    + exists [], []. split; reflexivity.
    + cbn [place]. destruct (arrayIndex k0) as [j |].
      * destruct (j <? i)%N.
        -- exists ((k0, v0) :: d1), d2. rewrite E2. split; [now rewrite E1 | reflexivity].
        -- exists [], ((k0, v0) :: d). split; reflexivity.
      * exists [], ((k0, v0) :: d). split; reflexivity.
  - exists d, []. split; [now rewrite app_nil_r | reflexivity].
Qed.

Lemma lookup_ensure k k' (v : V) d :
  lookup k (ensure k' v d)
  = match lookup k d with
    | Some x => Some x
    | None => if String.eqb k k' then Some v else None
    end.
Proof.
  destruct (lookup k' d) as [x |] eqn:Hk'.
  - unfold ensure. rewrite Hk'. destruct (lookup k d) eqn:Hk; [reflexivity |].
    destruct (String.eqb_spec k k') as [-> | _]; [congruence | reflexivity].
  - destruct (ensure_split k' v d Hk') as [d1 [d2 [E1 E2]]]. rewrite E2.
    rewrite E1, lookup_app in Hk'. rewrite E1, !lookup_app. cbn [lookup].
    destruct (lookup k d1); [reflexivity |].
    destruct (String.eqb_spec k k') as [-> | _]; [| destruct (lookup k d2); reflexivity].
    destruct (lookup k' d1); [discriminate |]. rewrite Hk'. reflexivity.
Qed.

Lemma lookup_update k k' (f : V -> V) d :
  lookup k (update k' f d)
  = if String.eqb k k' then option_map f (lookup k d) else lookup k d.
Proof.
  induction d as [| [k0 v0] d IH]; simpl.
  - destruct (String.eqb k k'); reflexivity.
  - destruct (String.eqb_spec k' k0) as [-> | Hne]; simpl.
    + destruct (String.eqb_spec k k0) as [-> | Hne']; [reflexivity | reflexivity].
    + destruct (String.eqb_spec k k0) as [-> | Hne'].
      * destruct (String.eqb_spec k0 k') as [E | _]; [congruence | reflexivity].
      * exact IH.
Qed.

Lemma keys_update k (f : V -> V) d : keys (update k f d) = keys d.
Proof.
  unfold keys. induction d as [| [k0 v0] d IH]; simpl; [reflexivity |].
  destruct (String.eqb k k0); simpl; [reflexivity | now rewrite IH].
Qed.

Lemma lookup_None_keys k d : lookup k d = None <-> ~ In k (keys d).
Proof.
  unfold keys. induction d as [| [k0 v0] d IH]; simpl; [tauto |].
  destruct (String.eqb_spec k k0) as [-> | Hne].
  - split; [discriminate | tauto].
  - rewrite IH. split; [intros H [E | Hin]; [congruence | tauto] | tauto].
Qed.

Lemma keys_ensure_NoDup k (v : V) d :
  NoDup (keys d) -> NoDup (keys (ensure k v d)).
Proof.
  intros Hnd. destruct (lookup k d) eqn:Hk; [unfold ensure; rewrite Hk; exact Hnd |].
  destruct (ensure_split k v d Hk) as [d1 [d2 [E1 E2]]]. rewrite E2.
  apply lookup_None_keys in Hk. rewrite E1 in Hk, Hnd. unfold keys in *.
  rewrite map_app in *. cbn [map fst].
  apply (Permutation_NoDup (Permutation_middle _ _ _)).
  constructor; assumption.
Qed.

Lemma in_dict_lookup k (v : V) d :
  NoDup (keys d) -> In (k, v) d -> lookup k d = Some v.
Proof.
  unfold keys. induction d as [| [k0 v0] d IH]; simpl; [tauto |].
  intros Hnd [E | Hin].
  - inversion E; subst. rewrite String.eqb_refl. reflexivity.
  - inversion Hnd as [| ? ? Hnotin Hnd']; subst.
    destruct (String.eqb_spec k k0) as [-> | _].
    + exfalso. apply Hnotin. apply (in_map fst) in Hin. exact Hin.
    + apply IH; assumption.
Qed.
Lemma lookup_In (k : string) (v : V) d :
  lookup k d = Some v -> In (k, v) d.
Proof.
  induction d as [| [k0 v0] d IH]; [discriminate |]. cbn [lookup].
  destruct (String.eqb_spec k k0) as [<- | _].
  - intros E. inversion E. left. reflexivity.
  - intros E. right. exact (IH E).
Qed.

(** Names of the dictionary that no object inherits: then [d[k]] is an
    inherited member exactly when [k] is the name of one. *)
Lemma inherited_own (k : string) d :
  Forall (fun key => inherits key = false) (keys d) ->
  inherited k d = inherits k.
Proof.
  intros Hd. unfold inherited. destruct (lookup k d) as [v |] eqn:Hl; [| reflexivity].
  apply lookup_In in Hl. apply (in_map fst) in Hl. cbn [fst] in Hl.
  rewrite Forall_forall in Hd. symmetry. exact (Hd k Hl).
Qed.

Lemma keys_ensure_own (k : string) (v : V) d :
  inherits k = false ->
  Forall (fun key => inherits key = false) (keys d) ->
  Forall (fun key => inherits key = false) (keys (ensure k v d)).
Proof.
  intros Hk Hd. destruct (lookup k d) eqn:Hl; [unfold ensure; rewrite Hl; exact Hd |].
  destruct (ensure_split k v d Hl) as [d1 [d2 [E1 E2]]]. rewrite E2.
  rewrite E1 in Hd. unfold keys in *. rewrite map_app in *. cbn [map fst].
  apply Forall_app in Hd. destruct Hd as [H1 H2].
  apply Forall_app. split; [exact H1 | constructor; assumption].
Qed.

End DictFacts.

Lemma truthy_true (s : string) : JS.truthy s = true <-> s <> "".
Proof.
  unfold JS.truthy. rewrite negb_true_iff. apply String.eqb_neq.
Qed.

Section DocumentationGeneratorFacts.
Import DocumentationGenerator.

Lemma doc_fold_flat (rs : list SourceRecord) : forall a,
  classes (fold_left store rs a) = (classes a ++ filter (doc_ofKind class) rs)%list
  /\ interfaces (fold_left store rs a)
     = (interfaces a ++ filter (doc_ofKind interface) rs)%list
  /\ enums (fold_left store rs a) = (enums a ++ filter (doc_ofKind enum) rs)%list.
Proof.
  induction rs as [| r rs IH]; intros a; simpl.
  - rewrite !app_nil_r. auto.
  - destruct (IH (store a r)) as [Hc [Hi He]]. rewrite Hc, Hi, He.
    unfold doc_ofKind. simpl. destruct (type r); simpl;
      rewrite <- ?app_assoc; auto.
Qed.

Lemma doc_members_store (k : string) (a : Analysis) (r : SourceRecord) :
  doc_members k (packages (store a r))
  = (doc_members k (packages a) ++ (if doc_inPackage k r then [r] else []))%list.
Proof.
  unfold doc_members, doc_inPackage. simpl.
  destruct (JS.truthy (package r)); simpl; [| now rewrite app_nil_r].
  rewrite lookup_update, lookup_ensure.
  rewrite (String.eqb_sym (package r) k).
  destruct (String.eqb_spec k (package r)) as [-> | Hne].
  - destruct (lookup (package r) (packages a)); reflexivity.
  - destruct (lookup k (packages a)); simpl; now rewrite ?app_nil_r.
Qed.

Lemma doc_fold_members (k : string) (rs : list SourceRecord) : forall a,
  doc_members k (packages (fold_left store rs a))
  = (doc_members k (packages a) ++ filter (doc_inPackage k) rs)%list.
Proof.
  induction rs as [| r rs IH]; intros a; simpl.
  - now rewrite app_nil_r.
  - rewrite IH, doc_members_store, <- app_assoc.
    destruct (doc_inPackage k r); reflexivity.
Qed.

Lemma doc_fold_keys_NoDup (rs : list SourceRecord) : forall a,
  NoDup (keys (packages a)) ->
  NoDup (keys (packages (fold_left store rs a))).
Proof.
  induction rs as [| r rs IH]; intros a Hnd; simpl; [exact Hnd |].
  apply IH. simpl. destruct (JS.truthy (package r)); [| exact Hnd].
  rewrite keys_update. apply keys_ensure_NoDup. exact Hnd.
Qed.

(** In the documentation generator every record reaches the flat list of
    its kind, with or without a package. *)
Lemma doc_stored_flat (rs : list SourceRecord) :
  classes (stored rs) = filter (doc_ofKind class) rs
  /\ interfaces (stored rs) = filter (doc_ofKind interface) rs
  /\ enums (stored rs) = filter (doc_ofKind enum) rs.
Proof.
  unfold stored. simpl. apply (doc_fold_flat rs emptyAnalysis).
Qed.

(** The aggregate of package [k] holds exactly the records that declare
    [k], in order; the empty package name has no aggregate. *)
Lemma doc_stored_members (rs : list SourceRecord) (k : string) :
  doc_members k (packages (stored rs)) = filter (doc_inPackage k) rs.
Proof.
  unfold stored. simpl. apply (doc_fold_members k rs emptyAnalysis).
Qed.

(** A record with a package is filed under that package and under no
    other entry of the dictionary; a record without one is filed nowhere. *)
Lemma doc_stored_one_package (rs : list SourceRecord) (r : SourceRecord) :
  In r rs ->
  (package r <> "" -> In r (doc_members (package r) (packages (stored rs))))
  /\ (forall k p, In (k, p) (packages (stored rs)) -> In r (p_classes p) ->
        package r <> "" /\ k = package r).
Proof.
  intros Hin. split.
  - intros Hp. rewrite doc_stored_members. apply filter_In. split; [exact Hin |].
    unfold doc_inPackage. rewrite String.eqb_refl, andb_true_r.
    apply truthy_true. exact Hp.
  - intros k p Hkp Hrp.
    assert (Hnd : NoDup (keys (packages (stored rs)))).
    { unfold stored. simpl. apply doc_fold_keys_NoDup. constructor. }
    pose proof (in_dict_lookup k p _ Hnd Hkp) as Hl.
    pose proof (doc_stored_members rs k) as Hm. unfold doc_members in Hm.
    rewrite Hl in Hm. rewrite Hm in Hrp. apply filter_In in Hrp.
    destruct Hrp as [_ Hrp]. unfold doc_inPackage in Hrp.
    apply andb_true_iff in Hrp. destruct Hrp as [Ht He].
    apply truthy_true in Ht. apply String.eqb_eq in He. auto.
Qed.
(** The loop stops at the first record whose package is named like a member
    every object inherits, and files all records when there is none. *)
Lemma doc_store_own (a : Analysis) (r : SourceRecord) :
  inherits (package r) = false ->
  Forall (fun key => inherits key = false) (keys (packages a)) ->
  Forall (fun key => inherits key = false) (keys (packages (store a r))).
Proof.
  intros Hr Ha. cbn [store packages].
  destruct (JS.truthy (package r)); [| exact Ha].
  rewrite keys_update. apply keys_ensure_own; assumption.
Qed.

Lemma doc_addRecord_own (a : Analysis) (r : SourceRecord) :
  Forall (fun key => inherits key = false) (keys (packages a)) ->
  addRecord a r
  = if inherits (package r) then Throw pushOfUndefined else Normal (store a r).
Proof.
  intros Ha. unfold addRecord. rewrite (inherited_own _ _ Ha).
  destruct (inherits (package r)) eqn:Hi.
  - destruct (package r); [discriminate Hi | reflexivity].
  - rewrite andb_false_r. reflexivity.
Qed.

Lemma doc_addRecords_outcome (rs : list SourceRecord) : forall a,
  Forall (fun key => inherits key = false) (keys (packages a)) ->
  addRecords a rs
  = if doc_shadowed rs then Throw pushOfUndefined else Normal (fold_left store rs a).
Proof.
  induction rs as [| r rs IH]; intros a Ha; [reflexivity |].
  cbn [addRecords doc_shadowed existsb fold_left]. rewrite (doc_addRecord_own _ _ Ha).
  destruct (inherits (package r)) eqn:Hi; [reflexivity |].
  cbn [orb]. apply IH. apply doc_store_own; assumption.
Qed.

Lemma doc_aggregate_outcome (rs : list SourceRecord) :
  aggregate rs
  = if doc_shadowed rs then Throw pushOfUndefined else Normal (stored rs).
Proof.
  unfold aggregate, stored.
  rewrite (doc_addRecords_outcome rs emptyAnalysis) by constructor.
  destruct (doc_shadowed rs); reflexivity.
Qed.

Lemma doc_aggregate_stored (rs : list SourceRecord) (a : Analysis) :
  aggregate rs = Normal a -> a = stored rs.
Proof.
  rewrite doc_aggregate_outcome. destruct (doc_shadowed rs); [discriminate |].
  intros E. inversion E. reflexivity.
Qed.
End DocumentationGeneratorFacts.

Section ProjectStructureAnalyzerFacts.
Import ProjectStructureAnalyzer.

Lemma psa_fold_flat (rs : list SourceRecord) : forall a,
  classes (fold_left store rs a) = (classes a ++ filter (psa_ofKind class) rs)%list
  /\ interfaces (fold_left store rs a)
     = (interfaces a ++ filter (psa_ofKind interface) rs)%list
  /\ enums (fold_left store rs a) = (enums a ++ filter (psa_ofKind enum) rs)%list.
Proof.
  induction rs as [| r rs IH]; intros a; simpl.
  - rewrite !app_nil_r. auto.
  - destruct (IH (store a r)) as [Hc [Hi He]]. rewrite Hc, Hi, He.
    unfold psa_ofKind, store. destruct (JS.truthy (package r)); simpl; [| auto].
    destruct (type r); simpl; rewrite <- ?app_assoc; auto.
Qed.

(** In the structure analyzer a record reaches the flat list of its kind
    only when it declares a package. *)
Lemma psa_stored_flat (rs : list SourceRecord) :
  classes (stored rs) = filter (psa_ofKind class) rs
  /\ interfaces (stored rs) = filter (psa_ofKind interface) rs
  /\ enums (stored rs) = filter (psa_ofKind enum) rs.
Proof.
  unfold stored. simpl. apply (psa_fold_flat rs emptyAnalysis).
Qed.
(** The loop stops at the first record whose package is named like a member
    every object inherits, and files all records when there is none. *)
Lemma psa_store_own (a : Analysis) (r : SourceRecord) :
  inherits (package r) = false ->
  Forall (fun key => inherits key = false) (keys (packages a)) ->
  Forall (fun key => inherits key = false) (keys (packages (store a r))).
Proof.
  intros Hr Ha. unfold store.
  destruct (JS.truthy (package r)); [| exact Ha].
  cbn [packages]. rewrite keys_update. apply keys_ensure_own; assumption.
Qed.

Lemma psa_addRecord_own (a : Analysis) (r : SourceRecord) :
  Forall (fun key => inherits key = false) (keys (packages a)) ->
  addRecord a r
  = if inherits (package r) then Throw pushOfUndefined else Normal (store a r).
Proof.
  intros Ha. unfold addRecord. rewrite (inherited_own _ _ Ha).
  destruct (inherits (package r)) eqn:Hi.
  - destruct (package r); [discriminate Hi | reflexivity].
  - rewrite andb_false_r. reflexivity.
Qed.

Lemma psa_addRecords_outcome (rs : list SourceRecord) : forall a,
  Forall (fun key => inherits key = false) (keys (packages a)) ->
  addRecords a rs
  = if psa_shadowed rs then Throw pushOfUndefined else Normal (fold_left store rs a).
Proof.
  induction rs as [| r rs IH]; intros a Ha; [reflexivity |].
  cbn [addRecords psa_shadowed existsb fold_left]. rewrite (psa_addRecord_own _ _ Ha).
  destruct (inherits (package r)) eqn:Hi; [reflexivity |].
  cbn [orb]. apply IH. apply psa_store_own; assumption.
Qed.

Lemma psa_aggregate_outcome (rs : list SourceRecord) :
  aggregate rs
  = if psa_shadowed rs then Throw pushOfUndefined else Normal (stored rs).
Proof.
  unfold aggregate, stored.
  rewrite (psa_addRecords_outcome rs emptyAnalysis) by constructor.
  destruct (psa_shadowed rs); reflexivity.
Qed.

Lemma psa_aggregate_stored (rs : list SourceRecord) (a : Analysis) :
  aggregate rs = Normal a -> a = stored rs.
Proof.
  rewrite psa_aggregate_outcome. destruct (psa_shadowed rs); [discriminate |].
  intros E. inversion E. reflexivity.
Qed.
End ProjectStructureAnalyzerFacts.

(** C3.  The structure analyzer never files a record without a package in
    its flat lists of classes, interfaces and enums, although the
    documentation generator does: the class of a file in the default
    package is counted by the latter and lost by the former. *)
Theorem analyzeProjectStructure_drops_packageless :
  (forall rs a r,
     ProjectStructureAnalyzer.aggregate rs = Normal a ->
     ProjectStructureAnalyzer.package r = "" ->
     ~ In r (ProjectStructureAnalyzer.classes a
             ++ ProjectStructureAnalyzer.interfaces a
             ++ ProjectStructureAnalyzer.enums a)%list)
  /\ (let r := ProjectStructureAnalyzer.analyzeJavaFile defaultPackageSource "/p/Foo.java" in
      ProjectStructureAnalyzer.package r = ""
      /\ ProjectStructureAnalyzer.type r = class
      /\ exists a,
           ProjectStructureAnalyzer.aggregate [r] = Normal a
           /\ ProjectStructureAnalyzer.classes a = []
           /\ ProjectStructureAnalyzer.packages a = [])
  /\ (let r := DocumentationGenerator.analyzeJavaFile defaultPackageSource "/p/Foo.java" in
      DocumentationGenerator.package r = ""
      /\ DocumentationGenerator.type r = class
      /\ exists a,
           DocumentationGenerator.aggregate [r] = Normal a
           /\ DocumentationGenerator.classes a = [r]
           /\ DocumentationGenerator.packages a = []).
Proof.
  split; [| split; cbv zeta; (split; [| split]); try (vm_compute; reflexivity)].
  - intros rs a r Ha Hp Hin. apply psa_aggregate_stored in Ha. subst a.
    destruct (psa_stored_flat rs) as [Hc [Hi He]].
    rewrite Hc, Hi, He in Hin.
    assert (Hno : forall k, ~ In r (filter (psa_ofKind k) rs)).
    { intros k Hk. apply filter_In in Hk. destruct Hk as [_ Hk].
      unfold psa_ofKind in Hk. rewrite Hp in Hk. discriminate. }
    rewrite !in_app_iff in Hin. destruct Hin as [H | [H | H]]; exact (Hno _ H).
  - exists (ProjectStructureAnalyzer.stored
              [ProjectStructureAnalyzer.analyzeJavaFile defaultPackageSource "/p/Foo.java"]).
    split; [| split]; vm_compute; reflexivity.
  - exists (DocumentationGenerator.stored
              [DocumentationGenerator.analyzeJavaFile defaultPackageSource "/p/Foo.java"]).
    split; [| split]; vm_compute; reflexivity.
Qed.

Lemma analyzeProjectStructure_drops_packageless_witness :
  let r := ProjectStructureAnalyzer.analyzeJavaFile defaultPackageSource "/p/Foo.java" in
  exists a,
    ProjectStructureAnalyzer.aggregate [r] = Normal a
    /\ ~ In r (ProjectStructureAnalyzer.classes a
               ++ ProjectStructureAnalyzer.interfaces a
               ++ ProjectStructureAnalyzer.enums a)%list.
Proof.
  intros r. exists (ProjectStructureAnalyzer.stored [r]).
  assert (Ha : ProjectStructureAnalyzer.aggregate [r]
               = Normal (ProjectStructureAnalyzer.stored [r])) by (vm_compute; reflexivity).
  split; [exact Ha |].
  exact (proj1 analyzeProjectStructure_drops_packageless [r] _ r Ha eq_refl).
Defined.

(** ** Which type name a parser keeps *)

Section DocumentationGeneratorParser.
Import DocumentationGenerator.

Ltac unfold_updates :=
  unfold onPackage, onImport, onType, onMethod, onField, onJavadoc,
    setCurrentJavadoc, extractMethod, extractField.

Lemma doc_step_className (st : Locals) (raw : string) :
  l_className (step st raw)
  = match declared raw with Some n => n | None => l_className st end.
Proof.
  unfold step, declared.
  assert (HJ : forall l s, l_className (onJavadoc l s) = l_className s).
  { intros l s. unfold onJavadoc, setCurrentJavadoc.
    destruct (collectsJavadoc l); [reflexivity |]. destruct (_ && _); reflexivity. }
  assert (HF : forall l s, l_className (onField l s) = l_className s).
  { intros l s. unfold onField. destruct (isFieldLine l); [| reflexivity].
    destruct (extractField _ _); reflexivity. }
  assert (HM : forall l s, l_className (onMethod l s) = l_className s).
  { intros l s. unfold onMethod. destruct (isMethodLine l); [| reflexivity].
    destruct (extractMethod _ _); reflexivity. }
  assert (HI : forall l s, l_className (onImport l s) = l_className s).
  { intros l s. unfold onImport. destruct (JS.startsWith l _); reflexivity. }
  assert (HP : forall l s, l_className (onPackage l s) = l_className s).
  { intros l s. unfold onPackage. destruct (JS.startsWith l _); reflexivity. }
  rewrite HJ, HF, HM. unfold onType.
  destruct (isTypeLine (JS.trim raw)); cbn [l_className].
  - destruct (declName (JS.trim raw)); [reflexivity |]. now rewrite HI, HP.
  - now rewrite HI, HP.
Qed.

Lemma doc_scan_className (lines : list string) : forall st,
  l_className (fold_left step lines st)
  = match lastSome (map declared lines) with
    | Some n => n
    | None => l_className st
    end.
Proof.
  induction lines as [| raw lines IH]; intros st; simpl; [reflexivity |].
  rewrite IH, doc_step_className.
  destruct (lastSome (map declared lines)); reflexivity.
Qed.
End DocumentationGeneratorParser.

Section ProjectStructureAnalyzerParser.
Import ProjectStructureAnalyzer.

Lemma psa_step_className (st : Locals) (raw : string) :
  l_className (step st raw)
  = match declared raw with Some n => n | None => l_className st end.
Proof.
  unfold step, declared, onPackage, onType, onMethod, onField.
  repeat match goal with
         | |- context [if ?c then _ else _] => destruct c; cbn [l_className]
         | |- context [match ?c with Some _ => _ | None => _ end] =>
             destruct c; cbn [l_className]
         end; reflexivity.
Qed.

Lemma psa_scan_className (lines : list string) : forall st,
  l_className (fold_left step lines st)
  = match lastSome (map declared lines) with
    | Some n => n
    | None => l_className st
    end.
Proof.
  induction lines as [| raw lines IH]; intros st; simpl; [reflexivity |].
  rewrite IH, psa_step_className.
  destruct (lastSome (map declared lines)); reflexivity.
Qed.
End ProjectStructureAnalyzerParser.

Section TestGeneratorParser.
Import TestGenerator.

Lemma tg_onPackage_className (t : string) (st : ClassAnalysis) :
  className (onPackage t st) = className st.
Proof. unfold onPackage. destruct (JS.startsWith t _); reflexivity. Qed.

Lemma tg_onPublicMethod_className (t : string) (st : ClassAnalysis) :
  className (onPublicMethod t st) = className st.
Proof.
  unfold onPublicMethod. destruct (_ && _); [| reflexivity].
  destruct (JS.exec _ _); reflexivity.
Qed.

Lemma tg_onImport_className (t : string) (st : ClassAnalysis) :
  className (onImport t st) = className st.
Proof.
  unfold onImport. destruct (JS.startsWith t _); [| reflexivity].
  destruct (JS.exec _ _); reflexivity.
Qed.

Lemma tg_step_className (st : ClassAnalysis) (raw : string) :
  className (step st raw)
  = if JS.truthy (className st) then className st
    else match declaredClass raw with Some n => n | None => className st end.
Proof.
  unfold step. rewrite tg_onImport_className, tg_onPublicMethod_className.
  unfold onClass, declaredClass. rewrite !tg_onPackage_className.
  destruct (JS.truthy (className st)); rewrite ?andb_false_r, ?andb_true_r;
    cbn [negb]; [apply tg_onPackage_className |].
  destruct (JS.includes (JS.trim raw) "class "); [| apply tg_onPackage_className].
  destruct (JS.exec _ _); [reflexivity | apply tg_onPackage_className].
Qed.

Lemma tg_scan_className (lines : list string) : forall st,
  className (fold_left step lines st)
  = if JS.truthy (className st) then className st
    else match firstTruthy (map declaredClass lines) with
         | Some n => n
         | None => className st
         end.
Proof.
  induction lines as [| raw lines IH]; intros st; simpl.
  - destruct (JS.truthy (className st)); reflexivity.
  - rewrite IH, tg_step_className.
    destruct (JS.truthy (className st)) eqn:Ht; [rewrite Ht; reflexivity |].
    destruct (declaredClass raw) as [n |]; [| rewrite Ht; reflexivity].
    destruct (JS.truthy n) eqn:Hn; [reflexivity |].
    assert (n = "") as ->.
    { unfold JS.truthy in Hn. apply negb_false_iff, String.eqb_eq in Hn. exact Hn. }
    assert (className st = "") as ->.
    { unfold JS.truthy in Ht. apply negb_false_iff, String.eqb_eq in Ht. exact Ht. }
    reflexivity.
Qed.
End TestGeneratorParser.

(** C2.  Each parser records a single type name.  The parser of the
    documentation generator and the parser of the structure analyzer keep
    the identifier of the last declaration line that matches; only the
    parser of the test generator keeps the first.  On a file that declares
    First and then Second the former two answer Second, the latter First. *)
Theorem analyzeJavaFile_keeps_last_declaration :
  (forall content path,
     DocumentationGenerator.className (DocumentationGenerator.analyzeJavaFile content path)
     = orEmpty (lastSome (map declared (JS.split_lines content))))
  /\ (forall content path,
        ProjectStructureAnalyzer.className
          (ProjectStructureAnalyzer.analyzeJavaFile content path)
        = orEmpty (lastSome (map declared (JS.split_lines content))))
  /\ (forall content,
        TestGenerator.className (TestGenerator.analyzeJavaClass content)
        = orEmpty (firstTruthy (map declaredClass (JS.split_lines content))))
  /\ map declared (JS.split_lines twoTypes)
     = [None; Some "First"; None; Some "Second"; None; None]
  /\ DocumentationGenerator.className
       (DocumentationGenerator.analyzeJavaFile twoTypes "/p/First.java") = "Second"
  /\ ProjectStructureAnalyzer.className
       (ProjectStructureAnalyzer.analyzeJavaFile twoTypes "/p/First.java") = "Second"
  /\ TestGenerator.className (TestGenerator.analyzeJavaClass twoTypes) = "First".
Proof.
  split; [| split; [| split; [| repeat split; vm_compute; reflexivity]]].
  - intros content path.
    unfold DocumentationGenerator.analyzeJavaFile, DocumentationGenerator.finish,
      DocumentationGenerator.scan.
    cbn [DocumentationGenerator.className].
    rewrite doc_scan_className.
    destruct (lastSome _); reflexivity.
  - intros content path.
    unfold ProjectStructureAnalyzer.analyzeJavaFile, ProjectStructureAnalyzer.scan.
    cbn [ProjectStructureAnalyzer.className].
    rewrite psa_scan_className.
    destruct (lastSome _); reflexivity.
  - intros content. unfold TestGenerator.analyzeJavaClass.
    rewrite tg_scan_className. cbn.
    destruct (firstTruthy _); reflexivity.
Qed.

(** ** The Javadoc buffer *)

Section JavadocBuffer.
Import DocumentationGenerator.

Lemma onPackage_current line st :
  l_currentJavadoc (onPackage line st) = l_currentJavadoc st.
Proof. unfold onPackage. destruct (JS.startsWith _ _); reflexivity. Qed.

Lemma onImport_current line st :
  l_currentJavadoc (onImport line st) = l_currentJavadoc st.
Proof. unfold onImport. destruct (JS.startsWith _ _); reflexivity. Qed.

Lemma onType_current line st :
  l_currentJavadoc (onType line st)
  = if isTypeLine line then "" else l_currentJavadoc st.
Proof. unfold onType. destruct (isTypeLine line); reflexivity. Qed.




Lemma step_unfold st raw :
  step st raw = onJavadoc (JS.trim raw) (beforeJavadoc (JS.trim raw) st).
Proof. reflexivity. Qed.




(** What a declaration line attaches when the buffer is empty. *)
Lemma onJavadoc_javadoc line st : l_javadoc (onJavadoc line st) = l_javadoc st.
Proof.
  unfold onJavadoc. destruct (collectsJavadoc line); [reflexivity |].
  destruct (_ && _); reflexivity.
Qed.

Lemma onField_javadoc line st : l_javadoc (onField line st) = l_javadoc st.
Proof.
  unfold onField. destruct (isFieldLine line); [| reflexivity].
  destruct (extractField _ _); reflexivity.
Qed.

Lemma onMethod_javadoc line st : l_javadoc (onMethod line st) = l_javadoc st.
Proof.
  unfold onMethod. destruct (isMethodLine line); [| reflexivity].
  destruct (extractMethod _ _); reflexivity.
Qed.

Lemma step_type_javadoc st raw :
  isTypeLine (JS.trim raw) = true ->
  l_javadoc (step st raw) = l_currentJavadoc st.
Proof.
  intros H. rewrite step_unfold, onJavadoc_javadoc. unfold beforeJavadoc.
  rewrite onField_javadoc, onMethod_javadoc. unfold onType. rewrite H.
  cbn [l_javadoc]. rewrite onImport_current, onPackage_current. reflexivity.
Qed.



Lemma onPackage_methods line st : l_methods (onPackage line st) = l_methods st.
Proof. unfold onPackage. destruct (JS.startsWith _ _); reflexivity. Qed.
Lemma onImport_methods line st : l_methods (onImport line st) = l_methods st.
Proof. unfold onImport. destruct (JS.startsWith _ _); reflexivity. Qed.
Lemma onType_methods line st : l_methods (onType line st) = l_methods st.
Proof. unfold onType. destruct (isTypeLine _); reflexivity. Qed.
Lemma onJavadoc_methods line st : l_methods (onJavadoc line st) = l_methods st.
Proof.
  unfold onJavadoc. destruct (collectsJavadoc line); [reflexivity |].
  destruct (_ && _); reflexivity.
Qed.
Lemma onField_methods line st : l_methods (onField line st) = l_methods st.
Proof.
  unfold onField. destruct (isFieldLine line); [| reflexivity].
  destruct (extractField _ _); reflexivity.
Qed.

Lemma onPackage_fields line st : l_fields (onPackage line st) = l_fields st.
Proof. unfold onPackage. destruct (JS.startsWith _ _); reflexivity. Qed.
Lemma onImport_fields line st : l_fields (onImport line st) = l_fields st.
Proof. unfold onImport. destruct (JS.startsWith _ _); reflexivity. Qed.
Lemma onType_fields line st : l_fields (onType line st) = l_fields st.
Proof. unfold onType. destruct (isTypeLine _); reflexivity. Qed.
Lemma onJavadoc_fields line st : l_fields (onJavadoc line st) = l_fields st.
Proof.
  unfold onJavadoc. destruct (collectsJavadoc line); [reflexivity |].
  destruct (_ && _); reflexivity.
Qed.

Lemma trim_empty : JS.trim "" = "".
Proof. reflexivity. Qed.


End JavadocBuffer.



(** ** Ratios *)

Lemma div_by_zero_not_finite (x : Number.number) :
  Number.isFinite (Number.div x (Number.ofNat 0)) = false.
Proof. destruct x as [s | s | | s m e]; reflexivity. Qed.

Lemma toFixed1_not_finite (x : Number.number) :
  Number.isFinite x = false ->
  Number.toFixed1 x = Some "NaN" \/ Number.toFixed1 x = Some "Infinity"
  \/ Number.toFixed1 x = Some "-Infinity".
Proof.
  destruct x as [s | [|] | | s m e]; simpl; intros H; try discriminate; auto.
Qed.

(** C1.  The overview of the documentation generator divides the number of
    methods by the number of classes as it is: for a model without classes
    the quotient is not a finite number and the line shows NaN or an
    infinity.  The structure analyzer divides by the larger of that number
    and one and shows 0.0 on the same project. *)
Theorem overview_average_without_classes :
  (forall a,
     DocumentationGenerator.classes a = [] ->
     Number.isFinite (DocumentationGenerator.avgMethodsPerClass a) = false
     /\ (DocumentationGenerator.averageLine a
           = Some ("- **Average methods per class:** NaN" ++ JS.nl)
         \/ DocumentationGenerator.averageLine a
           = Some ("- **Average methods per class:** Infinity" ++ JS.nl)
         \/ DocumentationGenerator.averageLine a
           = Some ("- **Average methods per class:** -Infinity" ++ JS.nl)))
  /\ includesText (overviewOf shapeProject "/p")
       "- **Average methods per class:** NaN" = true
  /\ includesText (metricsOf shapeProject "/p")
       "- **Average methods per class:** 0.0" = true.
Proof.
  split; [| split; vm_compute; reflexivity].
  intros a Ha.
  assert (Hn : Number.isFinite (DocumentationGenerator.avgMethodsPerClass a) = false).
  { unfold DocumentationGenerator.avgMethodsPerClass. rewrite Ha.
    apply div_by_zero_not_finite. }
  split; [exact Hn |].
  unfold DocumentationGenerator.averageLine.
  destruct (toFixed1_not_finite _ Hn) as [E | [E | E]]; rewrite E; simpl; auto.
Qed.

Lemma overview_average_without_classes_witness :
  exists a,
    DocumentationGenerator.aggregate
      [DocumentationGenerator.analyzeJavaFile shapeSource "/p/Shape.java"] = Normal a
    /\ DocumentationGenerator.averageLine a
       = Some ("- **Average methods per class:** NaN" ++ JS.nl).
Proof.
  exists (DocumentationGenerator.stored
            [DocumentationGenerator.analyzeJavaFile shapeSource "/p/Shape.java"]).
  split; [vm_compute; reflexivity |].
  destruct (proj2 (proj1 overview_average_without_classes
                     (DocumentationGenerator.stored
                        [DocumentationGenerator.analyzeJavaFile shapeSource "/p/Shape.java"])
                     eq_refl)) as [E | [E | E]].
  - exact E.
  - exfalso. vm_compute in E. discriminate E.
  - exfalso. vm_compute in E. discriminate E.
Defined.

(** C4.  The structure analyzer reports the share of interfaces among
    classes and interfaces, to one decimal.  The overview of the
    documentation generator reports interfaces divided by classes instead:
    with one class and one interface it shows 100.0 where the share is
    50.0. *)
Theorem interface_percentage_by_renderer :
  (forall a,
     0 < List.length (ProjectStructureAnalyzer.interfaces a) ->
     ProjectStructureAnalyzer.abstractionLevel a
     = interfaceShare (List.length (ProjectStructureAnalyzer.classes a))
                      (List.length (ProjectStructureAnalyzer.interfaces a)))
  /\ Number.toFixed1 (interfaceShare 1 1) = Some "50.0"
  /\ includesText (architectureOf shapesProject "/p")
       "- **Abstraction Level:** 50.0%" = true
  /\ includesText (overviewOf shapesProject "/p")
       "- **Interface usage:** 100.0% of classes are interfaces" = true.
Proof.
  split; [| repeat split; vm_compute; reflexivity].
  intros a Hi. unfold ProjectStructureAnalyzer.abstractionLevel, interfaceShare.
  rewrite Nat.max_l by lia. reflexivity.
Qed.

Lemma interface_percentage_by_renderer_witness :
  exists a,
    ProjectStructureAnalyzer.aggregate
      [ProjectStructureAnalyzer.analyzeJavaFile shapeSource "/p/Shape.java";
       ProjectStructureAnalyzer.analyzeJavaFile circleSource "/p/Circle.java"] = Normal a
    /\ ProjectStructureAnalyzer.abstractionLevel a = interfaceShare 1 1.
Proof.
  exists (ProjectStructureAnalyzer.stored
            [ProjectStructureAnalyzer.analyzeJavaFile shapeSource "/p/Shape.java";
             ProjectStructureAnalyzer.analyzeJavaFile circleSource "/p/Circle.java"]).
  split; [vm_compute; reflexivity |].
  apply (proj1 interface_percentage_by_renderer). vm_compute. repeat constructor.
Defined.

(** ** The target of generate_tests *)

Lemma find_first {A : Type} (p : A -> bool) (l : list A) (x : A) :
  find p l = Some x ->
  exists before after,
    l = (before ++ x :: after)%list /\ p x = true
    /\ Forall (fun y => p y = false) before.
Proof.
  induction l as [| y l IH]; simpl; [discriminate |].
  destruct (p y) eqn:Hy.
  - intros H. inversion H; subst. exists [], l. repeat split; [exact Hy | constructor].
  - intros H. destruct (IH H) as [before [after [E [Hx Hb]]]].
    exists (y :: before), after. subst l. repeat split; [exact Hx |].
    constructor; assumption.
Qed.

(** C10, as stated, fails: when the walk finds no Java file at all, no path
    contains the class name, and the answer is the message for a project
    without Java files, not the message for a class that is not found. *)
Lemma class_not_found_without_files_refuted :
  ~ (forall w args className,
       TestGenerator.a_className args = Some className ->
       find (TestGenerator.matchesClassName className)
            (findJavaFiles TestGenerator.shouldSkipDirectory w
               (TestGenerator.projectPath args)) = None ->
       outcome (TestGenerator.execute w (Some args))
       = Normal (TestGenerator.classNotFound className)).
Proof.
  intros H.
  specialize (H emptyProject (askFor "/p" "Widget") "Widget" eq_refl eq_refl).
  vm_compute in H. discriminate H.
Qed.

(** C10, amended.  When generate_tests is called with a non-empty class
    name and the walk finds at least one Java file, the target is the first
    path in walk order that contains the class name, both in lower case:
    the tool reads that file and no other and answers with its report (or
    with the error of the read).  When no path contains the class name the
    tool answers that the class is not found and reads no file.  When the
    walk finds no Java file, the tool reads nothing and answers that the
    project has no Java files. *)
Theorem generate_tests_target (w : World) (args : TestGenerator.Args)
    (className : string) :
  TestGenerator.a_className args = Some className ->
  className <> "" ->
  let javaFiles :=
    findJavaFiles TestGenerator.shouldSkipDirectory w (TestGenerator.projectPath args) in
  (javaFiles = [] ->
   TestGenerator.execute w (Some args) = ([], Normal TestGenerator.noJavaFiles))
  /\ (javaFiles <> [] ->
      match find (TestGenerator.matchesClassName className) javaFiles with
      | Some target =>
          (exists before after,
              javaFiles = (before ++ target :: after)%list
              /\ JS.includes (JS.toLowerCase target) (JS.toLowerCase className) = true
              /\ Forall (fun file =>
                           JS.includes (JS.toLowerCase file) (JS.toLowerCase className)
                           = false)
                        before)
          /\ TestGenerator.execute w (Some args)
             = tryCatch (TestGenerator.generateTestForClass w target (frameworkOf args))
                 handler
          /\ reads (TestGenerator.execute w (Some args)) = [target]
      | None =>
          TestGenerator.execute w (Some args)
          = ([], Normal (TestGenerator.classNotFound className))
      end).
Proof.
  intros Hcn Hne javaFiles. split.
  - intros Hempty. unfold TestGenerator.execute, destructure, TestGenerator.tryBlock.
    fold javaFiles. rewrite Hempty. reflexivity.
  - intros Hfiles.
    assert (Hexec : TestGenerator.execute w (Some args)
                    = tryCatch
                        match find (TestGenerator.matchesClassName className) javaFiles with
                        | Some target =>
                            TestGenerator.generateTestForClass w target (frameworkOf args)
                        | None => ret (TestGenerator.classNotFound className)
                        end handler).
    { unfold TestGenerator.execute, destructure, TestGenerator.tryBlock. fold javaFiles.
      fold (frameworkOf args). rewrite Hcn.
      destruct javaFiles as [| f fs] eqn:Hj; [contradiction |].
      cbn [List.length Nat.eqb].
      apply truthy_true in Hne. rewrite Hne. reflexivity. }
    rewrite Hexec.
    destruct (find (TestGenerator.matchesClassName className) javaFiles)
      as [target |] eqn:Hfind.
    + split; [exact (find_first _ _ _ Hfind) | split; [reflexivity |]].
      unfold TestGenerator.generateTestForClass, readFile, bind, tryCatch, ret, handler, reads.
      destruct (readFileSync w target); reflexivity.
    + reflexivity.
Qed.

Lemma generate_tests_target_witness :
  findJavaFiles TestGenerator.shouldSkipDirectory usersProject "/p"
  = ["/p/src/users/Admin.java"; "/p/src/model/User.java"]
  /\ reads (TestGenerator.execute usersProject (Some (askFor "/p" "User")))
     = ["/p/src/users/Admin.java"]
  /\ TestGenerator.execute usersProject (Some (askFor "/p" "Widget"))
     = ([], Normal (TestGenerator.classNotFound "Widget"))
  /\ TestGenerator.execute emptyProject (Some (askFor "/p" "Widget"))
     = ([], Normal TestGenerator.noJavaFiles).
Proof.
  split; [reflexivity | split; [| split]].
  - pose proof (generate_tests_target usersProject (askFor "/p" "User") "User" eq_refl) as H.
    assert (H1 : "User" <> "") by discriminate.
    assert (H2 : findJavaFiles TestGenerator.shouldSkipDirectory usersProject
                   (TestGenerator.projectPath (askFor "/p" "User")) <> [])
      by (vm_compute; discriminate).
    specialize (H H1). cbv zeta in H. destruct H as [_ H]. specialize (H H2).
    change (find (TestGenerator.matchesClassName "User")
              (findJavaFiles TestGenerator.shouldSkipDirectory usersProject
                 (TestGenerator.projectPath (askFor "/p" "User"))))
      with (Some "/p/src/users/Admin.java") in H.
    exact (proj2 (proj2 H)).
  - pose proof (generate_tests_target usersProject (askFor "/p" "Widget") "Widget" eq_refl) as H.
    assert (H1 : "Widget" <> "") by discriminate.
    assert (H2 : findJavaFiles TestGenerator.shouldSkipDirectory usersProject
                   (TestGenerator.projectPath (askFor "/p" "Widget")) <> [])
      by (vm_compute; discriminate).
    specialize (H H1). cbv zeta in H. destruct H as [_ H]. specialize (H H2).
    change (find (TestGenerator.matchesClassName "Widget")
              (findJavaFiles TestGenerator.shouldSkipDirectory usersProject
                 (TestGenerator.projectPath (askFor "/p" "Widget"))))
      with (@None string) in H.
    exact H.
  - pose proof (generate_tests_target emptyProject (askFor "/p" "Widget") "Widget" eq_refl) as H.
    assert (H1 : "Widget" <> "") by discriminate.
    specialize (H H1). cbv zeta in H. destruct H as [H _]. exact (H eq_refl).
Defined.

(** ** Failures at the entry points *)

Lemma tryCatch_reported (rest : string) (block : Effect string) :
  reported ("Error " ++ rest) block
    (tryCatch block (fun error => ret (("Error " ++ rest) ++ error))).
Proof.
  unfold reported, tryCatch, outcome, ret.
  destruct block as [t [v | e]]; simpl.
  - exists v. split; [reflexivity | split].
    + intros v' H. inversion H. reflexivity.
    + intros e H. discriminate H.
  - eexists. split; [reflexivity | split].
    + intros v H. discriminate H.
    + intros e' H. inversion H. split; reflexivity.
Qed.

(** C8, as stated, fails: a request without arguments reaches the entry
    point with [undefined], the members of the arguments are read before the
    [try] statement, and each of the five entry points throws. *)
Lemma execute_without_arguments_refuted :
  ~ (forall w parsePom args,
       exists text, outcome (DependencyAnalyzer.execute w parsePom args) = Normal text)
  /\ ~ (forall w args,
          exists text, outcome (TestGenerator.execute w args) = Normal text)
  /\ ~ (forall w renderFile renderProject args,
          exists text,
            outcome (CodeQualityChecker.execute w renderFile renderProject args)
            = Normal text)
  /\ ~ (forall w writeDocuments args,
          exists text,
            outcome (DocumentationGenerator.execute w writeDocuments args) = Normal text)
  /\ ~ (forall w renderReport args,
          exists text,
            outcome (ProjectStructureAnalyzer.execute w renderReport args) = Normal text).
Proof.
  repeat split; intros H.
  - destruct (H emptyProject brokenPom None) as [text E]. discriminate E.
  - destruct (H emptyProject None) as [text E]. discriminate E.
  - destruct (H emptyProject (fun _ _ _ => ret "") (fun _ => ret "") None) as [text E].
    discriminate E.
  - destruct (H emptyProject (fun _ _ _ => ret "") None) as [text E]. discriminate E.
  - destruct (H emptyProject (fun _ _ _ => ret "") None) as [text E]. discriminate E.
Qed.

(** C8, amended.  Called with an arguments object, the entry point of each
    of the five tools returns a text and never throws: whatever the
    statements of its try block throw is returned as text that starts with
    the error marker of the tool.  Called without one, it throws the
    TypeError of the read that precedes the try block, and reads no file;
    the handler of the server then answers with a result marked as an
    error that names the tool and carries the message. *)
Theorem execute_reports_failures (w : World)
    (parsePom : string -> Completion DependencyAnalyzer.Pom)
    (renderFile : string -> string -> bool -> Effect string)
    (renderProject : list (string * string) -> Effect string)
    (writeDocuments : DocumentationGenerator.Args -> list string ->
                      DocumentationGenerator.Analysis -> Effect string)
    (renderReport : ProjectStructureAnalyzer.Args -> list string ->
                    ProjectStructureAnalyzer.Analysis -> Effect string) :
  ((forall args,
      reported "Error analyzing dependencies: "
        (DependencyAnalyzer.tryBlock w parsePom (DependencyAnalyzer.projectPath args))
        (DependencyAnalyzer.execute w parsePom (Some args)))
   /\ DependencyAnalyzer.execute w parsePom None = ([], Throw noArguments))
  /\ ((forall args,
         reported "Error generating tests: "
           (TestGenerator.tryBlock w args) (TestGenerator.execute w (Some args)))
      /\ TestGenerator.execute w None = ([], Throw noArguments))
  /\ ((forall args,
         reported "Error checking code quality: "
           (CodeQualityChecker.tryBlock w renderFile renderProject args)
           (CodeQualityChecker.execute w renderFile renderProject (Some args)))
      /\ CodeQualityChecker.execute w renderFile renderProject None
         = ([], Throw noArguments))
  /\ ((forall args,
         reported "Error generating documentation: "
           (DocumentationGenerator.tryBlock w writeDocuments args)
           (DocumentationGenerator.execute w writeDocuments (Some args)))
      /\ DocumentationGenerator.execute w writeDocuments None
         = ([], Throw noArguments))
  /\ ((forall args,
         reported "Error analyzing project structure: "
           (ProjectStructureAnalyzer.tryBlock w renderReport args)
           (ProjectStructureAnalyzer.execute w renderReport (Some args)))
      /\ ProjectStructureAnalyzer.execute w renderReport None
         = ([], Throw noArguments))
  /\ (forall tool,
        callTool (withoutArguments w parsePom renderFile renderProject
                    writeDocuments renderReport) (getName tool)
        = ([], Normal {| text := "Error executing tool " ++ getName tool ++ ": "
                                 ++ noArguments;
                         isError := true |})).
Proof.
  repeat split; intros.
  - apply (tryCatch_reported "analyzing dependencies: ").
  - apply (tryCatch_reported "generating tests: ").
  - apply (tryCatch_reported "checking code quality: ").
  - apply (tryCatch_reported "generating documentation: ").
  - apply (tryCatch_reported "analyzing project structure: ").
  - destruct tool; reflexivity.
Qed.

Lemma execute_reports_failures_witness :
  outcome (TestGenerator.execute lockedProject (Some (allClasses "/p")))
  = Normal "Error generating tests: EACCES: permission denied"
  /\ outcome (DependencyAnalyzer.execute lockedProject brokenPom
                (Some {| DependencyAnalyzer.projectPath := "/p" |}))
     = Normal "Error analyzing dependencies: Cannot read properties of undefined (reading '0')"
  /\ outcome (TestGenerator.execute lockedProject None) = Throw noArguments.
Proof.
  pose proof (execute_reports_failures lockedProject brokenPom
                (fun _ _ _ => ret "") (fun _ => ret "") (fun _ _ _ => ret "")
                (fun _ _ _ => ret "")) as [[Hd _] [[Ht Hn] _]].
  split; [| split].
  - destruct (Ht (allClasses "/p")) as [text [Hret [_ Hthrow]]].
    rewrite Hret. f_equal.
    exact (proj1 (Hthrow "EACCES: permission denied" eq_refl)).
  - destruct (Hd {| DependencyAnalyzer.projectPath := "/p" |})
      as [text [Hret [_ Hthrow]]].
    rewrite Hret. f_equal.
    exact (proj1 (Hthrow "Cannot read properties of undefined (reading '0')" eq_refl)).
  - exact (f_equal snd Hn).
Defined.

(** * Further properties *)

(** ** Strings *)

Example replace_ex1 : JS.replace "a.java.java" ".java" "Test.java" = "aTest.java.java".
Proof. reflexivity. Qed.
Example replace_ex2 : JS.replace "x-y-z" "-" "[$&|$`|$'|$$|$1]" = "x[-|x|y-z|$|$1]y-z".
Proof. reflexivity. Qed.
Example getTestFilePath_ex1 :
  TestGenerator.getTestFilePath "/p/src/main/java/demo/User.java"
  = "/p/src/test/java/demo/UserTest.java".
Proof. reflexivity. Qed.
Example getTestFilePath_ex2 :
  TestGenerator.getTestFilePath "/p/src/main/java/A$$B.java"
  = "/p/src/test/java/A$BTest.java".
Proof. reflexivity. Qed.
Example toUpperCase_ex1 : JS.toUpperCase "junit5" = "JUNIT5".
Proof. reflexivity. Qed.
Example toUpperCase_ex2 :
  JS.toUpperCase (String (ascii_of_nat 233) (String (ascii_of_nat 223) "x"))
  = String (ascii_of_nat 201) "SSX".
Proof. reflexivity. Qed.

Lemma append_assoc_s (a b c : string) : ((a ++ b) ++ c)%string = (a ++ (b ++ c))%string.
Proof. induction a as [| x a IH]; simpl; [reflexivity | now rewrite IH]. Qed.


Lemma append_nil_s (a : string) : (a ++ "")%string = a.
Proof. induction a as [| x a IH]; simpl; [reflexivity | now rewrite IH]. Qed.

Lemma concat_cons_s (x : string) (l : list string) :
  String.concat "" (x :: l) = (x ++ String.concat "" l)%string.
Proof. destruct l; cbn; [now rewrite append_nil_s | reflexivity]. Qed.



Lemma startsWith_append (p s : string) : JS.startsWith (p ++ s) p = true.
Proof.
  induction p as [| x p IH]; simpl; [reflexivity |].
  rewrite Ascii.eqb_refl. exact IH.
Qed.

(** ** The walk *)

Section DirentInduction.
Variable P : Dirent -> Prop.
Hypothesis Hfile : forall name, P (FileEnt name).
Hypothesis Hother : forall name, P (OtherEnt name).
Hypothesis Hdir : forall name listing,
  match listing with
  | Some entries => Forall P entries
  | None => True
  end ->
  P (DirEnt name listing).

Lemma Dirent_forall_ind : forall e, P e.
Proof.
  fix IH 1. intros [name | name listing | name].
  - apply Hfile.
  - apply Hdir. destruct listing as [entries |]; [| exact I].
    exact ((fix all (es : list Dirent) : Forall P es :=
              match es with
              | [] => Forall_nil P
              | x :: xs => Forall_cons x (IH x) (all xs)
              end) entries).
  - apply Hother.
Qed.
End DirentInduction.


(** *** Joined paths *)

Example pathJoin_ex1 : pathJoin "/p" "Shape.java" = "/p/Shape.java".
Proof. reflexivity. Qed.
Example pathJoin_ex2 : pathJoin "/p/" "src" = "/p/src".
Proof. reflexivity. Qed.
Example pathJoin_ex3 : pathJoin "." "src" = "src".
Proof. reflexivity. Qed.
Example pathJoin_ex4 : pathJoin "" "pom.xml" = "pom.xml".
Proof. reflexivity. Qed.
Example pathJoin_ex5 : pathJoin "/p//a/./b/.." "x" = "/p/a/x".
Proof. reflexivity. Qed.
Example pathJoin_ex6 : pathJoin "a/../.." "x" = "../x".
Proof. reflexivity. Qed.
Example pathJoin_ex7 : pathJoin "/.." "x/" = "/x/".
Proof. reflexivity. Qed.
Example pathJoin_ex8 : pathJoin "" "" = ".".
Proof. reflexivity. Qed.













(** X2.  A project directory whose entries are all directories with
    excluded names yields no file, however many Java files lie below. *)
Theorem scanEntries_all_excluded (shouldSkip : string -> bool) (dir : string)
    (entries : list Dirent) :
  Forall (fun e => exists name listing,
                     e = DirEnt name listing /\ shouldSkip name = true) entries ->
  scanEntries shouldSkip dir entries = [].
Proof.
  unfold scanEntries. induction 1 as [| e es [name [listing [-> Hs]]] _ IH]; [reflexivity |].
  cbn [flat_map]. rewrite scanEntry_directory, Hs, IH. reflexivity.
Qed.

Lemma scanEntries_all_excluded_witness :
  scanEntries DocumentationGenerator.shouldSkipDirectory "/p"
    [DirEnt "target" (Some [FileEnt "Gen.java"]);
     DirEnt "test" (Some [FileEnt "AppTest.java"])] = [].
Proof.
  apply scanEntries_all_excluded.
  repeat constructor; eexists; eexists; split; reflexivity.
Defined.

Lemma scanEntry_monotone (skipA skipB : string -> bool) (e : Dirent) :
  (forall name, skipA name = true -> skipB name = true) ->
  forall dir path, In path (scanEntry skipB dir e) -> In path (scanEntry skipA dir e).
Proof.
  intros Hsub.
  induction e as [name | name | name listing IH] using Dirent_forall_ind;
    intros dir path Hin; [exact Hin | exact Hin |].
  rewrite scanEntry_directory in *.
  destruct (skipB name) eqn:HB; [destruct Hin |].
  destruct (skipA name) eqn:HA; [rewrite (Hsub _ HA) in HB; discriminate |].
  destruct listing as [entries |]; [| exact Hin].
  unfold scanEntries in *. apply in_flat_map in Hin. destruct Hin as [e [He Hin]].
  apply in_flat_map. exists e. split; [exact He |].
  rewrite Forall_forall in IH.
  exact (IH e He _ _ Hin).
Qed.

(** X3.  The walk of the test generator excludes less than the walk of the
    documentation generator: every file the documentation generator finds,
    the test generator finds too. *)
Theorem documented_files_are_tested_files (w : World) (projectPath path : string) :
  In path (findJavaFiles DocumentationGenerator.shouldSkipDirectory w projectPath) ->
  In path (findJavaFiles TestGenerator.shouldSkipDirectory w projectPath).
Proof.
  unfold findJavaFiles, scanDirectory.
  destruct (readdirSync w projectPath) as [entries |]; [| intros []].
  unfold scanEntries. intros Hin. apply in_flat_map in Hin.
  destruct Hin as [e [He Hin]]. apply in_flat_map. exists e. split; [exact He |].
  apply scanEntry_monotone with (skipB := DocumentationGenerator.shouldSkipDirectory);
    [| exact Hin].
  intros name Hn.
  unfold TestGenerator.shouldSkipDirectory in Hn.
  unfold DocumentationGenerator.shouldSkipDirectory.
  apply existsb_eqb_In in Hn. apply existsb_eqb_In.
  simpl in *. tauto.
Qed.

Lemma documented_files_are_tested_files_witness :
  In "/p/Shape.java" (findJavaFiles TestGenerator.shouldSkipDirectory shapesProject "/p").
Proof.
  apply documented_files_are_tested_files. vm_compute. left. reflexivity.
Defined.

(** ** The parsers *)

Lemma step_sameStructure d p raw :
  sameStructure d p ->
  sameStructure (DocumentationGenerator.step d raw) (ProjectStructureAnalyzer.step p raw).
Proof.
  intros H. unfold DocumentationGenerator.step, ProjectStructureAnalyzer.step.
  set (l := JS.trim raw).
  assert (HP : sameStructure (DocumentationGenerator.onPackage l d)
                             (ProjectStructureAnalyzer.onPackage l p)).
  { unfold DocumentationGenerator.onPackage, ProjectStructureAnalyzer.onPackage.
    destruct (JS.startsWith l "package "); [| exact H].
    destruct H as [_ H]. split; [reflexivity | exact H]. }
  clear H. revert HP.
  generalize (DocumentationGenerator.onPackage l d), (ProjectStructureAnalyzer.onPackage l p).
  intros d1 p1 H.
  assert (HI : sameStructure (DocumentationGenerator.onImport l d1) p1).
  { unfold DocumentationGenerator.onImport.
    destruct (JS.startsWith l "import "); exact H. }
  clear H. revert HI. generalize (DocumentationGenerator.onImport l d1). intros d2 H.
  assert (HT : sameStructure (DocumentationGenerator.onType l d2)
                             (ProjectStructureAnalyzer.onType l p1)).
  { unfold DocumentationGenerator.onType, ProjectStructureAnalyzer.onType.
    destruct (isTypeLine l); [| exact H].
    destruct H as [Hp [Hc [Ht [Hm Hf]]]]. unfold sameStructure.
    destruct (declName l); cbn; repeat split; assumption. }
  clear H. revert HT.
  generalize (DocumentationGenerator.onType l d2), (ProjectStructureAnalyzer.onType l p1).
  intros d3 p3 H.
  assert (HM : sameStructure (DocumentationGenerator.onMethod l d3)
                             (ProjectStructureAnalyzer.onMethod l p3)).
  { unfold DocumentationGenerator.onMethod, ProjectStructureAnalyzer.onMethod,
      DocumentationGenerator.extractMethod.
    destruct (isMethodLine l); [| exact H].
    destruct (JS.exec re_method l); [| exact H].
    destruct H as [Hp [Hc [Ht [Hm Hf]]]]. unfold sameStructure. cbn.
    rewrite map_app, Hm. repeat split; assumption. }
  clear H. revert HM.
  generalize (DocumentationGenerator.onMethod l d3), (ProjectStructureAnalyzer.onMethod l p3).
  intros d4 p4 H.
  assert (HF : sameStructure (DocumentationGenerator.onField l d4)
                             (ProjectStructureAnalyzer.onField l p4)).
  { unfold DocumentationGenerator.onField, ProjectStructureAnalyzer.onField,
      DocumentationGenerator.extractField.
    destruct (isFieldLine l); [| exact H].
    destruct (JS.exec re_field l); [| exact H].
    destruct H as [Hp [Hc [Ht [Hm Hf]]]]. unfold sameStructure. cbn.
    rewrite map_app, Hf. repeat split; assumption. }
  clear H. revert HF.
  generalize (DocumentationGenerator.onField l d4), (ProjectStructureAnalyzer.onField l p4).
  intros d5 p5 H.
  unfold DocumentationGenerator.onJavadoc, DocumentationGenerator.setCurrentJavadoc.
  destruct (DocumentationGenerator.collectsJavadoc l); [exact H |].
  destruct (_ && _); exact H.
Qed.

Lemma scan_sameStructure (lines : list string) : forall d p,
  sameStructure d p ->
  sameStructure (fold_left DocumentationGenerator.step lines d)
                (fold_left ProjectStructureAnalyzer.step lines p).
Proof.
  induction lines as [| raw lines IH]; intros d p H; simpl; [exact H |].
  apply IH. apply step_sameStructure. exact H.
Qed.

(** X4.  On every file the parser of the documentation generator and the
    parser of the structure analyzer record the same package, type name and
    kind, and the same methods and fields in the same order (the former
    with their Javadoc, the latter without). *)
Theorem parsers_agree (content path : string) :
  let d := DocumentationGenerator.analyzeJavaFile content path in
  let p := ProjectStructureAnalyzer.analyzeJavaFile content path in
  DocumentationGenerator.package d = ProjectStructureAnalyzer.package p
  /\ DocumentationGenerator.className d = ProjectStructureAnalyzer.className p
  /\ DocumentationGenerator.type d = ProjectStructureAnalyzer.type p
  /\ map dropMethodJavadoc (DocumentationGenerator.methods d)
     = ProjectStructureAnalyzer.methods p
  /\ map dropFieldJavadoc (DocumentationGenerator.fields d)
     = ProjectStructureAnalyzer.fields p
  /\ DocumentationGenerator.filePath d = ProjectStructureAnalyzer.filePath p.
Proof.
  intros d p.
  assert (H : sameStructure DocumentationGenerator.initial ProjectStructureAnalyzer.initial)
    by (repeat split).
  apply (scan_sameStructure (JS.split_lines content)) in H.
  destruct H as [Hp [Hc [Ht [Hm Hf]]]].
  repeat split; assumption.
Qed.

Section ParserFacts.
Import DocumentationGenerator.

Ltac unchanged :=
  intros; unfold onPackage, onImport, onType, onMethod, onField, onJavadoc,
    setCurrentJavadoc;
  repeat match goal with
         | |- context [if ?c then _ else _] => destruct c
         | |- context [match ?c with Some _ => _ | None => _ end] => destruct c
         end; reflexivity.

Lemma onJavadoc_type l s : l_type (onJavadoc l s) = l_type s.
Proof. unchanged. Qed.
Lemma onField_type l s : l_type (onField l s) = l_type s.
Proof. unchanged. Qed.
Lemma onMethod_type l s : l_type (onMethod l s) = l_type s.
Proof. unchanged. Qed.
Lemma onImport_type l s : l_type (onImport l s) = l_type s.
Proof. unchanged. Qed.
Lemma onPackage_type l s : l_type (onPackage l s) = l_type s.
Proof. unchanged. Qed.

Lemma onJavadoc_packageName l s : l_packageName (onJavadoc l s) = l_packageName s.
Proof. unchanged. Qed.
Lemma onField_packageName l s : l_packageName (onField l s) = l_packageName s.
Proof. unchanged. Qed.
Lemma onMethod_packageName l s : l_packageName (onMethod l s) = l_packageName s.
Proof. unchanged. Qed.
Lemma onType_packageName l s : l_packageName (onType l s) = l_packageName s.
Proof. unchanged. Qed.
Lemma onImport_packageName l s : l_packageName (onImport l s) = l_packageName s.
Proof. unchanged. Qed.

Lemma step_type (st : Locals) (raw : string) :
  l_type (step st raw)
  = match declaredKind raw with Some k => k | None => l_type st end.
Proof.
  unfold step, declaredKind.
  rewrite onJavadoc_type, onField_type, onMethod_type. unfold onType.
  destruct (isTypeLine (JS.trim raw)); cbn [l_type]; [reflexivity |].
  now rewrite onImport_type, onPackage_type.
Qed.

Lemma step_packageName (st : Locals) (raw : string) :
  l_packageName (step st raw)
  = match declaredPackage raw with Some k => k | None => l_packageName st end.
Proof.
  unfold step, declaredPackage.
  rewrite onJavadoc_packageName, onField_packageName, onMethod_packageName,
    onType_packageName, onImport_packageName.
  unfold onPackage. destruct (JS.startsWith (JS.trim raw) "package "); reflexivity.
Qed.

Lemma scan_type (lines : list string) : forall st,
  l_type (fold_left step lines st)
  = match lastSome (map declaredKind lines) with Some k => k | None => l_type st end.
Proof.
  induction lines as [| raw lines IH]; intros st; simpl; [reflexivity |].
  rewrite IH, step_type. destruct (lastSome (map declaredKind lines)); reflexivity.
Qed.

Lemma scan_packageName (lines : list string) : forall st,
  l_packageName (fold_left step lines st)
  = match lastSome (map declaredPackage lines) with
    | Some k => k
    | None => l_packageName st
    end.
Proof.
  induction lines as [| raw lines IH]; intros st; simpl; [reflexivity |].
  rewrite IH, step_packageName. destruct (lastSome (map declaredPackage lines)); reflexivity.
Qed.

(** A line adds a method or a field, never both. *)
Lemma step_members (st : Locals) (raw : string) :
  List.length (l_methods (step st raw)) + List.length (l_fields (step st raw))
  <= S (List.length (l_methods st) + List.length (l_fields st)).
Proof.
  rewrite step_unfold, onJavadoc_methods, onJavadoc_fields. unfold beforeJavadoc.
  set (st1 := onType (JS.trim raw) (onImport (JS.trim raw) (onPackage (JS.trim raw) st))).
  assert (Hm : l_methods st1 = l_methods st)
    by (unfold st1; now rewrite onType_methods, onImport_methods, onPackage_methods).
  assert (Hf : l_fields st1 = l_fields st)
    by (unfold st1; now rewrite onType_fields, onImport_fields, onPackage_fields).
  rewrite onField_methods, <- Hm, <- Hf.
  unfold onField, onMethod, isFieldLine, isMethodLine.
  destruct (JS.includes (JS.trim raw) "("); cbn [negb andb];
    rewrite ?andb_false_r, ?andb_false_l; cbn [andb].
  - destruct (JS.includes (JS.trim raw) ")" && hasVisibility (JS.trim raw));
      [destruct (extractMethod _ _) |]; cbn [l_methods l_fields];
      rewrite ?length_app; simpl; lia.
  - rewrite ?andb_true_r.
    destruct (JS.includes (JS.trim raw) ";" && hasVisibility (JS.trim raw));
      [destruct (extractField _ _) |]; cbn [l_methods l_fields];
      rewrite ?length_app; simpl; lia.
Qed.

Lemma scan_members (lines : list string) : forall st,
  List.length (l_methods (fold_left step lines st))
  + List.length (l_fields (fold_left step lines st))
  <= List.length lines + (List.length (l_methods st) + List.length (l_fields st)).
Proof.
  induction lines as [| raw lines IH]; intros st; simpl; [lia |].
  specialize (IH (step st raw)). pose proof (step_members st raw). lia.
Qed.

(** A plain Javadoc line is appended to the buffer, trimmed, with a line
    break, and changes nothing else that a type line reads. *)
Lemma step_plainJavadoc (st : Locals) (raw : string) :
  plainJavadoc raw = true ->
  l_currentJavadoc (step st raw)
  = (l_currentJavadoc st ++ JS.trim raw ++ JS.nl)%string.
Proof.
  unfold plainJavadoc. intros H.
  apply andb_true_iff in H. destruct H as [H Hv].
  apply andb_true_iff in H. destruct H as [Hc Ht].
  apply negb_true_iff in Hv, Ht.
  rewrite step_unfold. unfold onJavadoc. rewrite Hc.
  unfold setCurrentJavadoc. cbn [l_currentJavadoc]. f_equal.
  unfold beforeJavadoc, onField, onMethod, isFieldLine, isMethodLine.
  rewrite Hv, !andb_false_r.
  rewrite onType_current, Ht, onImport_current, onPackage_current. reflexivity.
Qed.

Lemma scan_plainJavadoc (block : list string) : forall st,
  Forall (fun raw => plainJavadoc raw = true) block ->
  l_currentJavadoc (fold_left step block st)
  = (l_currentJavadoc st ++ javadocText block)%string.
Proof.
  induction block as [| raw block IH]; intros st Hall; cbn [fold_left].
  - unfold javadocText. cbn. now rewrite append_nil_s.
  - inversion Hall as [| ? ? Hraw Hrest]; subst.
    rewrite (IH _ Hrest), (step_plainJavadoc _ _ Hraw), append_assoc_s.
    unfold javadocText. cbn [map]. now rewrite concat_cons_s.
Qed.
End ParserFacts.

(** X5.  The package of a parsed file is the one of its last package line
    and the kind the one of its last line that mentions a type keyword,
    whether or not that line also gave the name; without such lines the
    package is empty and the kind is class. *)
Theorem analyzeJavaFile_package_and_kind (content path : string) :
  let r := DocumentationGenerator.analyzeJavaFile content path in
  DocumentationGenerator.package r
  = orEmpty (lastSome (map declaredPackage (JS.split_lines content)))
  /\ DocumentationGenerator.type r
     = match lastSome (map declaredKind (JS.split_lines content)) with
       | Some k => k
       | None => class
       end.
Proof.
  unfold DocumentationGenerator.analyzeJavaFile, DocumentationGenerator.finish,
    DocumentationGenerator.scan.
  cbn [DocumentationGenerator.package DocumentationGenerator.type].
  rewrite scan_packageName, scan_type. split; [| reflexivity].
  destruct (lastSome _); reflexivity.
Qed.

(** X6.  A line yields at most one member, a method or a field: the
    methods and fields of a parsed file are together no more than its
    lines. *)
Theorem analyzeJavaFile_members_bounded (content path : string) :
  let r := DocumentationGenerator.analyzeJavaFile content path in
  List.length (DocumentationGenerator.methods r)
  + List.length (DocumentationGenerator.fields r)
  <= List.length (JS.split_lines content).
Proof.
  unfold DocumentationGenerator.analyzeJavaFile, DocumentationGenerator.finish,
    DocumentationGenerator.scan.
  cbn [DocumentationGenerator.methods DocumentationGenerator.fields].
  pose proof (scan_members (JS.split_lines content) DocumentationGenerator.initial) as H.
  simpl in H. lia.
Qed.

(** X7.  When plain Javadoc lines directly precede a line that mentions a
    type keyword, and the buffer was empty before them, the type gets
    exactly these lines as its Javadoc: each trimmed and followed by a line
    break, the whole not trimmed. *)
Theorem javadoc_attached_to_type (pre block : list string) (decl : string) :
  DocumentationGenerator.l_currentJavadoc
    (fold_left DocumentationGenerator.step pre DocumentationGenerator.initial) = "" ->
  Forall (fun raw => plainJavadoc raw = true) block ->
  isTypeLine (JS.trim decl) = true ->
  DocumentationGenerator.l_javadoc
    (fold_left DocumentationGenerator.step (pre ++ block ++ [decl])
       DocumentationGenerator.initial)
  = javadocText block.
Proof.
  intros Hpre Hblock Hdecl.
  rewrite !fold_left_app. cbn [fold_left].
  rewrite step_type_javadoc by exact Hdecl.
  rewrite scan_plainJavadoc by exact Hblock. rewrite Hpre. reflexivity.
Qed.

Lemma javadoc_attached_to_type_witness :
  DocumentationGenerator.l_javadoc
    (fold_left DocumentationGenerator.step
       (["package demo;"; ""]
        ++ ["/**"; "   * Describes the widget."; " */"] ++ ["public class Widget {"])
       DocumentationGenerator.initial)
  = "/**" ++ JS.nl ++ "* Describes the widget." ++ JS.nl ++ "*/" ++ JS.nl.
Proof.
  apply (javadoc_attached_to_type ["package demo;"; ""]
           ["/**"; "   * Describes the widget."; " */"] "public class Widget {").
  - reflexivity.
  - repeat constructor.
  - reflexivity.
Defined.

(** ** Aggregates *)

Lemma fold_add_init (l : list nat) : forall n,
  fold_left Nat.add l n = n + fold_left Nat.add l 0.
Proof.
  induction l as [| x l IH]; intros n; simpl; [lia |].
  rewrite (IH (n + x)), (IH x). lia.
Qed.

Lemma sum_cons (x : nat) (l : list nat) : sum (x :: l) = x + sum l.
Proof. unfold sum. simpl. apply fold_add_init. Qed.

Lemma sum_app (l l' : list nat) : sum (l ++ l') = sum l + sum l'.
Proof.
  induction l as [| x l IH]; [reflexivity |].
  change ((x :: l) ++ l')%list with (x :: (l ++ l'))%list.
  rewrite !sum_cons, IH. lia.
Qed.

Section DictInvariants.
Context {V : Type}.
Variable Q : string * V -> Prop.

Lemma Forall_ensure (k : string) (v : V) (d : dict V) :
  Forall Q d -> Q (k, v) -> Forall Q (ensure k v d).
Proof.
  intros Hd Hv. destruct (lookup k d) eqn:Hl; [unfold ensure; rewrite Hl; exact Hd |].
  destruct (ensure_split k v d Hl) as [d1 [d2 [E1 E2]]]. rewrite E2.
  rewrite E1 in Hd. apply Forall_app in Hd. destruct Hd as [H1 H2].
  apply Forall_app. split; [exact H1 | constructor; assumption].
Qed.

Lemma Forall_update (k : string) (f : V -> V) (d : dict V) :
  Forall Q d -> (forall v, Q (k, v) -> Q (k, f v)) -> Forall Q (update k f d).
Proof.
  intros Hd Hf. induction Hd as [| [k0 v0] d H0 Hd IH]; simpl; [constructor |].
  destruct (String.eqb_spec k k0) as [-> | Hne].
  - constructor; [apply Hf; exact H0 | exact Hd].
  - constructor; [exact H0 | exact IH].
Qed.
End DictInvariants.

Lemma update_absent {V : Type} (k : string) (f : V -> V) (d d' : dict V) :
  lookup k d = None -> update k f (d ++ d')%list = (d ++ update k f d')%list.
Proof.
  induction d as [| [k0 v0] d IH]; simpl; [reflexivity |].
  destruct (String.eqb k k0); [discriminate |]. intros H. now rewrite IH.
Qed.

Lemma Forall_update_ensure {V : Type} (Q : string * V -> Prop) (k : string)
    (f : V -> V) (v0 : V) (d : dict V) :
  Forall Q d -> (forall v, Q (k, v) -> Q (k, f v)) -> Q (k, f v0) ->
  Forall Q (update k f (ensure k v0 d)).
Proof.
  intros Hd Hf H0. destruct (lookup k d) eqn:Hk.
  - unfold ensure. rewrite Hk. apply Forall_update; assumption.
  - destruct (ensure_split k v0 d Hk) as [d1 [d2 [E1 E2]]]. rewrite E2.
    rewrite E1, lookup_app in Hk.
    destruct (lookup k d1) eqn:Hk1; [discriminate |].
    rewrite (update_absent _ _ _ _ Hk1). cbn [update]. rewrite String.eqb_refl.
    rewrite E1 in Hd. apply Forall_app in Hd. destruct Hd as [H1 H2].
    apply Forall_app. split; [exact H1 | constructor; assumption].
Qed.

Lemma doc_store_invariant a r :
  Forall doc_packageInvariant (DocumentationGenerator.packages a) ->
  Forall doc_packageInvariant
    (DocumentationGenerator.packages (DocumentationGenerator.store a r)).
Proof.
  intros Ha. cbn [DocumentationGenerator.store DocumentationGenerator.packages].
  destruct (JS.truthy (DocumentationGenerator.package r)) eqn:Ht; [| exact Ha].
  apply truthy_true in Ht.
  apply Forall_update_ensure; [exact Ha | |].
  - intros p [Hk [Hn [Hne [Hall [Hm [Hi He]]]]]].
    unfold doc_packageInvariant, DocumentationGenerator.addToPackage.
    cbn [DocumentationGenerator.p_name DocumentationGenerator.p_classes
         DocumentationGenerator.p_interfaces DocumentationGenerator.p_enums
         DocumentationGenerator.p_methods].
    split; [exact Hk | split; [exact Hn | split; [| split; [| split; [| split]]]]].
    + intros E. apply app_eq_nil in E. destruct E as [_ E]. discriminate E.
    + apply Forall_app. split; [exact Hall | repeat constructor].
    + rewrite map_app, sum_app, Hm. cbn [map]. rewrite sum_cons.
      change (sum []) with 0. lia.
    + exact Hi.
    + exact He.
  - unfold doc_packageInvariant, DocumentationGenerator.addToPackage,
      DocumentationGenerator.emptyPackage.
    cbn [DocumentationGenerator.p_name DocumentationGenerator.p_classes
         DocumentationGenerator.p_interfaces DocumentationGenerator.p_enums
         DocumentationGenerator.p_methods app map].
    split; [exact Ht | split; [reflexivity | split; [| split; [| split; [| split]]]]].
    + discriminate.
    + repeat constructor.
    + rewrite sum_cons. change (sum []) with 0. lia.
    + reflexivity.
    + reflexivity.
Qed.

Lemma doc_fold_invariant (rs : list DocumentationGenerator.SourceRecord) : forall a,
  Forall doc_packageInvariant (DocumentationGenerator.packages a) ->
  Forall doc_packageInvariant
    (DocumentationGenerator.packages (fold_left DocumentationGenerator.store rs a)).
Proof.
  induction rs as [| r rs IH]; intros a Ha; simpl; [exact Ha |].
  apply IH. apply doc_store_invariant. exact Ha.
Qed.

(** X8.  The analysis of the documentation generator throws a TypeError
    when a record declares a package named like a member every object
    inherits.  Otherwise every package aggregate it returns has a non-empty
    name of its own, at least one record, only records that declare that
    package, and a method total that is the sum of the method counts of its
    records; its lists of interfaces and of enums stay empty, since records
    of every kind go to its list of classes. *)
Theorem doc_aggregate_packages (rs : list DocumentationGenerator.SourceRecord) :
  if doc_shadowed rs
  then DocumentationGenerator.aggregate rs = Throw pushOfUndefined
  else exists a,
         DocumentationGenerator.aggregate rs = Normal a
         /\ Forall doc_packageInvariant (DocumentationGenerator.packages a).
Proof.
  rewrite doc_aggregate_outcome. destruct (doc_shadowed rs); [reflexivity |].
  eexists. split; [reflexivity |].
  unfold DocumentationGenerator.stored. cbn [DocumentationGenerator.setTotalFiles
    DocumentationGenerator.packages].
  apply doc_fold_invariant. constructor.
Qed.

Lemma psa_store_invariant a r :
  Forall psa_packageInvariant (ProjectStructureAnalyzer.packages a) ->
  Forall psa_packageInvariant
    (ProjectStructureAnalyzer.packages (ProjectStructureAnalyzer.store a r)).
Proof.
  intros Ha. unfold ProjectStructureAnalyzer.store.
  destruct (JS.truthy (ProjectStructureAnalyzer.package r)) eqn:Ht; [| exact Ha].
  apply truthy_true in Ht. cbn [ProjectStructureAnalyzer.packages].
  apply Forall_update_ensure; [exact Ha | |].
  - intros p [Hk [Hn [Hall [Hc [Hi [He [Hcount [Hpos [Hm Hf]]]]]]]]].
    assert (Hr : Forall (fun r0 => ProjectStructureAnalyzer.package r0
                                   = ProjectStructureAnalyzer.package r) [r])
      by (repeat constructor).
    assert (Hty : Forall (fun r0 => ProjectStructureAnalyzer.type r0
                                    = ProjectStructureAnalyzer.type r) [r])
      by (repeat constructor).
    unfold psa_packageInvariant, psa_members in *.
    unfold ProjectStructureAnalyzer.addToPackage.
    destruct (ProjectStructureAnalyzer.type r);
      cbn [ProjectStructureAnalyzer.p_name ProjectStructureAnalyzer.p_classes
           ProjectStructureAnalyzer.p_interfaces ProjectStructureAnalyzer.p_enums
           ProjectStructureAnalyzer.p_fileCount ProjectStructureAnalyzer.p_totalMethods
           ProjectStructureAnalyzer.p_totalFields];
      rewrite ?Forall_app in *; rewrite ?map_app, ?sum_app, ?length_app in *;
      cbn [map List.length] in *; rewrite ?sum_cons in *; change (sum []) with 0 in *;
      repeat split; try tauto; try lia.
  - assert (Hr : Forall (fun r0 => ProjectStructureAnalyzer.package r0
                                   = ProjectStructureAnalyzer.package r) [r])
      by (repeat constructor).
    assert (Hty : Forall (fun r0 => ProjectStructureAnalyzer.type r0
                                    = ProjectStructureAnalyzer.type r) [r])
      by (repeat constructor).
    unfold psa_packageInvariant, psa_members.
    unfold ProjectStructureAnalyzer.addToPackage, ProjectStructureAnalyzer.emptyPackage.
    destruct (ProjectStructureAnalyzer.type r);
      cbn [ProjectStructureAnalyzer.p_name ProjectStructureAnalyzer.p_classes
           ProjectStructureAnalyzer.p_interfaces ProjectStructureAnalyzer.p_enums
           ProjectStructureAnalyzer.p_fileCount ProjectStructureAnalyzer.p_totalMethods
           ProjectStructureAnalyzer.p_totalFields app];
      rewrite ?Forall_app in *; rewrite ?map_app, ?sum_app, ?length_app in *;
      cbn [map List.length] in *; rewrite ?sum_cons in *; change (sum []) with 0 in *;
      repeat split; try tauto; try lia; try (constructor).
Qed.

Lemma psa_fold_invariant (rs : list ProjectStructureAnalyzer.SourceRecord) : forall a,
  Forall psa_packageInvariant (ProjectStructureAnalyzer.packages a) ->
  Forall psa_packageInvariant
    (ProjectStructureAnalyzer.packages (fold_left ProjectStructureAnalyzer.store rs a)).
Proof.
  induction rs as [| r rs IH]; intros a Ha; simpl; [exact Ha |].
  apply IH. apply psa_store_invariant. exact Ha.
Qed.

(** X9.  The analysis of the structure analyzer throws a TypeError when a
    record declares a package named like a member every object inherits.
    Otherwise every package aggregate it returns has a non-empty name of
    its own; its three lists hold only records that declare that package,
    each list only records of its kind; its file count is positive and is
    the number of these records, and its method and field totals are the
    sums of their method and field counts. *)
Theorem psa_aggregate_packages (rs : list ProjectStructureAnalyzer.SourceRecord) :
  if psa_shadowed rs
  then ProjectStructureAnalyzer.aggregate rs = Throw pushOfUndefined
  else exists a,
         ProjectStructureAnalyzer.aggregate rs = Normal a
         /\ Forall psa_packageInvariant (ProjectStructureAnalyzer.packages a).
Proof.
  rewrite psa_aggregate_outcome. destruct (psa_shadowed rs); [reflexivity |].
  eexists. split; [reflexivity |].
  unfold ProjectStructureAnalyzer.stored.
  cbn [ProjectStructureAnalyzer.setTotalFiles ProjectStructureAnalyzer.packages].
  apply psa_fold_invariant. constructor.
Qed.

Lemma filter_kinds_length {A : Type} (kind : A -> TypeKind) (l : list A) :
  List.length (filter (fun r => TypeKind_eqb (kind r) class) l)
  + List.length (filter (fun r => TypeKind_eqb (kind r) interface) l)
  + List.length (filter (fun r => TypeKind_eqb (kind r) enum) l)
  = List.length l.
Proof.
  induction l as [| r l IH]; simpl; [reflexivity |].
  destruct (kind r); simpl; lia.
Qed.

(** X10.  The analysis of the documentation generator returns exactly when
    no record declares a package named like a member every object inherits;
    otherwise it throws a TypeError.  When it returns, every parsed record,
    with or without a package, is in exactly one of its three flat lists, by
    kind and in input order: the lists are the input filtered by kind and
    their lengths add up to the file count. *)
Theorem doc_flat_lists_partition (rs : list DocumentationGenerator.SourceRecord) :
  if doc_shadowed rs
  then DocumentationGenerator.aggregate rs = Throw pushOfUndefined
  else exists a,
         DocumentationGenerator.aggregate rs = Normal a
         /\ DocumentationGenerator.classes a = filter (doc_ofKind class) rs
         /\ DocumentationGenerator.interfaces a = filter (doc_ofKind interface) rs
         /\ DocumentationGenerator.enums a = filter (doc_ofKind enum) rs
         /\ List.length (DocumentationGenerator.classes a)
            + List.length (DocumentationGenerator.interfaces a)
            + List.length (DocumentationGenerator.enums a)
            = DocumentationGenerator.totalFiles a.
Proof.
  rewrite doc_aggregate_outcome. destruct (doc_shadowed rs); [reflexivity |].
  eexists. split; [reflexivity |].
  destruct (doc_fold_flat rs DocumentationGenerator.emptyAnalysis) as [Hc [Hi He]].
  unfold DocumentationGenerator.stored.
  cbn [DocumentationGenerator.setTotalFiles DocumentationGenerator.classes
       DocumentationGenerator.interfaces DocumentationGenerator.enums
       DocumentationGenerator.totalFiles].
  rewrite Hc, He, Hi. cbn [DocumentationGenerator.classes DocumentationGenerator.interfaces
    DocumentationGenerator.enums DocumentationGenerator.emptyAnalysis app].
  repeat split.
  apply (filter_kinds_length DocumentationGenerator.type).
Qed.

(** X11.  In the analysis the documentation generator returns, a record
    that declares a package is filed under that package and under no other
    entry of the dictionary; a record that declares none is filed under no
    entry. *)
Theorem doc_record_in_one_package (rs : list DocumentationGenerator.SourceRecord)
    (a : DocumentationGenerator.Analysis) (r : DocumentationGenerator.SourceRecord) :
  DocumentationGenerator.aggregate rs = Normal a ->
  In r rs ->
  (DocumentationGenerator.package r <> "" ->
   exists p,
     lookup (DocumentationGenerator.package r) (DocumentationGenerator.packages a) = Some p
     /\ In r (DocumentationGenerator.p_classes p))
  /\ (forall k p,
        In (k, p) (DocumentationGenerator.packages a) ->
        In r (DocumentationGenerator.p_classes p) ->
        DocumentationGenerator.package r <> "" /\ k = DocumentationGenerator.package r).
Proof.
  intros Ha Hin. apply doc_aggregate_stored in Ha. subst a.
  destruct (doc_stored_one_package rs r Hin) as [Hmem Huniq].
  split; [| exact Huniq].
  intros Hp. specialize (Hmem Hp). unfold doc_members in Hmem.
  destruct (lookup _ _) as [p |]; [| destruct Hmem].
  exists p. split; [reflexivity | exact Hmem].
Qed.

Lemma doc_record_in_one_package_witness :
  let r := DocumentationGenerator.analyzeJavaFile shapeSource "/p/Shape.java" in
  exists a p,
    DocumentationGenerator.aggregate [r] = Normal a
    /\ lookup "demo" (DocumentationGenerator.packages a) = Some p
    /\ In r (DocumentationGenerator.p_classes p).
Proof.
  intros r.
  assert (Ha : DocumentationGenerator.aggregate [r]
               = Normal (DocumentationGenerator.stored [r])) by (vm_compute; reflexivity).
  assert (Hin : In r [r]) by (left; reflexivity).
  assert (Hp : DocumentationGenerator.package r <> "") by (vm_compute; discriminate).
  destruct (proj1 (doc_record_in_one_package [r] _ r Ha Hin) Hp) as [p [Hl Hr]].
  exists (DocumentationGenerator.stored [r]), p. split; [exact Ha | split; assumption].
Defined.

Section MethodTotals.
Context {V : Type}.
Variable measure : V -> nat.

Lemma total_update (k : string) (f : V -> V) (n : nat) (d : dict V) :
  (forall v, measure (f v) = measure v + n) ->
  sum (map measure (values (update k f d)))
  = sum (map measure (values d)) + match lookup k d with Some _ => n | None => 0 end.
Proof.
  intros Hf. unfold values. induction d as [| [k0 v0] d IH]; simpl; [reflexivity |].
  destruct (String.eqb k k0); cbn [map snd]; rewrite !sum_cons.
  - rewrite Hf. lia.
  - rewrite IH. lia.
Qed.

Lemma total_ensure (k : string) (v0 : V) (d : dict V) :
  measure v0 = 0 ->
  sum (map measure (values (ensure k v0 d))) = sum (map measure (values d)).
Proof.
  intros H0. destruct (lookup k d) eqn:Hl; [unfold ensure; rewrite Hl; reflexivity |].
  destruct (ensure_split k v0 d Hl) as [d1 [d2 [E1 E2]]]. rewrite E2, E1.
  unfold values. rewrite !map_app, !sum_app. cbn [map snd].
  rewrite sum_cons, H0. lia.
Qed.

Lemma lookup_ensure_present (k : string) (v0 : V) (d : dict V) :
  lookup k (ensure k v0 d) <> None.
Proof.
  rewrite lookup_ensure, String.eqb_refl. destruct (lookup k d); discriminate.
Qed.
End MethodTotals.

Lemma doc_fold_totalMethods (rs : list DocumentationGenerator.SourceRecord) : forall a,
  DocumentationGenerator.totalMethods (fold_left DocumentationGenerator.store rs a)
  = DocumentationGenerator.totalMethods a
    + sum (map (fun r => List.length (DocumentationGenerator.methods r))
               (filter (fun r => JS.truthy (DocumentationGenerator.package r)) rs)).
Proof.
  induction rs as [| r rs IH]; intros a; simpl; [unfold sum; simpl; lia |].
  rewrite IH. unfold DocumentationGenerator.totalMethods at 1.
  cbn [DocumentationGenerator.store DocumentationGenerator.packages].
  destruct (JS.truthy (DocumentationGenerator.package r)).
  - rewrite (total_update DocumentationGenerator.p_methods _ _
               (List.length (DocumentationGenerator.methods r))) by reflexivity.
    rewrite total_ensure by reflexivity.
    pose proof (lookup_ensure_present (DocumentationGenerator.package r)
                  (DocumentationGenerator.emptyPackage (DocumentationGenerator.package r))
                  (DocumentationGenerator.packages a)) as Hpresent.
    destruct (lookup _ (ensure _ _ _)); [| contradiction].
    cbn [map]. rewrite sum_cons. unfold DocumentationGenerator.totalMethods. lia.
  - reflexivity.
Qed.

(** X12.  In the analysis the documentation generator returns, the method
    total the overview divides by the number of classes counts the methods
    of every record that declares a package, of any kind, and of no other
    record: the methods of an interface with a package are counted, the
    methods of a class without one are not. *)
Theorem doc_totalMethods_counts_packaged (rs : list DocumentationGenerator.SourceRecord)
    (a : DocumentationGenerator.Analysis) :
  DocumentationGenerator.aggregate rs = Normal a ->
  DocumentationGenerator.totalMethods a
  = sum (map (fun r => List.length (DocumentationGenerator.methods r))
             (filter (fun r => JS.truthy (DocumentationGenerator.package r)) rs)).
Proof.
  intros Ha. apply doc_aggregate_stored in Ha. subst a.
  unfold DocumentationGenerator.stored.
  change (DocumentationGenerator.totalMethods
            (DocumentationGenerator.setTotalFiles (List.length rs)
               (fold_left DocumentationGenerator.store rs
                  DocumentationGenerator.emptyAnalysis)))
    with (DocumentationGenerator.totalMethods
            (fold_left DocumentationGenerator.store rs
               DocumentationGenerator.emptyAnalysis)).
  rewrite doc_fold_totalMethods. reflexivity.
Qed.

Lemma doc_totalMethods_counts_packaged_witness :
  exists a,
    DocumentationGenerator.aggregate
      [DocumentationGenerator.analyzeJavaFile shapeSource "/p/Shape.java";
       DocumentationGenerator.analyzeJavaFile defaultPackageSource "/p/Foo.java"]
    = Normal a
    /\ DocumentationGenerator.totalMethods a
       = List.length
           (DocumentationGenerator.methods
              (DocumentationGenerator.analyzeJavaFile shapeSource "/p/Shape.java")).
Proof.
  exists (DocumentationGenerator.stored
            [DocumentationGenerator.analyzeJavaFile shapeSource "/p/Shape.java";
             DocumentationGenerator.analyzeJavaFile defaultPackageSource "/p/Foo.java"]).
  assert (Ha : DocumentationGenerator.aggregate
                 [DocumentationGenerator.analyzeJavaFile shapeSource "/p/Shape.java";
                  DocumentationGenerator.analyzeJavaFile defaultPackageSource "/p/Foo.java"]
               = Normal (DocumentationGenerator.stored
                   [DocumentationGenerator.analyzeJavaFile shapeSource "/p/Shape.java";
                    DocumentationGenerator.analyzeJavaFile defaultPackageSource
                      "/p/Foo.java"]))
    by (vm_compute; reflexivity).
  split; [exact Ha |].
  rewrite (doc_totalMethods_counts_packaged _ _ Ha). vm_compute. reflexivity.
Defined.

(** ** Code smells and metrics *)

Section SmellFacts.
Import CodeQualityChecker.

Lemma smellsAt_shape (lines : list string) (path : string) (i : nat) (raw : string)
    (s : CodeSmell) :
  In s (smellsAt lines path i raw) ->
  line s = i + 1 /\ file s = path /\ In (type s) smellKinds
  /\ (type s = "Empty Catch Block" -> i + 2 < List.length lines).
Proof.
  unfold smellsAt, longLine, deepNesting, magicNumber, emptyCatch, technicalDebt.
  rewrite !in_app_iff.
  destruct (120 <? String.length (JS.trim raw));
    destruct (24 <? String.length raw - String.length (JS.trimStart raw));
    destruct (JS.test magicNumberRegex (JS.trim raw) && negb (JS.includes (JS.trim raw) "//")
              && negb (JS.includes (JS.trim raw) "import"));
    destruct (JS.includes (JS.trim raw) "catch") eqn:Hc;
    destruct (i + 2 <? List.length lines) eqn:Hb;
    destruct (forallb _ (nextLines lines i));
    destruct (JS.includes (JS.trim raw) "TODO" || JS.includes (JS.trim raw) "FIXME");
    cbn [andb In]; intros H;
    repeat match goal with
           | H : _ \/ _ |- _ => destruct H
           | H : False |- _ => destruct H
           end; subst s; cbn [line file type];
    (split; [reflexivity | split; [reflexivity | split; [unfold smellKinds; simpl; tauto |]]]);
    intros E; try discriminate E; apply Nat.ltb_lt; exact Hb.
Qed.

Lemma detect_in (lines : list string) (path : string) (s : CodeSmell) :
  In s (detectCodeSmells lines path) ->
  exists i raw, nth_error lines i = Some raw /\ In s (smellsAt lines path i raw).
Proof.
  unfold detectCodeSmells. intros H. apply in_flat_map in H.
  destruct H as [[i raw] [Hin Hs]]. exists i, raw. split; [| exact Hs].
  apply in_combine_seq in Hin. rewrite Nat.sub_0_r in Hin. tauto.
Qed.

Lemma sorted_chunks (f : nat * string -> list CodeSmell) (l : list string) :
  (forall i raw s, In s (f (i, raw)) -> line s = i + 1) ->
  forall k,
    StronglySorted le (map line (flat_map f (combine (seq k (List.length l)) l)))
    /\ Forall (fun n => k + 1 <= n)
              (map line (flat_map f (combine (seq k (List.length l)) l))).
Proof.
  intros Hf. induction l as [| raw l IH]; intros k; simpl.
  - split; constructor.
  - destruct (IH (S k)) as [Hs Hall]. rewrite map_app.
    assert (Hchunk : Forall (fun n => n = k + 1) (map line (f (k, raw)))).
    { apply Forall_forall. intros n Hn. apply in_map_iff in Hn.
      destruct Hn as [s [<- Hin]]. exact (Hf _ _ _ Hin). }
    split.
    + induction (map line (f (k, raw))) as [| n ns IHns]; simpl; [exact Hs |].
      inversion Hchunk; subst. constructor; [apply IHns; assumption |].
      apply Forall_app. split.
      * apply Forall_impl with (2 := H2). intros; lia.
      * apply Forall_impl with (2 := Hall). intros; lia.
    + apply Forall_app. split.
      * apply Forall_impl with (2 := Hchunk). intros; lia.
      * apply Forall_impl with (2 := Hall). intros; lia.
Qed.
End SmellFacts.

(** X13.  Every smell the detector reports carries the path it was given,
    one of the five kinds, and a line number between 1 and the number of
    lines of the file. *)
Theorem detectCodeSmells_well_formed (lines : list string) (path : string)
    (s : CodeQualityChecker.CodeSmell) :
  In s (CodeQualityChecker.detectCodeSmells lines path) ->
  1 <= CodeQualityChecker.line s <= List.length lines
  /\ CodeQualityChecker.file s = path
  /\ In (CodeQualityChecker.type s) smellKinds.
Proof.
  intros H. destruct (detect_in _ _ _ H) as [i [raw [Hnth Hs]]].
  destruct (smellsAt_shape _ _ _ _ _ Hs) as [Hl [Hf [Hk _]]].
  assert (i < List.length lines) by (apply nth_error_Some; congruence).
  repeat split; try assumption; lia.
Qed.

Lemma detectCodeSmells_well_formed_witness :
  1 <= 1 <= 1 /\ "A.java" = "A.java" /\ In "Long Line" smellKinds.
Proof.
  apply (detectCodeSmells_well_formed [solidLine] "A.java" (longLineSmell solidLine 0 "A.java")).
  vm_compute. left. reflexivity.
Defined.

(** X14.  The smells of a file are reported in the order of its lines: the
    line numbers of the list never decrease. *)
Theorem detectCodeSmells_in_line_order (lines : list string) (path : string) :
  StronglySorted le
    (map CodeQualityChecker.line (CodeQualityChecker.detectCodeSmells lines path)).
Proof.
  unfold CodeQualityChecker.detectCodeSmells.
  apply (sorted_chunks
           (fun ir => CodeQualityChecker.smellsAt lines path (fst ir) (snd ir)) lines).
  intros i raw s Hin. exact (proj1 (smellsAt_shape _ _ _ _ _ Hin)).
Qed.

(** X15.  An empty catch block is reported only where at least two lines
    follow the catch line: a catch on one of the last two lines of a file
    is never reported, whatever follows it. *)
Theorem emptyCatch_needs_two_lines (lines : list string) (path : string)
    (s : CodeQualityChecker.CodeSmell) :
  In s (CodeQualityChecker.detectCodeSmells lines path) ->
  CodeQualityChecker.type s = "Empty Catch Block" ->
  CodeQualityChecker.line s + 2 <= List.length lines.
Proof.
  intros H Ht. destruct (detect_in _ _ _ H) as [i [raw [_ Hs]]].
  destruct (smellsAt_shape _ _ _ _ _ Hs) as [Hl [_ [_ Hb]]].
  specialize (Hb Ht). lia.
Qed.

Lemma emptyCatch_needs_two_lines_witness :
  let lines := ["try {"; "} catch (Exception e) {"; "}"; ""] in
  CodeQualityChecker.detectCodeSmells lines "A.java"
  = [{| CodeQualityChecker.type := "Empty Catch Block";
        CodeQualityChecker.description := "Empty catch block detected";
        CodeQualityChecker.line := 2; CodeQualityChecker.file := "A.java" |}]
  /\ 2 + 2 <= List.length lines
  /\ CodeQualityChecker.detectCodeSmells ["try {"; "} catch (Exception e) {"; "}"] "A.java"
     = [].
Proof.
  intros lines. split; [reflexivity | split; [| reflexivity]].
  apply (emptyCatch_needs_two_lines lines "A.java"
           {| CodeQualityChecker.type := "Empty Catch Block";
              CodeQualityChecker.description := "Empty catch block detected";
              CodeQualityChecker.line := 2; CodeQualityChecker.file := "A.java" |}).
  - vm_compute. left. reflexivity.
  - reflexivity.
Defined.

Section MetricFacts.
Import CodeQualityChecker.

Lemma countLine_counts (c : Counters) (raw : string) :
  c_linesOfCode (countLine c raw) = c_linesOfCode c + bump (isCodeLine raw)
  /\ c_commentLines (countLine c raw)
     = c_commentLines c + bump (nonBlank raw && isCommentLine (JS.trim raw))
  /\ c_methodCount (countLine c raw) <= c_methodCount c + bump (isCodeLine raw)
  /\ c_classCount (countLine c raw) <= c_classCount c + bump (isCodeLine raw)
  /\ (c_totalMethodLength c + c_currentMethodLines c <= c_linesOfCode c ->
      c_totalMethodLength (countLine c raw) + c_currentMethodLines (countLine c raw)
      <= c_linesOfCode (countLine c raw)).
Proof.
  unfold countLine, isCodeLine, nonBlank, countCode.
  destruct (String.eqb (JS.trim raw) ""); cbn [negb andb bump].
  - repeat split; lia.
  - destruct (isCommentLine (JS.trim raw)); cbn [negb bump].
    + cbn. repeat split; lia.
    + destruct (JS.includes (JS.trim raw) "class " && negb (JS.includes (JS.trim raw) "interface"));
        destruct (JS.includes (JS.trim raw) "(" && JS.includes (JS.trim raw) ")"
                  && hasVisibility (JS.trim raw));
        destruct (c_inMethod c); destruct (0 <? c_currentMethodLines c);
        cbn; repeat split; lia.
Qed.

Lemma fold_countLine (lines : list string) : forall c,
  let c' := fold_left countLine lines c in
  c_linesOfCode c' = c_linesOfCode c + List.length (filter isCodeLine lines)
  /\ c_commentLines c'
     = c_commentLines c
       + List.length (filter (fun raw => nonBlank raw && isCommentLine (JS.trim raw)) lines)
  /\ c_methodCount c' <= c_methodCount c + List.length (filter isCodeLine lines)
  /\ c_classCount c' <= c_classCount c + List.length (filter isCodeLine lines)
  /\ (c_totalMethodLength c + c_currentMethodLines c <= c_linesOfCode c ->
      c_totalMethodLength c' + c_currentMethodLines c' <= c_linesOfCode c').
Proof.
  induction lines as [| raw lines IH]; intros c; cbn [fold_left filter].
  - cbn. repeat split; lia.
  - destruct (IH (countLine c raw)) as [H1 [H2 [H3 [H4 H5]]]].
    destruct (countLine_counts c raw) as [G1 [G2 [G3 [G4 G5]]]].
    cbv zeta. rewrite H1, H2, G1, G2.
    destruct (isCodeLine raw);
      destruct (nonBlank raw && isCommentLine (JS.trim raw));
      cbn [bump List.length] in *; repeat split; try lia.
    all: intros Hc; specialize (G5 Hc); specialize (H5 G5); lia.
Qed.

Lemma filter_split_length (lines : list string) :
  List.length (filter isCodeLine lines)
  + List.length (filter (fun raw => nonBlank raw && isCommentLine (JS.trim raw)) lines)
  = List.length (filter nonBlank lines).
Proof.
  induction lines as [| raw lines IH]; [reflexivity |]. cbn [filter].
  unfold isCodeLine at 1.
  destruct (nonBlank raw); destruct (isCommentLine (JS.trim raw));
    cbn [negb andb List.length]; lia.
Qed.
End MetricFacts.

(** X16.  The metrics of a file count every line that is not blank exactly
    once, as a comment line or as a line of code; methods and classes are
    counted on lines of code only, at most one per line; and the method
    lengths that are summed never exceed the lines of code. *)
Theorem calculateMetrics_counts (lines : list string) :
  let m := CodeQualityChecker.calculateMetrics lines in
  CodeQualityChecker.linesOfCode m = List.length (filter isCodeLine lines)
  /\ CodeQualityChecker.linesOfCode m + CodeQualityChecker.commentLines m
     = List.length (filter nonBlank lines)
  /\ CodeQualityChecker.methodCount m <= CodeQualityChecker.linesOfCode m
  /\ CodeQualityChecker.classCount m <= CodeQualityChecker.linesOfCode m
  /\ CodeQualityChecker.finalMethodLength
       (fold_left CodeQualityChecker.countLine lines CodeQualityChecker.zeroCounters)
     <= CodeQualityChecker.linesOfCode m.
Proof.
  destruct (fold_countLine lines CodeQualityChecker.zeroCounters) as [H1 [H2 [H3 [H4 H5]]]].
  cbv zeta in *. unfold CodeQualityChecker.calculateMetrics.
  cbn [CodeQualityChecker.linesOfCode CodeQualityChecker.commentLines
       CodeQualityChecker.methodCount CodeQualityChecker.classCount].
  cbn [CodeQualityChecker.zeroCounters CodeQualityChecker.c_linesOfCode
       CodeQualityChecker.c_commentLines CodeQualityChecker.c_methodCount
       CodeQualityChecker.c_classCount CodeQualityChecker.c_totalMethodLength
       CodeQualityChecker.c_currentMethodLines] in H1, H2, H3, H4, H5.
  pose proof (filter_split_length lines) as Hs.
  repeat split; try lia.
  unfold CodeQualityChecker.finalMethodLength.
  specialize (H5 (Nat.le_refl 0)).
  destruct (_ && _); lia.
Qed.


(** X17.  A file without a line of code has a comment ratio of 0 and an
    average method length of 0, however many comment lines it has: the
    ratio is only computed when there is code. *)
Theorem calculateMetrics_without_code (lines : list string) :
  Forall (fun raw => isCodeLine raw = false) lines ->
  let m := CodeQualityChecker.calculateMetrics lines in
  CodeQualityChecker.linesOfCode m = 0
  /\ CodeQualityChecker.methodCount m = 0
  /\ CodeQualityChecker.commentRatio m = Number.ofNat 0
  /\ CodeQualityChecker.avgMethodLength m = Number.ofNat 0.
Proof.
  intros Hall m.
  destruct (fold_countLine lines CodeQualityChecker.zeroCounters) as [H1 [_ [H3 _]]].
  cbv zeta in H1, H3.
  cbn [CodeQualityChecker.zeroCounters CodeQualityChecker.c_linesOfCode
       CodeQualityChecker.c_methodCount] in H1, H3.
  assert (H0 : List.length (filter isCodeLine lines) = 0).
  { clear H1 H3 m. induction Hall as [| raw l Hr _ IH]; [reflexivity |].
    cbn [filter]. rewrite Hr. exact IH. }
  rewrite H0 in H1, H3.
  assert (Hm : CodeQualityChecker.c_methodCount
                 (fold_left CodeQualityChecker.countLine lines
                    CodeQualityChecker.zeroCounters) = 0) by lia.
  unfold m, CodeQualityChecker.calculateMetrics.
  cbn [CodeQualityChecker.linesOfCode CodeQualityChecker.methodCount
       CodeQualityChecker.commentRatio CodeQualityChecker.avgMethodLength].
  rewrite H1, Hm. repeat split.
Qed.

Lemma calculateMetrics_without_code_witness :
  let m := CodeQualityChecker.calculateMetrics ["/**"; " * Only a comment."; " */"; ""] in
  CodeQualityChecker.commentLines m = 3
  /\ CodeQualityChecker.commentRatio m = Number.ofNat 0.
Proof.
  intros m. split; [reflexivity |].
  assert (H : Forall (fun raw => isCodeLine raw = false)
                     ["/**"; " * Only a comment."; " */"; ""])
    by (repeat constructor).
  exact (proj1 (proj2 (proj2 (calculateMetrics_without_code _ H)))).
Defined.

Section SuggestionFacts.
Import CodeQualityChecker.

Lemma hasSmell_longLine (lines : list string) (path : string) :
  hasSmell (detectCodeSmells lines path) "Long Line" = true
  <-> exists i raw, nth_error lines i = Some raw /\ 120 < String.length (JS.trim raw).
Proof.
  unfold hasSmell. rewrite existsb_exists. split.
  - intros [s [Hin Ht]].
    assert (Hf : In s (filter isLongLine (detectCodeSmells lines path)))
      by (apply filter_In; split; assumption).
    rewrite long_lines_of_file in Hf. apply in_flat_map in Hf.
    destruct Hf as [[i raw] [Hir Hs]]. exists i, raw.
    apply in_combine_seq in Hir. rewrite Nat.sub_0_r in Hir. split; [tauto |].
    cbn [fst snd] in Hs. unfold longLine in Hs.
    destruct (120 <? String.length (JS.trim raw)) eqn:E; [| destruct Hs].
    apply Nat.ltb_lt. exact E.
  - intros [i [raw [Hnth Hlen]]].
    exists (longLineSmell raw i path). split; [| reflexivity].
    assert (Hf : In (longLineSmell raw i path)
                    (filter isLongLine (detectCodeSmells lines path))).
    { rewrite long_lines_of_file. apply in_flat_map. exists (i, raw). split.
      - apply in_combine_seq. rewrite Nat.sub_0_r. split; [lia | exact Hnth].
      - cbn [fst snd]. unfold longLine. apply Nat.ltb_lt in Hlen. rewrite Hlen.
        left. reflexivity. }
    apply filter_In in Hf. tauto.
Qed.

Lemma In_when (c : bool) (x y : string) :
  In x (if c then [y] else []) <-> c = true /\ y = x.
Proof. destruct c; simpl; intuition discriminate. Qed.

Lemma suggestion_longLine (m : Metrics) (smells : list CodeSmell) :
  In "Break long lines to improve readability" (generateSuggestions m smells)
  <-> hasSmell smells "Long Line" = true.
Proof.
  unfold generateSuggestions. rewrite !in_app_iff, !In_when.
  intuition discriminate.
Qed.
End SuggestionFacts.

(** X18.  The analysis of a file suggests breaking long lines exactly when
    some line of the file, once trimmed, is longer than 120 code units. *)
Theorem performCodeAnalysis_suggests_breaking_lines (content path : string) :
  In "Break long lines to improve readability"
     (CodeQualityChecker.suggestions (CodeQualityChecker.performCodeAnalysis content path))
  <-> exists i raw,
        nth_error (JS.split_lines content) i = Some raw
        /\ 120 < String.length (JS.trim raw).
Proof.
  unfold CodeQualityChecker.performCodeAnalysis.
  cbn [CodeQualityChecker.suggestions].
  rewrite suggestion_longLine. apply hasSmell_longLine.
Qed.

(** ** Dependencies *)

Section DependencyFacts.
Import DependencyAnalyzer.

Lemma outcome_bind {A B : Type} (m : Effect A) (f : A -> Effect B) :
  outcome (bind m f)
  = match outcome m with
    | Normal a => outcome (f a)
    | Throw e => Throw e
    end.
Proof.
  destruct m as [t [a | e]]; simpl; [| reflexivity].
  destruct (f a); reflexivity.
Qed.

Lemma renderDependency_outcome (props : dict string) (dep : Dependency) :
  if hasCoordinates dep
  then exists text, outcome (renderDependency props dep) = Normal text
  else outcome (renderDependency props dep) = Throw missingMember.
Proof.
  unfold hasCoordinates, renderDependency.
  destruct (groupId dep) as [g |]; [| reflexivity].
  destruct (artifactId dep) as [a |]; [| reflexivity].
  eexists. reflexivity.
Qed.

Lemma renderAll_outcome {A : Type} (f : A -> Effect string) (ok : A -> bool)
    (e : string) (l : list A) :
  (forall x, In x l ->
     if ok x then exists text, outcome (f x) = Normal text
     else outcome (f x) = Throw e) ->
  if forallb ok l then exists text, outcome (renderAll f l) = Normal text
  else outcome (renderAll f l) = Throw e.
Proof.
  induction l as [| x l IH]; intros H; cbn [renderAll forallb].
  - eexists. reflexivity.
  - rewrite outcome_bind.
    pose proof (H x (or_introl eq_refl)) as Hx.
    assert (Hl := IH (fun y Hy => H y (or_intror Hy))).
    destruct (ok x); cbn [andb].
    + destruct Hx as [tx Hx]. rewrite Hx, outcome_bind.
      destruct (forallb ok l).
      * destruct Hl as [tl Hl]. rewrite Hl. eexists. reflexivity.
      * rewrite Hl. reflexivity.
    + rewrite Hx. reflexivity.
Qed.

Lemma addToScope_unfold (scopes : dict (list Dependency)) (dep : Dependency) :
  addToScope scopes dep
  = update (scopeOf dep) (fun l => (l ++ [dep])%list) (ensure (scopeOf dep) [] scopes).
Proof. reflexivity. Qed.

Lemma groupOf_step (sc : string) (scopes : dict (list Dependency)) (dep : Dependency) :
  groupOf sc (addToScope scopes dep)
  = (groupOf sc scopes ++ (if String.eqb (scopeOf dep) sc then [dep] else []))%list.
Proof.
  rewrite addToScope_unfold. unfold groupOf. rewrite lookup_update, lookup_ensure.
  rewrite (String.eqb_sym (scopeOf dep) sc).
  destruct (String.eqb sc (scopeOf dep)).
  - destruct (lookup sc scopes); reflexivity.
  - destruct (lookup sc scopes); simpl; now rewrite ?app_nil_r.
Qed.

Lemma groupOf_fold (sc : string) (deps : list Dependency) : forall scopes,
  groupOf sc (fold_left addToScope deps scopes)
  = (groupOf sc scopes ++ filter (fun dep => String.eqb (scopeOf dep) sc) deps)%list.
Proof.
  induction deps as [| dep deps IH]; intros scopes; cbn [fold_left filter].
  - now rewrite app_nil_r.
  - rewrite IH, groupOf_step, <- app_assoc.
    destruct (String.eqb (scopeOf dep) sc); reflexivity.
Qed.

Lemma groups_fold_NoDup (deps : list Dependency) : forall scopes,
  NoDup (keys scopes) -> NoDup (keys (fold_left addToScope deps scopes)).
Proof.
  induction deps as [| dep deps IH]; intros scopes Hnd; cbn [fold_left]; [exact Hnd |].
  apply IH. rewrite addToScope_unfold, keys_update. apply keys_ensure_NoDup. exact Hnd.
Qed.

Lemma groups_total (deps : list Dependency) : forall scopes,
  sum (map (@List.length Dependency) (values (fold_left addToScope deps scopes)))
  = sum (map (@List.length Dependency) (values scopes)) + List.length deps.
Proof.
  induction deps as [| dep deps IH]; intros scopes; cbn [fold_left List.length]; [lia |].
  rewrite IH, addToScope_unfold.
  rewrite (total_update (@List.length Dependency) _ _ 1)
    by (intros v; rewrite length_app; reflexivity).
  rewrite total_ensure by reflexivity.
  pose proof (lookup_ensure_present (scopeOf dep) [] scopes) as Hp.
  destruct (lookup _ (ensure _ _ _)); [lia | contradiction].
Qed.

Lemma groups_nonempty (deps : list Dependency) : forall scopes,
  Forall (fun entry : string * list Dependency => snd entry <> []) scopes ->
  Forall (fun entry : string * list Dependency => snd entry <> [])
         (fold_left addToScope deps scopes).
Proof.
  induction deps as [| dep deps IH]; intros scopes Hs; cbn [fold_left]; [exact Hs |].
  apply IH. rewrite addToScope_unfold.
  apply Forall_update_ensure; [exact Hs | |]; cbn [snd].
  - intros v _ E. apply app_eq_nil in E. destruct E as [_ E]. discriminate E.
  - discriminate.
Qed.

Lemma grouped_groups (deps : list Dependency) (sc : string) (l : list Dependency) :
  In (sc, l) (grouped deps) ->
  l = filter (fun dep => String.eqb (scopeOf dep) sc) deps.
Proof.
  intros Hin.
  assert (Hnd : NoDup (keys (grouped deps)))
    by (apply (groups_fold_NoDup deps []); constructor).
  pose proof (in_dict_lookup sc l _ Hnd Hin) as Hl.
  pose proof (groupOf_fold sc deps []) as Hg.
  unfold groupOf in Hg at 1. fold (grouped deps) in Hg.
  rewrite Hl in Hg. exact Hg.
Qed.

(** Grouping stops at the first dependency whose scope is the name of an
    inherited member, and groups all dependencies when there is none. *)
Lemma groupFrom_outcome (deps : list Dependency) : forall scopes,
  Forall (fun key => inherits key = false) (keys scopes) ->
  groupFrom scopes deps
  = if existsb (fun dep => inherits (scopeOf dep)) deps
    then Throw pushNotFunction
    else Normal (fold_left addToScope deps scopes).
Proof.
  induction deps as [| dep deps IH]; intros scopes Hs; [reflexivity |].
  cbn [groupFrom existsb fold_left]. unfold groupDependency.
  fold (scopeOf dep). rewrite (inherited_own _ _ Hs).
  destruct (inherits (scopeOf dep)) eqn:Hi; [reflexivity |].
  cbn [orb]. apply IH. rewrite addToScope_unfold, keys_update.
  apply keys_ensure_own; assumption.
Qed.

Lemma groupByScope_outcome (deps : list Dependency) :
  groupByScope deps
  = if existsb (fun dep => inherits (scopeOf dep)) deps
    then Throw pushNotFunction
    else Normal (grouped deps).
Proof. apply groupFrom_outcome. constructor. Qed.
End DependencyFacts.

Lemma forallb_groups (deps : list DependencyAnalyzer.Dependency) :
  forallb (fun entry => forallb hasCoordinates (snd entry))
          (DependencyAnalyzer.grouped deps)
  = forallb hasCoordinates deps.
Proof.
  destruct (forallb hasCoordinates deps) eqn:Hd.
  - apply forallb_forall. intros [sc l] Hin. cbn [snd].
    rewrite (grouped_groups _ _ _ Hin).
    apply forallb_forall. intros dep Hdep. apply filter_In in Hdep.
    rewrite forallb_forall in Hd. apply Hd. tauto.
  - apply not_true_is_false. intros Hall. rewrite forallb_forall in Hall.
    assert (Hex : exists dep, In dep deps /\ hasCoordinates dep = false).
    { clear Hall. induction deps as [| d ds IH]; [discriminate |].
      cbn [forallb] in Hd. destruct (hasCoordinates d) eqn:E.
      - destruct (IH Hd) as [x [Hx Hc]]. exists x. split; [right; exact Hx | exact Hc].
      - exists d. split; [left; reflexivity | exact E]. }
    destruct Hex as [dep [Hin Hc]].
    pose proof (groupOf_fold (scopeOf dep) deps []) as Hg.
    fold (DependencyAnalyzer.grouped deps) in Hg.
    unfold groupOf in Hg at 1. cbn [groupOf lookup app] in Hg.
    destruct (lookup (scopeOf dep) (DependencyAnalyzer.grouped deps)) as [l |] eqn:Hl.
    + pose proof (lookup_In _ _ _ Hl) as Hentry.
      specialize (Hall _ Hentry). cbn [snd] in Hall. rewrite forallb_forall in Hall.
      assert (Hdl : In dep l).
      { rewrite Hg. apply filter_In. split; [exact Hin | apply String.eqb_refl]. }
      rewrite (Hall dep Hdl) in Hc. discriminate.
    + assert (Hdl : In dep []).
      { rewrite Hg. apply filter_In. split; [exact Hin | apply String.eqb_refl]. }
      destruct Hdl.
Qed.

(** Rendering the groups returns a text when every dependency has both
    coordinates and throws otherwise. *)
Lemma rendering_outcome (deps : list DependencyAnalyzer.Dependency)
    (props : dict string) :
  if forallb hasCoordinates deps
  then exists text,
         outcome (DependencyAnalyzer.renderAll (DependencyAnalyzer.renderScope props)
                    (DependencyAnalyzer.grouped deps)) = Normal text
  else outcome (DependencyAnalyzer.renderAll (DependencyAnalyzer.renderScope props)
                  (DependencyAnalyzer.grouped deps)) = Throw missingMember.
Proof.
  pose proof (renderAll_outcome (DependencyAnalyzer.renderScope props)
                (fun entry => forallb hasCoordinates (snd entry)) missingMember
                (DependencyAnalyzer.grouped deps)) as H.
  rewrite forallb_groups in H. apply H.
  intros [sc l] _. cbn [snd]. unfold DependencyAnalyzer.renderScope.
  rewrite outcome_bind.
  pose proof (renderAll_outcome (DependencyAnalyzer.renderDependency props)
                hasCoordinates missingMember l
                (fun x _ => renderDependency_outcome props x)) as Hl.
  destruct (forallb hasCoordinates l).
  - destruct Hl as [t Hl]. rewrite Hl. eexists. reflexivity.
  - rewrite Hl. reflexivity.
Qed.

(** X19.  The Maven report is produced when no dependency has a scope
    named like a member every object inherits and every dependency has a
    group and an artifact.  Otherwise no report at all is returned: the
    grouping throws at such a scope, and failing that the rendering throws
    at the first dependency that lacks a coordinate. *)
Theorem generateMavenAnalysis_outcome (deps : list DependencyAnalyzer.Dependency)
    (props : dict string) :
  if existsb (fun dep => inherits (scopeOf dep)) deps
  then outcome (DependencyAnalyzer.generateMavenAnalysis deps props)
       = Throw DependencyAnalyzer.pushNotFunction
  else if forallb hasCoordinates deps
  then exists report,
         outcome (DependencyAnalyzer.generateMavenAnalysis deps props) = Normal report
  else outcome (DependencyAnalyzer.generateMavenAnalysis deps props)
       = Throw missingMember.
Proof.
  unfold DependencyAnalyzer.generateMavenAnalysis.
  destruct deps as [| d ds]; [eexists; reflexivity |].
  cbn [List.length Nat.eqb]. rewrite outcome_bind. cbn [outcome snd].
  rewrite groupByScope_outcome.
  destruct (existsb (fun dep => inherits (scopeOf dep)) (d :: ds)); [reflexivity |].
  rewrite outcome_bind.
  pose proof (rendering_outcome (d :: ds) props) as H.
  destruct (forallb hasCoordinates (d :: ds)).
  - destruct H as [t H]. rewrite H. eexists. reflexivity.
  - rewrite H. reflexivity.
Qed.

(** X20.  Grouping by scope stops, with nothing grouped, when a dependency
    has a scope named like a member every object inherits.  Otherwise it
    loses and duplicates no dependency: each scope appears once, holds
    exactly the dependencies of that scope (compile when the dependency
    names none) in input order, and the sizes of the groups add up to the
    number of dependencies. *)
Theorem groupByScope_partition (deps : list DependencyAnalyzer.Dependency) :
  if existsb (fun dep => inherits (scopeOf dep)) deps
  then DependencyAnalyzer.groupByScope deps = Throw DependencyAnalyzer.pushNotFunction
  else exists groups,
         DependencyAnalyzer.groupByScope deps = Normal groups
         /\ NoDup (keys groups)
         /\ (forall sc l,
               In (sc, l) groups ->
               l = filter (fun dep => String.eqb (scopeOf dep) sc) deps /\ l <> [])
         /\ sum (map (@List.length DependencyAnalyzer.Dependency) (values groups))
            = List.length deps.
Proof.
  rewrite groupByScope_outcome.
  destruct (existsb (fun dep => inherits (scopeOf dep)) deps); [reflexivity |].
  exists (DependencyAnalyzer.grouped deps). split; [reflexivity |].
  split; [apply (groups_fold_NoDup deps []); constructor | split].
  - intros sc l Hin. split; [exact (grouped_groups _ _ _ Hin) |].
    pose proof (groups_nonempty deps [] (Forall_nil _)) as G.
    rewrite Forall_forall in G. exact (G _ Hin).
  - exact (groups_total deps []).
Qed.

(** X21.  The dynamic-version flag never comes with another flag: a version
    of LATEST or RELEASE is neither a property reference nor a snapshot. *)
Theorem dynamicVersion_alone (groupId artifactId version : string)
    (props : dict string) :
  In DependencyAnalyzer.dynamicVersion
     (DependencyAnalyzer.checkDependencyIssues groupId artifactId version props) ->
  DependencyAnalyzer.checkDependencyIssues groupId artifactId version props
  = [DependencyAnalyzer.dynamicVersion].
Proof.
  unfold DependencyAnalyzer.checkDependencyIssues.
  destruct (String.eqb version "LATEST" || String.eqb version "RELEASE") eqn:Hd.
  - intros _. apply eqb_either in Hd.
    destruct Hd as [-> | ->].
    + change (JS.startsWith "LATEST" "${") with false.
      change (JS.includes "LATEST" "SNAPSHOT") with false.
      rewrite andb_false_r. reflexivity.
    + change (JS.startsWith "RELEASE" "${") with false.
      change (JS.includes "RELEASE" "SNAPSHOT") with false.
      rewrite andb_false_r. reflexivity.
  - rewrite !in_app_iff.
    destruct (JS.startsWith version "${");
      destruct (String.eqb groupId "org.springframework" && JS.includes version "SNAPSHOT");
      unfold DependencyAnalyzer.propertyReference, DependencyAnalyzer.dynamicVersion,
        DependencyAnalyzer.snapshotVersion; simpl;
      intuition discriminate.
Qed.

Lemma dynamicVersion_alone_witness :
  DependencyAnalyzer.checkDependencyIssues "org.springframework" "core" "LATEST" []
  = [DependencyAnalyzer.dynamicVersion].
Proof.
  apply dynamicVersion_alone. vm_compute. left. reflexivity.
Defined.

Section DependencyReads.
Import DependencyAnalyzer.

Lemma renderAll_reads {A : Type} (f : A -> Effect string) (l : list A) :
  (forall x, reads (f x) = []) -> reads (renderAll f l) = [].
Proof.
  intros Hf. induction l as [| x l IH]; [reflexivity |].
  cbn [renderAll]. specialize (Hf x).
  destruct (f x) as [t [a | e]]; cbn [reads fst] in Hf; subst t; [| reflexivity].
  cbn [bind]. destruct (renderAll f l) as [t' [b | e]]; cbn [reads fst] in IH; subst t';
    reflexivity.
Qed.

Lemma generateMavenAnalysis_reads (deps : list Dependency) (props : dict string) :
  reads (generateMavenAnalysis deps props) = [].
Proof.
  unfold generateMavenAnalysis. destruct (List.length deps =? 0); [reflexivity |].
  destruct (groupByScope deps) as [groups | e]; [| reflexivity].
  cbn [bind].
  assert (H : reads (renderAll (renderScope props) groups) = []).
  { apply renderAll_reads. intros [sc l]. unfold renderScope.
    assert (Hl : reads (renderAll (renderDependency props) l) = []).
    { apply renderAll_reads. intros dep. unfold renderDependency.
      destruct (groupId dep); [| reflexivity]. destruct (artifactId dep); reflexivity. }
    destruct (renderAll (renderDependency props) l) as [t [b | e]];
      cbn [reads fst] in Hl; subst t; reflexivity. }
  destruct (renderAll (renderScope props) groups) as [t [b | e]];
    cbn [reads fst] in H; subst t; reflexivity.
Qed.
End DependencyReads.

Lemma reads_bind {A B : Type} (m : Effect A) (f : A -> Effect B) :
  reads (bind m f)
  = (reads m ++ match outcome m with
                | Normal a => reads (f a)
                | Throw _ => []
                end)%list.
Proof.
  destruct m as [t [a | e]]; cbn [bind reads outcome fst snd].
  - destruct (f a); reflexivity.
  - now rewrite app_nil_r.
Qed.

Lemma reads_tryCatch_ret (m : Effect string) (h : string -> string) :
  reads (tryCatch m (fun e => ret (h e))) = reads m.
Proof.
  destruct m as [t [a | e]]; cbn [tryCatch reads fst ret]; [reflexivity |].
  apply app_nil_r.
Qed.

Lemma analyzeMavenDependencies_reads (w : World)
    (parsePom : string -> Completion DependencyAnalyzer.Pom) (pomPath : string) :
  reads (DependencyAnalyzer.analyzeMavenDependencies w parsePom pomPath) = [pomPath].
Proof.
  unfold DependencyAnalyzer.analyzeMavenDependencies. rewrite reads_bind.
  unfold readFile. cbn [reads outcome fst snd].
  destruct (readFileSync w pomPath) as [pc | e]; [| reflexivity].
  rewrite reads_bind. cbn [reads outcome fst snd].
  destruct (parsePom pc) as [pom | e]; [| reflexivity].
  rewrite generateMavenAnalysis_reads. reflexivity.
Qed.

Lemma analyzeGradleDependencies_reads (w : World) (path : string) :
  reads (DependencyAnalyzer.analyzeGradleDependencies w path) = [path].
Proof.
  unfold DependencyAnalyzer.analyzeGradleDependencies. rewrite reads_bind.
  unfold readFile. cbn [reads outcome fst snd].
  destruct (readFileSync w path); reflexivity.
Qed.

(** X22.  The dependency analyzer reads no file but the two manifests, and
    each only when it exists; when neither exists it reads nothing and
    answers that no manifest was found. *)
Theorem analyze_dependencies_reads (w : World)
    (parsePom : string -> Completion DependencyAnalyzer.Pom) (projectPath : string) :
  (forall path,
     In path (reads (DependencyAnalyzer.execute w parsePom
                       (Some {| DependencyAnalyzer.projectPath := projectPath |}))) ->
     (path = pathJoin projectPath "pom.xml"
      /\ existsSync w (pathJoin projectPath "pom.xml") = true)
     \/ (path = pathJoin projectPath "build.gradle"
         /\ existsSync w (pathJoin projectPath "build.gradle") = true))
  /\ (existsSync w (pathJoin projectPath "pom.xml") = false ->
      existsSync w (pathJoin projectPath "build.gradle") = false ->
      DependencyAnalyzer.execute w parsePom
        (Some {| DependencyAnalyzer.projectPath := projectPath |})
      = ([], Normal DependencyAnalyzer.noBuildFiles)).
Proof.
  split.
  - intros path. unfold DependencyAnalyzer.execute, destructure.
    cbn [DependencyAnalyzer.projectPath]. rewrite reads_tryCatch_ret.
    unfold DependencyAnalyzer.tryBlock. rewrite reads_bind.
    rewrite in_app_iff. intros [Hin | Hin].
    + left. destruct (existsSync w (pathJoin projectPath "pom.xml")); [| destruct Hin].
      rewrite reads_bind, analyzeMavenDependencies_reads in Hin.
      apply in_app_iff in Hin. destruct Hin as [[<- | []] | Hin]; [split; reflexivity |].
      destruct (outcome _); destruct Hin.
    + right. destruct (outcome _) as [maven | e]; [| destruct Hin].
      rewrite reads_bind in Hin. apply in_app_iff in Hin. destruct Hin as [Hin | Hin].
      * destruct (existsSync w (pathJoin projectPath "build.gradle")); [| destruct Hin].
        rewrite reads_bind, analyzeGradleDependencies_reads in Hin.
        apply in_app_iff in Hin. destruct Hin as [[<- | []] | Hin]; [split; reflexivity |].
        destruct (outcome _); destruct Hin.
      * destruct (outcome _) as [gradle | e]; [| destruct Hin].
        destruct (List.length (maven ++ gradle) =? 0); destruct Hin.
  - intros Hp Hg.
    unfold DependencyAnalyzer.execute, destructure, DependencyAnalyzer.tryBlock.
    cbn [DependencyAnalyzer.projectPath].
    rewrite Hp, Hg. reflexivity.
Qed.

Lemma analyze_dependencies_reads_witness :
  DependencyAnalyzer.execute shapeProject brokenPom
    (Some {| DependencyAnalyzer.projectPath := "/p" |})
  = ([], Normal DependencyAnalyzer.noBuildFiles).
Proof.
  apply (proj2 (analyze_dependencies_reads shapeProject brokenPom "/p")); reflexivity.
Defined.

Section ReadingAll.
Variable w : World.

Lemma sortByTests_readable (files : list string) : forall wt wo,
  Forall (readable w) files ->
  exists wt' wo',
    TestGenerator.sortByTests w files wt wo
    = (files, Normal ((wt ++ wt')%list, (wo ++ wo')%list))
    /\ List.length wt' + List.length wo' = List.length files.
Proof.
  induction files as [| f files IH]; intros wt wo Hall; cbn [TestGenerator.sortByTests].
  - exists [], []. rewrite !app_nil_r. split; reflexivity.
  - inversion Hall as [| ? ? [content Hf] Hrest]; subst.
    unfold readFile. rewrite Hf. cbn [bind].
    destruct (existsSync w (TestGenerator.getTestFilePath f)).
    + destruct (IH (wt ++ [TestGenerator.className (TestGenerator.analyzeJavaClass content)])%list
                  wo Hrest) as [wt' [wo' [E Hlen]]].
      rewrite E. exists (TestGenerator.className (TestGenerator.analyzeJavaClass content) :: wt'), wo'.
      rewrite <- app_assoc. split; [reflexivity | simpl; lia].
    + destruct (IH wt (wo ++ [TestGenerator.className (TestGenerator.analyzeJavaClass content)])%list
                  Hrest) as [wt' [wo' [E Hlen]]].
      rewrite E. exists wt', (TestGenerator.className (TestGenerator.analyzeJavaClass content) :: wo').
      rewrite <- app_assoc. split; [reflexivity | simpl; lia].
Qed.

Lemma sortByTests_unreadable (before after : list string) (f e : string) :
  forall wt wo,
    Forall (readable w) before ->
    readFileSync w f = Throw e ->
    TestGenerator.sortByTests w (before ++ f :: after) wt wo
    = ((before ++ [f])%list, Throw e).
Proof.
  induction before as [| b before IH]; intros wt wo Hall Hf; cbn [app TestGenerator.sortByTests].
  - unfold readFile. rewrite Hf. reflexivity.
  - inversion Hall as [| ? ? [content Hb] Hrest]; subst.
    unfold readFile. rewrite Hb. cbn [bind].
    destruct (existsSync w (TestGenerator.getTestFilePath b)); rewrite IH by assumption;
      reflexivity.
Qed.

Lemma doc_analyzeFiles_stops (before after : list string) (f e : string) :
  forall a,
    Forall (fun key => inherits key = false) (keys (DocumentationGenerator.packages a)) ->
    Forall (doc_passes w) before ->
    doc_stops w f e ->
    DocumentationGenerator.analyzeFiles w (before ++ f :: after) a
    = ((before ++ [f])%list, Throw e).
Proof.
  induction before as [| b before IH]; intros a Ha Hall Hf;
    cbn [app DocumentationGenerator.analyzeFiles]; unfold readFile.
  - destruct Hf as [Hf | [content [Hf [Hi ->]]]]; rewrite Hf; [reflexivity |].
    cbn [bind]. rewrite (doc_addRecord_own _ _ Ha), Hi. reflexivity.
  - inversion Hall as [| ? ? [content [Hb Hi]] Hrest]; subst.
    rewrite Hb. cbn [bind]. rewrite (doc_addRecord_own _ _ Ha), Hi.
    rewrite (IH _ (doc_store_own _ _ Hi Ha) Hrest Hf). reflexivity.
Qed.
End ReadingAll.

(** X24.  Called without a class name, generate_tests stops at the first
    Java file it cannot read: the files after it are not read, no partial
    report is returned, and the answer is the error text of that read. *)
Theorem generate_tests_stops_at_unreadable (w : World) (projectPath : string)
    (before after : list string) (f e : string) :
  findJavaFiles TestGenerator.shouldSkipDirectory w projectPath
  = (before ++ f :: after)%list ->
  Forall (readable w) before ->
  readFileSync w f = Throw e ->
  TestGenerator.execute w (Some (allClasses projectPath))
  = ((before ++ [f])%list, Normal ("Error generating tests: " ++ e)).
Proof.
  intros Hfiles Hbefore Hf.
  unfold TestGenerator.execute, destructure, TestGenerator.tryBlock.
  cbn [allClasses TestGenerator.projectPath TestGenerator.a_className
       TestGenerator.testFramework].
  rewrite Hfiles.
  replace (List.length (before ++ f :: after) =? 0) with false
    by (symmetry; apply Nat.eqb_neq; rewrite length_app; simpl; lia).
  unfold TestGenerator.generateTestsForAllClasses.
  rewrite (sortByTests_unreadable w before after f e [] [] Hbefore Hf).
  cbn [bind tryCatch ret]. rewrite app_nil_r. reflexivity.
Qed.

Lemma generate_tests_stops_at_unreadable_witness :
  TestGenerator.execute lockedProject (Some (allClasses "/p"))
  = (["/p/Locked.java"], Normal "Error generating tests: EACCES: permission denied").
Proof.
  apply (generate_tests_stops_at_unreadable lockedProject "/p" [] [] "/p/Locked.java"
           "EACCES: permission denied").
  - reflexivity.
  - constructor.
  - reflexivity.
Defined.

(** X25.  generate_documentation stops at the first Java file that cannot
    be read, or whose package is named like a member every object
    inherits, when the files before it go through: the files after it are
    not read, the answer is the error text of that read or of the
    TypeError, and the steps that render and save documents are never
    reached, so the answer is the same whatever those steps would do. *)
Theorem generate_documentation_stops_at_unreadable (w : World)
    (writeDocuments : DocumentationGenerator.Args -> list string ->
                      DocumentationGenerator.Analysis -> Effect string)
    (args : DocumentationGenerator.Args) (before after : list string) (f e : string) :
  findJavaFiles DocumentationGenerator.shouldSkipDirectory w
    (DocumentationGenerator.projectPath args)
  = (before ++ f :: after)%list ->
  Forall (doc_passes w) before ->
  doc_stops w f e ->
  DocumentationGenerator.execute w writeDocuments (Some args)
  = ((before ++ [f])%list, Normal ("Error generating documentation: " ++ e)).
Proof.
  intros Hfiles Hbefore Hf.
  unfold DocumentationGenerator.execute, destructure, DocumentationGenerator.tryBlock.
  rewrite Hfiles.
  replace (List.length (before ++ f :: after) =? 0) with false
    by (symmetry; apply Nat.eqb_neq; rewrite length_app; simpl; lia).
  unfold DocumentationGenerator.analyzeProject.
  assert (H0 : Forall (fun key => inherits key = false)
                 (keys (DocumentationGenerator.packages
                          DocumentationGenerator.emptyAnalysis))) by constructor.
  rewrite (doc_analyzeFiles_stops w before after f e _ H0 Hbefore Hf).
  cbn [bind tryCatch ret]. rewrite app_nil_r. reflexivity.
Qed.

Lemma generate_documentation_stops_at_unreadable_witness :
  DocumentationGenerator.execute lockedProject (fun _ _ _ => ret "written")
    (Some {| DocumentationGenerator.projectPath := "/p";
             DocumentationGenerator.outputPath := None;
             DocumentationGenerator.documentationType := None;
             DocumentationGenerator.includePrivate := None |})
  = (["/p/Locked.java"],
     Normal "Error generating documentation: EACCES: permission denied")
  /\ DocumentationGenerator.execute shadowedProject (fun _ _ _ => ret "written")
       (Some {| DocumentationGenerator.projectPath := "/p";
                DocumentationGenerator.outputPath := None;
                DocumentationGenerator.documentationType := None;
                DocumentationGenerator.includePrivate := None |})
     = (["/p/A.java"; "/p/B.java"],
        Normal "Error generating documentation: Cannot read properties of undefined (reading 'push')").
Proof.
  split.
  - apply (generate_documentation_stops_at_unreadable lockedProject _ _ [] []
             "/p/Locked.java" "EACCES: permission denied").
    + reflexivity.
    + constructor.
    + left. reflexivity.
  - apply (generate_documentation_stops_at_unreadable shadowedProject _ _
             ["/p/A.java"] ["/p/C.java"] "/p/B.java" pushOfUndefined).
    + reflexivity.
    + repeat constructor. eexists. split; reflexivity.
    + right. eexists. repeat split; reflexivity.
Defined.

(** ** Guarded ratios *)

Section Binary64.
Open Scope Z_scope.

Lemma shr_1_nonneg (mrs : shr_record) : nonneg mrs -> nonneg (shr_1 mrs).
Proof.
  unfold nonneg. destruct mrs as [m r s]. cbn [shr_m]. intros H.
  destruct m as [| p | p]; [cbn; lia | | lia].
  destruct p; cbn; lia.
Qed.

Lemma iter_pos_nonneg (p : positive) : forall mrs,
  nonneg mrs -> nonneg (iter_pos shr_1 p mrs).
Proof.
  induction p as [p IH | p IH |]; intros mrs H; cbn [iter_pos].
  - apply IH, IH, shr_1_nonneg, H.
  - apply IH, IH, H.
  - apply shr_1_nonneg, H.
Qed.

Lemma shr_nonneg (mrs : shr_record) (e n : Z) :
  nonneg mrs -> nonneg (fst (shr mrs e n)).
Proof.
  intros H. unfold shr. destruct n; cbn [fst]; [exact H | | exact H].
  apply iter_pos_nonneg, H.
Qed.

Lemma shr_fexp_nonneg (m e : Z) (l : location) :
  0 <= m -> nonneg (fst (shr_fexp Number.prec Number.emax m e l)).
Proof.
  intros H. unfold shr_fexp. apply shr_nonneg. unfold nonneg.
  destruct l as [| []]; exact H.
Qed.

Lemma round_nearest_even_nonneg (m : Z) (l : location) :
  0 <= m -> 0 <= round_nearest_even m l.
Proof.
  intros H. unfold round_nearest_even.
  destruct l as [| []]; try lia. destruct (Z.even m); lia.
Qed.

(** Rounding a non-negative mantissa never yields NaN. *)
Lemma binary_round_aux_number (sx : bool) (mx ex : Z) (lx : location) :
  0 <= mx ->
  Number.isNaN (binary_round_aux Number.prec Number.emax sx mx ex lx) = false.
Proof.
  intros H. unfold binary_round_aux.
  pose proof (shr_fexp_nonneg mx ex lx H) as H1.
  destruct (shr_fexp Number.prec Number.emax mx ex lx) as [mrs' e'].
  cbn [fst] in H1.
  pose proof (shr_fexp_nonneg
                (round_nearest_even (shr_m mrs') (loc_of_shr_record mrs')) e' loc_Exact
                (round_nearest_even_nonneg _ _ H1)) as H2.
  destruct (shr_fexp Number.prec Number.emax _ e' loc_Exact) as [mrs'' e''].
  cbn [fst] in H2. unfold nonneg in H2.
  destruct (shr_m mrs'') as [| p | p]; [reflexivity | | lia].
  destruct (e'' <=? Number.emax - Number.prec); reflexivity.
Qed.

Lemma ofNat_number (n : nat) : Number.isNaN (Number.ofNat n) = false.
Proof.
  unfold Number.ofNat, binary_normalize.
  destruct (Z.of_nat n) as [| p | p] eqn:E; [reflexivity | | lia].
  unfold binary_round. destruct (shl_align _ _ _) as [mz ez].
  apply binary_round_aux_number. lia.
Qed.

Lemma digits2_iter (p k : positive) :
  digits2_pos (Pos.iter xO p k) = (digits2_pos p + k)%positive.
Proof.
  induction k as [| k IH] using Pos.peano_ind.
  - cbn. lia.
  - rewrite Pos.iter_succ. cbn [digits2_pos]. rewrite IH. lia.
Qed.

Lemma digits2_bound (p : positive) : forall n : nat,
  Zpos p < 2 ^ Z.of_nat n -> Zpos (digits2_pos p) <= Z.of_nat n.
Proof.
  induction p as [p IH | p IH |]; intros n H.
  - destruct n as [| n]; [cbn in H; lia |].
    rewrite Nat2Z.inj_succ, Z.pow_succ_r in H by lia.
    cbn [digits2_pos]. specialize (IH n). lia.
  - destruct n as [| n]; [cbn in H; lia |].
    rewrite Nat2Z.inj_succ, Z.pow_succ_r in H by lia.
    cbn [digits2_pos]. specialize (IH n). lia.
  - destruct n as [| n]; [cbn in H; lia |]. cbn [digits2_pos]. lia.
Qed.

(** A positive integer of at most 53 bits is a finite binary64 number. *)
Lemma ofNat_finite (n : nat) :
  (0 < n)%nat -> Z.of_nat n < 2 ^ 53 ->
  exists m e, Number.ofNat n = S754_finite false m e.
Proof.
  intros Hpos Hlt. unfold Number.ofNat, binary_normalize.
  destruct (Z.of_nat n) as [| p | p] eqn:E; [lia | | lia].
  pose proof (digits2_bound p 53 Hlt) as Hd. change (Z.of_nat 53) with 53 in Hd.
  unfold binary_round.
  assert (Hal : exists mz,
            shl_align p 0 (fexp Number.prec Number.emax (Zpos (digits2_pos p) + 0))
            = (mz, Zpos (digits2_pos p) - 53)
            /\ Zpos (digits2_pos mz) = 53).
  { unfold shl_align, fexp, emin, Number.prec, Number.emax.
    rewrite Z.add_0_r, Z.sub_0_r.
    replace (Z.max (Zpos (digits2_pos p) - 53) (3 - 1024 - 53))
      with (Zpos (digits2_pos p) - 53) by lia.
    destruct (Zpos (digits2_pos p) - 53) as [| k | k] eqn:Ek; [| lia |].
    - exists p. split; [reflexivity | lia].
    - exists (Pos.iter xO p k). split; [reflexivity |].
      rewrite digits2_iter. lia. }
  destruct Hal as [mz [Hal Hdig]]. rewrite Hal.
  unfold binary_round_aux.
  assert (Hshr : forall l, l = loc_Exact ->
            shr_fexp Number.prec Number.emax (Zpos mz) (Zpos (digits2_pos p) - 53) l
            = ({| shr_m := Zpos mz; shr_r := false; shr_s := false |},
               Zpos (digits2_pos p) - 53)).
  { intros l ->. unfold shr_fexp, fexp, emin, Number.prec, Number.emax.
    cbn [Zdigits2 shr_record_of_loc]. rewrite Hdig.
    replace (Z.max (53 + (Zpos (digits2_pos p) - 53) - 53) (3 - 1024 - 53)
             - (Zpos (digits2_pos p) - 53)) with 0 by lia.
    reflexivity. }
  rewrite (Hshr loc_Exact eq_refl).
  cbn [shr_m loc_of_shr_record round_nearest_even].
  rewrite (Hshr loc_Exact eq_refl). cbn [shr_m].
  replace (Zpos (digits2_pos p) - 53 <=? Number.emax - Number.prec) with true
    by (symmetry; apply Z.leb_le; unfold Number.emax, Number.prec; lia).
  eexists. eexists. reflexivity.
Qed.

(** A quotient by a positive integer of at most 53 bits is never NaN. *)
Lemma div_number (a b : nat) :
  (0 < b)%nat -> Z.of_nat b < 2 ^ 53 ->
  Number.isNaN (Number.div (Number.ofNat a) (Number.ofNat b)) = false.
Proof.
  intros Hpos Hlt. destruct (ofNat_finite b Hpos Hlt) as [m [e Hb]]. rewrite Hb.
  pose proof (ofNat_number a) as Ha.
  unfold Number.div, SFdiv.
  destruct (Number.ofNat a) as [s | s | | s ma ea]; try reflexivity; [discriminate |].
  unfold SFdiv_core_binary.
  set (m' := match _ - _ with Z0 => Zpos ma | Zpos _ => _ | Zneg _ => 0 end).
  assert (Hm' : 0 <= m').
  { unfold m'. destruct (_ - _); try lia. apply Z.shiftl_nonneg. lia. }
  pose proof (Z.div_eucl_eq m' (Zpos m)) as Hq.
  pose proof (Z.mod_pos_bound m' (Zpos m)) as Hr.
  unfold Z.modulo in Hr.
  destruct (Z.div_eucl m' (Zpos m)) as [q r].
  apply binary_round_aux_number.
  specialize (Hq ltac:(lia)). specialize (Hr ltac:(lia)). nia.
Qed.

Lemma mul_number (x : Number.number) (n : nat) :
  Number.isNaN x = false -> (0 < n)%nat -> Z.of_nat n < 2 ^ 53 ->
  Number.isNaN (Number.mul x (Number.ofNat n)) = false.
Proof.
  intros Hx Hpos Hlt. destruct (ofNat_finite n Hpos Hlt) as [m [e Hn]]. rewrite Hn.
  unfold Number.mul, SFmul.
  destruct x as [s | s | | s mx ex]; try reflexivity; [discriminate |].
  apply binary_round_aux_number. lia.
Qed.
End Binary64.

Section GuardedRatios.
Import ProjectStructureAnalyzer.

Lemma guarded_number (a n : nat) :
  (Z.of_nat n < 2 ^ 53)%Z ->
  Number.isNaN (Number.div (Number.ofNat a) (Number.ofNat (Nat.max n 1))) = false.
Proof.
  intros H. apply div_number; [lia |].
  destruct (Nat.max_spec n 1) as [[_ ->] | [_ ->]]; [reflexivity | exact H].
Qed.

(** X26.  Every ratio of the structure report whose divisor goes through
    [Math.max(..., 1)] is a number: for a project of fewer than [2^53]
    classes and interfaces, the class/interface ratio, the abstraction
    level, the average number of methods per class and the average number of
    fields per class are never NaN, whatever the counts. *)
Theorem psa_guarded_ratios_are_numbers (a : Analysis) :
  (Z.of_nat (List.length (classes a) + List.length (interfaces a)) < 2 ^ 53)%Z ->
  Number.isNaN (classInterfaceRatio a) = false
  /\ Number.isNaN (abstractionLevel a) = false
  /\ Number.isNaN (avgMethodsPerClass a) = false
  /\ Number.isNaN (avgFieldsPerClass a) = false.
Proof.
  intros H.
  unfold classInterfaceRatio, abstractionLevel, avgMethodsPerClass, avgFieldsPerClass.
  repeat split.
  - apply guarded_number. lia.
  - apply mul_number; [apply guarded_number; exact H | lia | reflexivity].
  - apply guarded_number. lia.
  - apply guarded_number. lia.
Qed.

Lemma psa_guarded_ratios_are_numbers_witness :
  Number.isNaN (classInterfaceRatio emptyAnalysis) = false
  /\ Number.isNaN (abstractionLevel emptyAnalysis) = false
  /\ Number.isNaN (avgMethodsPerClass emptyAnalysis) = false
  /\ Number.isNaN (avgFieldsPerClass emptyAnalysis) = false.
Proof.
  apply (psa_guarded_ratios_are_numbers emptyAnalysis). reflexivity.
Defined.

Lemma sum_ones {A : Type} (l : list A) : sum (map (fun _ => 1) l) = List.length l.
Proof.
  induction l as [| x l IH]; [reflexivity |].
  cbn [map List.length]. rewrite sum_cons, IH. reflexivity.
Qed.

Lemma unguarded_nan (a n : nat) :
  (n = 0 -> a = 0) ->
  (Z.of_nat n < 2 ^ 53)%Z ->
  (Number.isNaN (Number.div (Number.ofNat a) (Number.ofNat n)) = true <-> n = 0).
Proof.
  intros Ha H. split.
  - intros E. destruct n as [| n]; [reflexivity |].
    rewrite div_number in E by (try lia; exact H). discriminate.
  - intros ->. rewrite (Ha eq_refl). reflexivity.
Qed.

(** X27.  The two averages of the structure report that divide by a bare
    length are NaN exactly on an empty list: the average inheritance depth
    when the project has no class, the average class complexity when no
    package holds a class (lists of fewer than [2^53] elements). *)
Theorem psa_unguarded_averages (a : Analysis) :
  (Z.of_nat (List.length (classes a)) < 2 ^ 53)%Z ->
  (Z.of_nat (List.length (complexities a)) < 2 ^ 53)%Z ->
  (Number.isNaN (inheritanceAvgDepth (classes a)) = true <-> classes a = [])
  /\ (Number.isNaN (avgComplexity a) = true <-> complexities a = []).
Proof.
  intros Hc Hx. unfold inheritanceAvgDepth, avgComplexity. split.
  - rewrite sum_ones, <- length_zero_iff_nil.
    apply unguarded_nan; [trivial | exact Hc].
  - rewrite <- length_zero_iff_nil.
    apply unguarded_nan; [| exact Hx].
    intros E. apply length_zero_iff_nil in E. rewrite E. reflexivity.
Qed.

Lemma psa_unguarded_averages_witness :
  (Number.isNaN (inheritanceAvgDepth (classes emptyAnalysis)) = true
   <-> classes emptyAnalysis = [])
  /\ (Number.isNaN (avgComplexity emptyAnalysis) = true
      <-> complexities emptyAnalysis = []).
Proof.
  apply (psa_unguarded_averages emptyAnalysis); reflexivity.
Defined.
End GuardedRatios.

(** ** The request handler *)

Section Dispatch.
Variable execute : Tool -> Effect string.

Lemma getName_injective (t u : Tool) : getName t = getName u -> t = u.
Proof. destruct t, u; intros E; try reflexivity; discriminate E. Qed.

Lemma find_tool (t : Tool) :
  find (fun u => String.eqb (getName u) (getName t)) tools = Some t.
Proof. destruct t; reflexivity. Qed.

Lemma find_unknown (name : string) :
  (forall t, getName t <> name) ->
  find (fun u => String.eqb (getName u) name) tools = None.
Proof.
  intros H.
  destruct (find _ tools) as [t |] eqn:E; [| reflexivity].
  apply find_some in E. destruct E as [_ E].
  apply String.eqb_eq in E. destruct (H t E).
Qed.

(** X28.  A call is answered by the tool of that name and by no other: what
    the tool reads is what the call reads, its result comes back as the
    text, and an exception of the tool comes back as a result marked
    [isError] whose text names the tool and the message.  A name that no
    tool has is the one case in which the handler itself throws. *)
Theorem callTool_dispatch (name : string) :
  (forall t, getName t = name ->
     reads (callTool execute name) = reads (execute t)
     /\ outcome (callTool execute name)
        = match outcome (execute t) with
          | Normal result => Normal {| text := result; isError := false |}
          | Throw error =>
              Normal {| text := "Error executing tool " ++ name ++ ": " ++ error;
                        isError := true |}
          end)
  /\ ((forall t, getName t <> name) ->
      callTool execute name = throw ("Unknown tool: " ++ name)).
Proof.
  split.
  - intros t <-. unfold callTool. rewrite find_tool.
    destruct (execute t) as [tr [result | error]]; cbn;
      rewrite app_nil_r; split; reflexivity.
  - intros H. unfold callTool. rewrite (find_unknown name H). reflexivity.
Qed.
End Dispatch.

Lemma callTool_dispatch_witness :
  outcome (callTool (fun _ => throw "EACCES") "generate_tests")
  = Normal {| text := "Error executing tool generate_tests: EACCES";
              isError := true |}
  /\ callTool (fun _ => throw "EACCES") "format_code"
     = throw "Unknown tool: format_code".
Proof.
  split.
  - apply (proj1 (callTool_dispatch (fun _ => throw "EACCES") "generate_tests")
             generate_tests eq_refl).
  - apply (proj2 (callTool_dispatch (fun _ => throw "EACCES") "format_code")).
    intros t; destruct t; discriminate.
Defined.

(** ** The coverage summary *)

Section Coverage.
Variable w : World.

Lemma sortByTests_filter (files : list string) : forall wt wo,
  Forall (readable w) files ->
  outcome (TestGenerator.sortByTests w files wt wo)
  = Normal ((wt ++ map (classNameOf w) (filter (hasTestFile w) files))%list,
            (wo ++ map (classNameOf w)
                     (filter (fun f => negb (hasTestFile w f)) files))%list).
Proof.
  induction files as [| f files IH]; intros wt wo Hall;
    cbn [TestGenerator.sortByTests filter map].
  - rewrite !app_nil_r. reflexivity.
  - inversion Hall as [| ? ? [content Hf] Hrest]; subst.
    unfold readFile, classNameOf, hasTestFile in *. rewrite Hf. cbn [bind].
    destruct (existsSync w (TestGenerator.getTestFilePath f)); cbn [negb map];
      rewrite Hf;
      match goal with
      | |- context [TestGenerator.sortByTests w files ?a ?b] =>
          specialize (IH a b Hrest);
          destruct (TestGenerator.sortByTests w files a b) as [t r]
      end;
      cbn [outcome snd] in *; rewrite IH, <- app_assoc; reflexivity.
Qed.

(** X29.  When every file can be read, the coverage pass of generate_tests
    sorts each file into exactly one of its two lists: the classes with
    tests are the class names of the files whose test file exists, the
    classes without tests those of the other files, both in walk order, so
    the two counts of the summary add up to the number of classes found. *)
Theorem sortByTests_partition (files : list string) :
  Forall (readable w) files ->
  exists withTests withoutTests,
    outcome (TestGenerator.sortByTests w files [] []) = Normal (withTests, withoutTests)
    /\ withTests = map (classNameOf w) (filter (hasTestFile w) files)
    /\ withoutTests
       = map (classNameOf w) (filter (fun f => negb (hasTestFile w f)) files)
    /\ List.length withTests + List.length withoutTests = List.length files.
Proof.
  intros Hall. eexists. eexists.
  split; [apply (sortByTests_filter files [] [] Hall) |].
  split; [reflexivity |]. split; [reflexivity |].
  cbn [app]. rewrite !length_map.
  clear Hall. induction files as [| f files IH]; [reflexivity |].
  cbn [filter]. destruct (hasTestFile w f); cbn [negb List.length]; lia.
Qed.
End Coverage.

Lemma sortByTests_partition_witness :
  exists withTests withoutTests,
    outcome (TestGenerator.sortByTests shapesProject
               ["/p/Shape.java"; "/p/Circle.java"] [] [])
    = Normal (withTests, withoutTests)
    /\ withTests
       = map (classNameOf shapesProject)
             (filter (hasTestFile shapesProject) ["/p/Shape.java"; "/p/Circle.java"])
    /\ withoutTests
       = map (classNameOf shapesProject)
             (filter (fun f => negb (hasTestFile shapesProject f))
                     ["/p/Shape.java"; "/p/Circle.java"])
    /\ List.length withTests + List.length withoutTests = 2.
Proof.
  apply (sortByTests_partition shapesProject ["/p/Shape.java"; "/p/Circle.java"]).
  repeat constructor; eexists; reflexivity.
Defined.

(** X23.  Called without a class name on a project with Java files that
    can all be read, generate_tests reads every file the walk found exactly
    once, in walk order, and answers with the coverage report for the
    default framework: the number of files, and the class names of the
    files with and without a test file. *)
Theorem generate_tests_reads_every_file (w : World) (projectPath : string) :
  let files := findJavaFiles TestGenerator.shouldSkipDirectory w projectPath in
  files <> [] ->
  Forall (readable w) files ->
  TestGenerator.execute w (Some (allClasses projectPath))
  = (files,
     Normal (TestGenerator.coverageReport "junit5" (List.length files)
               (map (classNameOf w) (filter (hasTestFile w) files))
               (map (classNameOf w) (filter (fun f => negb (hasTestFile w f)) files)))).
Proof.
  intros files Hne Hall.
  unfold TestGenerator.execute, destructure, TestGenerator.tryBlock.
  cbn [allClasses TestGenerator.projectPath TestGenerator.a_className
       TestGenerator.testFramework].
  fold files. destruct files as [| f fs] eqn:Hfiles; [contradiction |].
  cbn [List.length Nat.eqb]. unfold TestGenerator.generateTestsForAllClasses.
  pose proof (sortByTests_filter w (f :: fs) [] [] Hall) as Ho.
  destruct (sortByTests_readable w (f :: fs) [] [] Hall) as [wt [wo [E _]]].
  rewrite E in Ho. cbn [outcome snd app] in Ho. inversion Ho as [[Hwt Hwo]].
  rewrite E. cbn [bind app tryCatch ret]. rewrite app_nil_r.
  cbn [app]. rewrite Hwt, Hwo. reflexivity.
Qed.

Lemma generate_tests_reads_every_file_witness :
  reads (TestGenerator.execute usersProject (Some (allClasses "/p")))
  = ["/p/src/users/Admin.java"; "/p/src/model/User.java"]
  /\ includesText
       (match outcome (TestGenerator.execute usersProject (Some (allClasses "/p"))) with
        | Normal text => Some text
        | Throw _ => None
        end)
       "- **Classes with tests:** 2" = true.
Proof.
  assert (H : Forall (readable usersProject)
                (findJavaFiles TestGenerator.shouldSkipDirectory usersProject "/p")).
  { repeat constructor; eexists; reflexivity. }
  assert (Hne : findJavaFiles TestGenerator.shouldSkipDirectory usersProject "/p" <> [])
    by (vm_compute; discriminate).
  rewrite (generate_tests_reads_every_file usersProject "/p" Hne H).
  split; vm_compute; reflexivity.
Defined.
